(** * Web-Scraping-Pipeline: the resumable enrichment stages

    A shallow embedding of [step2_relevancy_filter.py] (the Batch Classifier)
    and [step5_analysis.py] (the Concurrent Item Analyzer) together with the
    Python string operations they rely on, of the output file of the
    analyzer as [to_csv] writes it and [pd.read_csv] reads it back, and of
    the orchestrator [master_file.py], followed by the properties of the
    specification proved (or refuted) on that embedding.

    External collaborators (the Gemini client, [json.loads], the
    [thefuzz] scorer, the column typing of pandas, the file system, the
    child processes) are parameters of the model: records of oracles that
    say what each call answers. *)

From Stdlib Require Import Ascii String List ZArith Bool Arith Lia Permutation.
From Stdlib Require Import Numbers.DecimalString.
From Stdlib Require Import Sorted.
Import ListNotations.

#[local] Set Warnings "-register-all".

Local Open Scope list_scope.
Local Open Scope string_scope.

(* ================================================================== *)
(** * Python values and string operations *)
(* ================================================================== *)

Module Py.

(** Characters are code points below 256 (ASCII and Latin-1); a Python [str]
    is a [string] of them. *)

Definition code (c : ascii) : nat := nat_of_ascii c.

Definition between (lo hi n : nat) : bool := (lo <=? n)%nat && (n <=? hi)%nat.

(** [str.isspace] on one character, which is also what [\s] matches and what
    [str.split()] and [str.strip()] cut at. *)
Definition is_space (c : ascii) : bool :=
  let n := code c in
  between 9 13 n || between 28 32 n || (n =? 133)%nat || (n =? 160)%nat.

(** The character class [a-z0-9]. *)
Definition is_lower_alnum (c : ascii) : bool :=
  let n := code c in between 97 122 n || between 48 57 n.

(** [str.lower] on one character: A-Z, and the Latin-1 capitals except the
    multiplication sign, move up by 32. *)
Definition lower_char (c : ascii) : ascii :=
  let n := code c in
  if between 65 90 n || (between 192 222 n && negb (n =? 215)%nat)
  then ascii_of_nat (n + 32) else c.

Fixpoint lower (s : string) : string :=
  match s with
  | EmptyString => EmptyString
  | String c s' => String (lower_char c) (lower s')
  end.

(** [needle in hay]. *)
Fixpoint contains (needle hay : string) : bool :=
  prefix needle hay ||
  match hay with
  | EmptyString => false
  | String _ hay' => contains needle hay'
  end.

(** [s.endswith(suf)]. *)
Fixpoint endswith (suf s : string) : bool :=
  (s =? suf) ||
  match s with
  | EmptyString => false
  | String _ s' => endswith suf s'
  end.

(** [s.replace(old, new)] for a non-empty [old]: occurrences are replaced
    from the left and do not overlap; [skip] counts the characters of a
    matched occurrence still to be dropped. *)
Fixpoint replace_from (old new : string) (skip : nat) (s : string) : string :=
  match s with
  | EmptyString => EmptyString
  | String c s' =>
      match skip with
      | S k => replace_from old new k s'
      | O =>
          if prefix old s
          then new ++ replace_from old new (String.length old - 1) s'
          else String c (replace_from old new 0 s')
      end
  end.

Definition replace (old new s : string) : string := replace_from old new 0 s.

(** [s.split()]: the maximal runs of non-space characters. [cur] is the run
    being read. *)
Fixpoint split_from (cur : string) (s : string) : list string :=
  match s with
  | EmptyString => if (cur =? "") then [] else [cur]
  | String c s' =>
      if is_space c
      then (if (cur =? "") then split_from "" s' else cur :: split_from "" s')
      else split_from (cur ++ String c "") s'
  end.

Definition split (s : string) : list string := split_from "" s.

(** [sep.join(parts)]. *)
Fixpoint join (sep : string) (parts : list string) : string :=
  match parts with
  | [] => ""
  | [p] => p
  | p :: rest => p ++ sep ++ join sep rest
  end.

Fixpoint lstrip (s : string) : string :=
  match s with
  | EmptyString => EmptyString
  | String c s' => if is_space c then lstrip s' else s
  end.

Fixpoint rstrip (s : string) : string :=
  match s with
  | EmptyString => EmptyString
  | String c s' =>
      let r := rstrip s' in
      if is_space c && (r =? "") then "" else String c r
  end.

(** [s.strip()]. *)
Definition strip (s : string) : string := rstrip (lstrip s).

(** [s[:n]]. *)
Definition take (n : nat) (s : string) : string := substring 0 n s.

(** The line feed and the double quote, for the texts that hold them. *)
Definition nl : string := String (ascii_of_nat 10) EmptyString.
Definition dq : string := String (ascii_of_nat 34) EmptyString.

(** The scalar values a table cell or a JSON member holds: [None], the
    float [nan] of an empty CSV cell, booleans, integers and strings.
    Other floats are left out of the model. *)
Inductive pyval : Type :=
| PyNone
| PyNaN
| PyBool (b : bool)
| PyInt (z : Z)
| PyStr (s : string).

(** [str(v)]. *)
Definition py_str (v : pyval) : string :=
  match v with
  | PyNone => "None"
  | PyNaN => "nan"
  | PyBool true => "True"
  | PyBool false => "False"
  | PyInt z => NilZero.string_of_int (Z.to_int z)
  | PyStr s => s
  end.

(** [a == b], which is also the equality of dictionary keys: a boolean is
    the integer 0 or 1, and [nan] equals nothing. *)
Definition as_int (v : pyval) : option Z :=
  match v with
  | PyBool b => Some (if b then 1 else 0)%Z
  | PyInt z => Some z
  | _ => None
  end.

Definition py_eq (a b : pyval) : bool :=
  match a, b with
  | PyNone, PyNone => true
  | PyStr s, PyStr t => (s =? t)
  | _, _ =>
      match as_int a, as_int b with
      | Some x, Some y => (x =? y)%Z
      | _, _ => false
      end
  end.

(** What [json.loads] returns: a scalar, a list, or a dict whose members
    are scalars (both prompts of the pipeline ask for flat objects; nested
    members are left out of the model). A dict is listed by its items, keys
    distinct as in Python. *)
Inductive json : Type :=
| JVal (v : pyval)
| JList (items : list json)
| JDict (fields : list (string * pyval)).

(** [d.get(key, default)]. *)
Fixpoint dict_get (key : string) (fields : list (string * pyval))
  (default : pyval) : pyval :=
  match fields with
  | [] => default
  | (k, v) :: rest => if (k =? key) then v else dict_get key rest default
  end.

(** [type(v).__name__], as the messages of [AttributeError] and [TypeError]
    print it. *)
Definition type_name (j : json) : string :=
  match j with
  | JVal PyNone => "NoneType"
  | JVal PyNaN => "float"
  | JVal (PyBool _) => "bool"
  | JVal (PyInt _) => "int"
  | JVal (PyStr _) => "str"
  | JList _ => "list"
  | JDict _ => "dict"
  end.

Definition no_attribute (ty attr : string) : string :=
  "'" ++ ty ++ "' object has no attribute '" ++ attr ++ "'".

Definition not_iterable (ty : string) : string :=
  "'" ++ ty ++ "' object is not iterable".

(** A Python computation that may raise: [inl] carries [str(e)]. *)
Definition result (A : Type) : Type := (string + A)%type.

(** The text of a model answer as the stages clean it:
    [text.replace("```json", "").replace("```", "").strip()]. *)
Definition strip_fences (text : string) : string :=
  strip (replace "```" "" (replace "```json" "" text)).

End Py.

(* ================================================================== *)
(** * step5_analysis.py: the Concurrent Item Analyzer *)
(* ================================================================== *)

Module Step5.
Import Py.

(** [normalize_text]: [str(text).lower().replace('.pdf', '')], then
    [re.sub(r'[^a-z0-9\s]', ' ', text)], then [" ".join(text.split())]. *)
Definition sub_char (c : ascii) : ascii :=
  if is_lower_alnum c || is_space c then c else " "%char.

Fixpoint re_sub_non_alnum (s : string) : string :=
  match s with
  | EmptyString => EmptyString
  | String c s' => String (sub_char c) (re_sub_non_alnum s')
  end.

Definition normalize_text (text : pyval) : string :=
  let text := replace ".pdf" "" (lower (py_str text)) in
  let text := re_sub_non_alnum text in
  join " " (split text).

(** The collaborators of the stage that are pure functions:
    [fuzz.token_set_ratio] and [json.loads] ([inl] is the message of the
    [JSONDecodeError] it raises). *)
Record library : Type := {
  token_set_ratio : string -> string -> Z;
  json_loads : string -> result json
}.

Section Matching.
Variable lib : library.

(** One turn of the loop of [find_best_local_match]. *)
Definition consider (clean_cit : string) (best : option string * Z)
  (fname : string) : option string * Z :=
  let clean_file := normalize_text (PyStr fname) in
  let score := token_set_ratio lib clean_cit clean_file in
  if (snd best <? score)%Z then (Some fname, score) else best.

Definition find_best_local_match (citation : string)
  (local_files : list string) : option string * Z :=
  let clean_cit := normalize_text (PyStr citation) in
  fold_left (consider clean_cit) local_files (None, (-1)%Z).

End Matching.

(** ** One task: [analyze_single_paper] *)

(** [gemini_file.state]: absent, or one of the service's states. *)
Inductive file_state : Type :=
| STATE_UNSPECIFIED | PROCESSING | ACTIVE | FAILED.

Definition remote_file : Type := option file_state.

(** What the outside world answers to one task: whether [shutil.copy2]
    raises, what [files.upload] gives, what the [k]-th [files.get] gives,
    what [generate_content] gives ([response.text] may be [None]), and
    whether [files.delete] raises. *)
Record session : Type := {
  copy2 : result unit;
  files_upload : result remote_file;
  files_get : nat -> result remote_file;
  generate_content : result (option string);
  files_delete : result unit
}.

Inductive event : Type :=
| EvUpload
| EvSleep (seconds : Z)
| EvGet
| EvGenerate
| EvDelete.

(** [gemini_file.state.name]. *)
Definition state_name (f : remote_file) : result file_state :=
  match f with
  | None => inl (no_attribute "NoneType" "name")
  | Some st => inr st
  end.

(** The loop [while gemini_file.state.name == "PROCESSING"]: [k] polls
    have been made so far. [None] when [fuel] polls did not see the file
    leave PROCESSING; the source has no such bound. *)
Fixpoint wait_while_processing (fuel : nat) (s : session) (k : nat)
  (f : remote_file) (log : list event)
  : option (result remote_file) * list event :=
  match state_name f with
  | inl e => (Some (inl e), log)
  | inr PROCESSING =>
      match fuel with
      | O => (None, log)
      | S fuel' =>
          let log := (log ++ [EvSleep 1; EvGet])%list in
          match files_get s k with
          | inl e => (Some (inl e), log)
          | inr f' => wait_while_processing fuel' s (S k) f' log
          end
      end
  | inr _ => (Some (inr f), log)
  end.

(** What [analyze_single_paper] returns besides the row index: the method
    and the reason. *)
Definition verdict : Type := (pyval * pyval)%type.

(** The lines after the polling loop, inside the [try], with the calls
    they make. *)
Definition classify (lib : library) (s : session) (f : remote_file)
  : result verdict * list event :=
  match state_name f with
  | inl e => (inl e, [])
  | inr FAILED => (inr (PyStr "Error", PyStr "File processing failed"), [])
  | inr _ =>
      match generate_content s with
      | inl e => (inl e, [EvGenerate])
      | inr text =>
          (* try: client.files.delete(...) except: pass *)
          let _ := files_delete s in
          let log := [EvGenerate; EvDelete] in
          match text with
          | None => (inl (no_attribute "NoneType" "replace"), log)
          | Some text =>
              match json_loads lib (strip_fences text) with
              | inl e => (inl e, log)
              | inr (JDict data) =>
                  (inr (dict_get "methodology" data (PyStr "Unknown"),
                        dict_get "reason" data (PyStr "")), log)
              | inr other => (inl (no_attribute (type_name other) "get"), log)
              end
          end
      end
  end.

(** The body of the [try]. *)
Definition attempt (lib : library) (fuel : nat) (s : session)
  : option (result verdict) * list event :=
  match copy2 s with
  | inl e => (Some (inl e), [])
  | inr _ =>
      match files_upload s with
      | inl e => (Some (inl e), [EvUpload])
      | inr f =>
          match wait_while_processing fuel s 0 f [EvUpload] with
          | (None, log) => (None, log)
          | (Some (inl e), log) => (Some (inl e), log)
          | (Some (inr f'), log) =>
              let (r, more) := classify lib s f' in (Some r, (log ++ more)%list)
          end
      end
  end.

(** [except Exception as e: return row_idx, "Error", str(e)]. *)
Definition handle (r : result verdict) : verdict :=
  match r with
  | inl e => (PyStr "Error", PyStr e)
  | inr v => v
  end.

Definition analyze_single_paper (lib : library) (fuel : nat) (s : session)
  (row_idx : nat) (filename : string)
  : option (nat * verdict) * list event :=
  let (r, log) := attempt lib fuel s in
  (option_map (fun r => (row_idx, handle r)) r, log).

(** ** The run: [run_fast_pipeline] *)

(** One row of the table. A column the file does not have is [None];
    [others] are the columns the stage never reads. *)
Record row : Type := {
  Full_Citation : option pyval;
  Link : option pyval;
  Method : option pyval;
  others : list (string * pyval)
}.

(** [str(row.get(col, ''))]. *)
Definition cell_text (cell : option pyval) : string :=
  match cell with
  | Some v => py_str v
  | None => ""
  end.

Definition in_list (s : string) (l : list string) : bool :=
  existsb (String.eqb s) l.

(** The resume test: [existing_method not in ["nan", "", "None", "Unknown"]]
    means the row is done. *)
Definition already_done (r : row) : bool :=
  negb (in_list (cell_text (Method r)) ["nan"; ""; "None"; "Unknown"]).

(** [not citation or "---" in citation or "Online Link Only" in link_status]. *)
Definition not_for_analysis (r : row) : bool :=
  let citation := cell_text (Full_Citation r) in
  let link_status := cell_text (Link r) in
  (citation =? "") || contains "---" citation
  || contains "Online Link Only" link_status.

(** [local_pdfs]: the names of the folder that end in [.pdf]. *)
Definition pdfs_of (listing : list string) : list string :=
  filter (fun f => endswith ".pdf" (lower f)) listing.

Definition task : Type := (nat * string)%type.

(** The body of [for index, row in df.iterrows()] for one row: the task it
    appends, if any. A score above 85 always comes with a file name. *)
Definition task_of (lib : library) (local_pdfs : list string) (index : nat)
  (r : row) : option task :=
  if already_done r then None
  else if not_for_analysis r then None
  else
    match find_best_local_match lib (cell_text (Full_Citation r)) local_pdfs with
    | (Some matched_file, score) =>
        if (85 <? score)%Z then Some (index, matched_file) else None
    | (None, _) => None
    end.

Fixpoint tasks_from (lib : library) (local_pdfs : list string) (index : nat)
  (df : list row) : list task :=
  match df with
  | [] => []
  | r :: rest =>
      match task_of lib local_pdfs index r with
      | Some t => t :: tasks_from lib local_pdfs (S index) rest
      | None => tasks_from lib local_pdfs (S index) rest
      end
  end.

Definition build_tasks (lib : library) (local_pdfs : list string)
  (df : list row) : list task :=
  tasks_from lib local_pdfs 0 df.

Definition with_method (m : option pyval) (r : row) : row :=
  {| Full_Citation := Full_Citation r; Link := Link r; Method := m;
     others := others r |}.

(** [df.at[row_idx, "Method"] = method]: when the table has no such column
    yet, the assignment creates it, [nan] in every other row. *)
Fixpoint set_method_from (index row_idx : nat) (method : pyval)
  (df : list row) : list row :=
  match df with
  | [] => []
  | r :: rest =>
      (if (index =? row_idx)%nat then with_method (Some method) r
       else with_method (Some (match Method r with
                               | Some v => v
                               | None => PyNaN
                               end)) r)
      :: set_method_from (S index) row_idx method rest
  end.

Definition set_method (row_idx : nat) (method : pyval) (df : list row)
  : list row :=
  set_method_from 0 row_idx method df.

(** The world of one run: the session each submitted task meets. *)
Definition world : Type := nat -> string -> session.

(** [future.result()] of every task; [None] when one of them never
    returns. *)
Fixpoint run_tasks (lib : library) (fuel : nat) (w : world)
  (tasks : list task) : option (list (nat * verdict)) :=
  match tasks with
  | [] => Some []
  | (row_idx, fname) :: rest =>
      match fst (analyze_single_paper lib fuel (w row_idx fname) row_idx fname),
            run_tasks lib fuel w rest with
      | Some r, Some rs => Some (r :: rs)
      | _, _ => None
      end
  end.

(** The loop over [as_completed]: under the lock, store the method and
    save the whole table. The result is the table as last saved. *)
Definition merge (df : list row) (r : nat * verdict) : list row :=
  set_method (fst r) (fst (snd r)) df.

Definition merge_all (completed : list (nat * verdict)) (df : list row)
  : list row :=
  fold_left merge completed df.

(** [run_fast_pipeline] on the table [df] it loaded (the checkpoint when
    there is one, else the input, which it saves at once) and the listing
    of the PDF folder; [completion] is the order in which the pool hands
    the finished tasks back. The result is the table in the output file
    when the function returns. *)
Definition run_in_order (completion : list (nat * verdict) -> list (nat * verdict))
  (lib : library) (fuel : nat) (w : world) (listing : list string)
  (df : list row) : option (list row) :=
  let local_pdfs := pdfs_of listing in
  let tasks := build_tasks lib local_pdfs df in
  match tasks with
  | [] => Some df
  | _ =>
      match run_tasks lib fuel w tasks with
      | None => None
      | Some results => Some (merge_all (completion results) df)
      end
  end.

Definition run_fast_pipeline : library -> nat -> world -> list string ->
  list row -> option (list row) :=
  run_in_order (fun results => results).

End Step5.

(* ================================================================== *)
(** * The output file of the analyzer: [to_csv] and [pd.read_csv] *)
(* ================================================================== *)

Module Step5Store.
Import Py Step5.

(** One line of the CSV file, cell by cell, as text; a column the file
    does not have is [None]. *)
Record line : Type := {
  csv_Full_Citation : option string;
  csv_Link : option string;
  csv_Method : option string;
  csv_others : list (string * string)
}.

(** [df.to_csv(OUTPUT_CSV, index=False)]: a missing value ([None], [nan])
    is written as the empty text, any other value as it prints. The
    quoting of the fields, which [read_csv] undoes, is left out. *)
Definition csv_text (v : pyval) : string :=
  match v with
  | PyNone | PyNaN => ""
  | _ => py_str v
  end.

Definition write_line (r : row) : line :=
  {| csv_Full_Citation := option_map csv_text (Full_Citation r);
     csv_Link := option_map csv_text (Link r);
     csv_Method := option_map csv_text (Method r);
     csv_others := map (fun cell => (fst cell, csv_text (snd cell))) (others r) |}.

Definition to_csv (df : list row) : list line := map write_line df.

(** The texts [pd.read_csv] takes for a missing value when it is called
    with a path only, as the stage calls it. *)
Definition STR_NA_VALUES : list string :=
  [""; "#N/A"; "#N/A N/A"; "#NA"; "-1.#IND"; "-1.#QNAN"; "-NaN"; "-nan";
   "1.#IND"; "1.#QNAN"; "<NA>"; "N/A"; "NA"; "NULL"; "NaN"; "None"; "n/a";
   "nan"; "null"].

(** [pd.read_csv] gives each column one type, which it finds from all the
    texts of the column (whole numbers, floats, booleans, or text).
    [typed] stands for that part of pandas: the value it gives a text that
    is not missing, in a column that holds the given texts. *)
Record reader : Type := {
  typed : list string -> string -> pyval
}.

(** One cell as [pd.read_csv] reads it: [nan] for a missing value. *)
Definition read_cell (pd : reader) (column : list string) (text : string)
  : pyval :=
  if in_list text STR_NA_VALUES then PyNaN else typed pd column text.

Definition text_of (cell : option string) : string :=
  match cell with
  | Some text => text
  | None => ""
  end.

(** The texts of one column of the file. *)
Definition column (get : line -> option string) (file : list line)
  : list string :=
  map (fun l => text_of (get l)) file.

Fixpoint other (name : string) (cells : list (string * string))
  : option string :=
  match cells with
  | [] => None
  | (k, text) :: rest => if (k =? name) then Some text else other name rest
  end.

Definition read_line (pd : reader) (file : list line) (l : line) : row :=
  {| Full_Citation :=
       option_map (read_cell pd (column csv_Full_Citation file))
         (csv_Full_Citation l);
     Link := option_map (read_cell pd (column csv_Link file)) (csv_Link l);
     Method := option_map (read_cell pd (column csv_Method file)) (csv_Method l);
     others :=
       map (fun cell =>
              (fst cell,
               read_cell pd (column (fun l' => other (fst cell) (csv_others l')) file)
                 (snd cell)))
         (csv_others l) |}.

(** [pd.read_csv(OUTPUT_CSV)] (or [INPUT_CSV]). *)
Definition read_csv (pd : reader) (file : list line) : list row :=
  map (read_line pd file) file.

(** [run_fast_pipeline] from file to file when OUTPUT_CSV does not exist:
    the input is read and written to OUTPUT_CSV at once, and again after
    every merge; the result is OUTPUT_CSV when the function returns. *)
Definition fresh_in_order
  (completion : list (nat * verdict) -> list (nat * verdict))
  (lib : library) (pd : reader) (fuel : nat) (w : world)
  (listing : list string) (input : list line) : option (list line) :=
  option_map to_csv
    (run_in_order completion lib fuel w listing (read_csv pd input)).

(** [run_fast_pipeline] from file to file when OUTPUT_CSV exists: the
    table is read from it; with no task the function returns before it
    writes anything, else the file is written after every merge. *)
Definition resume_in_order
  (completion : list (nat * verdict) -> list (nat * verdict))
  (lib : library) (pd : reader) (fuel : nat) (w : world)
  (listing : list string) (output : list line) : option (list line) :=
  let df := read_csv pd output in
  match build_tasks lib (pdfs_of listing) df with
  | [] => Some output
  | _ => option_map to_csv (run_in_order completion lib fuel w listing df)
  end.

End Step5Store.

(* ================================================================== *)
(** * step2_relevancy_filter.py: the Batch Classifier *)
(* ================================================================== *)

Module Step2.
Import Py.

Definition BATCH_SIZE : nat := 20.
Definition MIN_ABSTRACT_LENGTH : nat := 50.
Definition REQUIRE_DOI : bool := false.

Definition SYSTEM_PROMPT : string :=
"
You are a strict research assistant conducting a systematic review.
We are looking for papers on [YOUR TOPIC HERE].

INCLUSION CRITERIA (Must meet ALL):
1. Topic: Explicitly discusses [CRITERIA 1].
2. Mechanism: Discusses [CRITERIA 2].
3. Subject: Involves [CRITERIA 3].

TASK:
I will provide a list of papers.
Return a raw JSON list of objects. One object for each paper.
Format:
[
  {" ++ dq ++ "ID" ++ dq ++ ": 123, " ++ dq ++ "Included" ++ dq ++ ": true, "
 ++ dq ++ "Reason" ++ dq ++ ": " ++ dq ++ "..." ++ dq ++ "},
  {" ++ dq ++ "ID" ++ dq ++ ": 124, " ++ dq ++ "Included" ++ dq ++ ": false, "
 ++ dq ++ "Reason" ++ dq ++ ": " ++ dq ++ "..." ++ dq ++ "}
]
".

(** One row of the input file, which has the columns [Title] and
    [Abstract] (as step 1 writes them); [DOI] may be missing, [extra] are
    the columns the stage never reads. *)
Record entry : Type := {
  e_Title : pyval;
  e_Abstract : pyval;
  e_DOI : option pyval;
  e_extra : list (string * pyval)
}.

(** One row of [df] once the script has added its three columns. *)
Record paper : Type := {
  source : entry;
  Temp_ID : Z;
  Included : pyval;
  Rejection_Reason : pyval
}.

Definition Title (p : paper) : pyval := e_Title (source p).
Definition Abstract (p : paper) : pyval := e_Abstract (source p).
Definition DOI (p : paper) : option pyval := e_DOI (source p).

(** [pd.isna(paper.get('DOI'))]. *)
Definition isna (cell : option pyval) : bool :=
  match cell with
  | None | Some PyNone | Some PyNaN => true
  | Some _ => false
  end.

Definition bad_phrases : list string :=
  ["no abstract"; "abstract available"; "see full text"].

Definition pre_flight_check (p : paper) : bool * string :=
  let abstract := py_str (Abstract p) in
  if (String.length abstract <? MIN_ABSTRACT_LENGTH)%nat
  then (false, "Abstract too short")
  else if existsb (fun phrase => contains phrase (lower abstract)) bad_phrases
  then (false, "Placeholder text")
  else if REQUIRE_DOI && isna (DOI p)
  then (false, "Missing DOI")
  else (true, "Passed").

(** An element of [mini_batch]. *)
Record mini : Type := {
  ID : Z;
  m_Title : pyval;
  m_Abstract : pyval
}.

Definition mini_of (p : paper) : mini :=
  {| ID := Temp_ID p; m_Title := Title p; m_Abstract := Abstract p |}.

(** The text [screen_batch] adds for one paper. *)
Definition paper_text (p : mini) : string :=
  "--- PAPER ID: " ++ py_str (PyInt (ID p)) ++ " ---" ++ nl
  ++ "Title: " ++ py_str (m_Title p) ++ nl
  ++ "Abstract: " ++ take 2000 (py_str (m_Abstract p)) ++ nl ++ nl.

Definition batch_text (papers_batch : list mini) : string :=
  fold_left (fun text p => text ++ paper_text p) papers_batch "".

Definition full_prompt (papers_batch : list mini) : string :=
  SYSTEM_PROMPT ++ nl ++ nl ++ "DATA TO ANALYZE:" ++ nl
  ++ batch_text papers_batch.

(** The collaborators: what the [n]-th call of [generate_content] of the
    run answers to a prompt (it raises, or gives a response whose [text]
    may be [None]), and [json.loads]. *)
Record service : Type := {
  generate_content : nat -> string -> result (option string);
  json_loads : string -> result json
}.

Inductive event : Type :=
| Call (prompt : string)
| Sleep (seconds : Z).

(** The state the script threads: the number of calls made and what the
    outside saw, oldest first. *)
Record state : Type := {
  calls : nat;
  log : list event
}.

Definition emit (e : event) (st : state) : state :=
  {| calls := calls st; log := (log st ++ [e])%list |}.

Definition called (prompt : string) (st : state) : state :=
  {| calls := S (calls st); log := (log st ++ [Call prompt])%list |}.

(** The body of the [try] of [screen_batch]. *)
Definition ask (svc : service) (prompt : string) (st : state) : result json :=
  match generate_content svc (calls st) prompt with
  | inl e => inl e
  | inr None => inl (no_attribute "NoneType" "replace")
  | inr (Some text) => json_loads svc (strip_fences text)
  end.

Definition rate_limited (error_msg : string) : bool :=
  contains "429" error_msg || contains "RESOURCE_EXHAUSTED" error_msg.

(** [for attempt in range(n)] of [screen_batch], and the [return []]
    after it. *)
Fixpoint attempts (n : nat) (svc : service) (prompt : string) (st : state)
  : json * state :=
  match n with
  | O => (JList [], st)
  | S n' =>
      match ask svc prompt st with
      | inr decisions => (decisions, called prompt st)
      | inl error_msg =>
          if rate_limited error_msg
          then attempts n' svc prompt (emit (Sleep 10) (called prompt st))
          else (JList [], called prompt st)
      end
  end.

Definition screen_batch (svc : service) (papers_batch : list mini)
  (st : state) : json * state :=
  attempts 3 svc (full_prompt papers_batch) st.

(** [df = pd.read_csv(INPUT_CSV)] and the three columns added to it. *)
Fixpoint load_from (index : nat) (rows : list entry) : list paper :=
  match rows with
  | [] => []
  | e :: rest =>
      {| source := e; Temp_ID := Z.of_nat index; Included := PyBool false;
         Rejection_Reason := PyStr "" |} :: load_from (S index) rest
  end.

Definition load (rows : list entry) : list paper := load_from 0 rows.

(** Phase 1. The rows of [valid_papers_for_ai], and [df] after the loop. *)
Definition valid_papers_for_ai (df : list paper) : list paper :=
  filter (fun p => fst (pre_flight_check p)) df.

Definition auto_reject (p : paper) : paper :=
  let (is_valid, reason) := pre_flight_check p in
  if is_valid then p
  else {| source := source p; Temp_ID := Temp_ID p; Included := PyBool false;
          Rejection_Reason := PyStr ("Auto-Reject: " ++ reason) |}.

Definition phase1 (df : list paper) : list paper := map auto_reject df.

(** [valid[i : i + BATCH_SIZE] for i in range(0, len(valid), BATCH_SIZE)]. *)
Fixpoint chunks_upto (fuel : nat) (papers : list paper) : list (list paper) :=
  match papers, fuel with
  | [], _ => []
  | _, O => []
  | _, S fuel' =>
      firstn BATCH_SIZE papers :: chunks_upto fuel' (skipn BATCH_SIZE papers)
  end.

Definition batches (valid : list paper) : list (list mini) :=
  map (map mini_of) (chunks_upto (List.length valid) valid).

(** [results_map]: the newest binding first; a key is found by [==]. *)
Definition decision : Type := list (string * pyval).
Definition results : Type := list (pyval * decision).

Fixpoint lookup (key : pyval) (m : results) : option decision :=
  match m with
  | [] => None
  | (k, d) :: rest => if py_eq k key then Some d else lookup key rest
  end.

(** [for decision in batch_decisions: results_map[decision.get("ID")] = decision].
    Iterating a dict or a string yields strings, which have no [get];
    [None] and numbers cannot be iterated. *)
Fixpoint record_items (items : list json) (m : results) : result results :=
  match items with
  | [] => inr m
  | JDict d :: rest => record_items rest ((dict_get "ID" d PyNone, d) :: m)
  | other :: _ => inl (no_attribute (type_name other) "get")
  end.

Definition record_decisions (batch_decisions : json) (m : results)
  : result results :=
  match batch_decisions with
  | JList items => record_items items m
  | JDict [] => inr m
  | JDict (_ :: _) => inl (no_attribute "str" "get")
  | JVal (PyStr s) => if (s =? "") then inr m else inl (no_attribute "str" "get")
  | JVal v => inl (not_iterable (type_name (JVal v)))
  end.

(** Phase 2: the loop over the batches. *)
Fixpoint phase2 (svc : service) (bs : list (list mini)) (m : results)
  (st : state) : result results * state :=
  match bs with
  | [] => (inr m, st)
  | mini_batch :: rest =>
      let (batch_decisions, st) := screen_batch svc mini_batch st in
      match record_decisions batch_decisions m with
      | inl e => (inl e, st)
      | inr m => phase2 svc rest m (emit (Sleep 1) st)
      end
  end.

(** Phase 3: the merge. *)
Definition merge_row (m : results) (p : paper) : paper :=
  match lookup (PyInt (Temp_ID p)) m with
  | Some res =>
      {| source := source p; Temp_ID := Temp_ID p;
         Included := dict_get "Included" res (PyBool false);
         Rejection_Reason := dict_get "Reason" res (PyStr "Unknown") |}
  | None => p
  end.

Definition phase3 (m : results) (df : list paper) : list paper :=
  map (merge_row m) df.

(** [df[df["Included"] == True]]. *)
Definition filtered_df (df : list paper) : list paper :=
  filter (fun p => py_eq (Included p) (PyBool true)) df.

(** What a run leaves: [df] at the end and the rows written to the output
    file. *)
Record outcome : Type := {
  final_df : list paper;
  saved : list paper
}.

(** The script from [pd.read_csv] to [to_csv]. [inl] is an exception that
    ends the script before anything is written. *)
Definition script (svc : service) (rows : list entry)
  : result outcome * state :=
  let st := {| calls := 0; log := [] |} in
  let df := load rows in
  let valid := valid_papers_for_ai df in
  let df := phase1 df in
  match valid with
  | [] => (inr {| final_df := df; saved := filtered_df df |}, st)
  | _ =>
      match phase2 svc (batches valid) [] st with
      | (inl e, st) => (inl e, st)
      | (inr m, st) =>
          let df := phase3 m df in
          (inr {| final_df := df; saved := filtered_df df |}, st)
      end
  end.

End Step2.

(* ================================================================== *)
(** * step2_relevancy_filter.py: the progress report *)
(* ================================================================== *)

Module Step2Report.
Import Py Step2.

(** One line of the report. *)
Record line : Type := {
  Input_File : pyval;
  Output_File : pyval;
  Status_Reason : pyval
}.

(** [df[df["Included"] == False]]. *)
Definition rejected_df (df : list paper) : list paper :=
  filter (fun p => py_eq (Included p) (PyBool false)) df.

(** The line of one rejected paper. The column [ID] of the input file is
    one of the columns the stage does not read; [row.get("ID", "Unknown")]
    looks it up. *)
Definition detail (p : paper) : line :=
  {| Input_File := dict_get "ID" (e_extra (source p)) (PyStr "Unknown");
     Output_File := PyStr (take 80 (py_str (Title p)));
     Status_Reason := Rejection_Reason p |}.

Definition count (papers : list paper) : Z := Z.of_nat (List.length papers).

(** [report_data], from [df] and [filtered_df] at the end of the script. *)
Definition report_data (in_csv out_csv : string) (df filtered : list paper)
  : list line :=
  ([ {| Input_File := PyStr in_csv; Output_File := PyStr out_csv;
        Status_Reason := PyStr "SUMMARY STATS" |};
     {| Input_File := PyStr "Total Evaluated"; Output_File := PyInt (count df);
        Status_Reason := PyStr "" |};
     {| Input_File := PyStr "Total Relevant (Kept)";
        Output_File := PyInt (count filtered); Status_Reason := PyStr "" |};
     {| Input_File := PyStr "Total Irrelevant (Rejected)";
        Output_File := PyInt (count df - count filtered);
        Status_Reason := PyStr "" |};
     {| Input_File := PyStr "---"; Output_File := PyStr "---";
        Status_Reason := PyStr "---" |};
     {| Input_File := PyStr "PAPER ID"; Output_File := PyStr "TITLE";
        Status_Reason := PyStr "REJECTION REASON" |} ]
   ++ map detail (rejected_df df))%list.

(** The report of a run that ended normally. *)
Definition report_of (in_csv out_csv : string) (out : outcome) : list line :=
  report_data in_csv out_csv (final_df out) (saved out).

End Step2Report.

(* ================================================================== *)
(** * master_file.py: the orchestrator *)
(* ================================================================== *)

Module Master.
Import Py.

(** [str.isalnum] on one character. *)
Definition isalnum (c : ascii) : bool :=
  let n := code c in
  between 48 57 n || between 65 90 n || between 97 122 n
  || (n =? 170)%nat || between 178 179 n || (n =? 181)%nat
  || between 185 186 n || between 188 190 n
  || between 192 214 n || between 216 246 n || between 248 255 n.

(** ["".join([c if c.isalnum() else "" for c in KEYWORD])]. *)
Fixpoint safe_keyword (KEYWORD : string) : string :=
  match KEYWORD with
  | EmptyString => EmptyString
  | String c rest =>
      (if isalnum c then String c EmptyString else "") ++ safe_keyword rest
  end.

(** [RUN_DIR], from the keyword and the text [strftime] gave. *)
Definition RUN_DIR (KEYWORD timestamp : string) : string :=
  "Run_" ++ safe_keyword KEYWORD ++ "_" ++ timestamp.

(** The five scripts, in the order in which [__main__] runs them. *)
Inductive step : Type :=
| Search | Relevancy_Filter | Download_PDFs | Formatting | Analysis.

Definition pipeline : list step :=
  [Search; Relevancy_Filter; Download_PDFs; Formatting; Analysis].

(** What a child process gives: the lines it prints and its exit code. *)
Record process : Type := {
  stdout : list string;
  returncode : Z
}.

(** What [log_and_print] and the loop over [process.stdout] write to the
    master log, by kind of message. *)
Inductive message : Type :=
| Initializing
| Workspace
| Starting (s : step)
| Output (clean_line : string)
| Fatal (s : step) (code : Z)
| Halting
| Completed (s : step)
| Finished.

(** [run_step]: the log after it, and whether it called [sys.exit(1)]. *)
Definition run_step (world : step -> process) (s : step) (log : list message)
  : list message * bool :=
  let p := world s in
  let log := (log ++ Starting s :: map (fun l => Output (strip l)) (stdout p))%list in
  if (returncode p =? 0)%Z
  then ((log ++ [Completed s])%list, false)
  else ((log ++ [Fatal s (returncode p); Halting])%list, true).

(** The calls of [run_step] one after the other; [Some 1] is the exit
    status [sys.exit(1)] leaves. *)
Fixpoint run_steps (world : step -> process) (steps : list step)
  (log : list message) : list message * option Z :=
  match steps with
  | [] => (log, None)
  | s :: rest =>
      let (log, exited) := run_step world s log in
      if exited then (log, Some 1%Z) else run_steps world rest log
  end.

(** The block under [if __name__ == "__main__"]: the master log and the
    exit status of the orchestrator. *)
Definition main (world : step -> process) : list message * Z :=
  match run_steps world pipeline [Initializing; Workspace] with
  | (log, Some code) => (log, code)
  | (log, None) => ((log ++ [Finished])%list, 0%Z)
  end.

End Master.

(* ================================================================== *)
(** * Concrete tables and worlds used as test inputs *)
(* ================================================================== *)

(** Split a goal into its conjuncts, and nothing else. *)
Ltac conjuncts := repeat match goal with |- _ /\ _ => split end.

Module Fixtures.
Import Py.

(** A scorer that knows identical texts only, which [token_set_ratio]
    scores 100, and gives 0 to the rest. *)
Definition exact_ratio (a b : string) : Z := if (a =? b) then 100%Z else 0%Z.

(** Two answers of the model to the analysis prompt: an object with a
    reason and no methodology, and an object with a methodology. *)
Definition answer_without_method : string :=
  "{" ++ dq ++ "reason" ++ dq ++ ": " ++ dq ++ "unclear" ++ dq ++ "}".

Definition answer_category_a : string :=
  "```json
{" ++ dq ++ "methodology" ++ dq ++ ": " ++ dq ++ "Category A" ++ dq ++ "}
```".

(** [json.loads] on the texts the fixtures feed it; any other text is
    taken not to start with a JSON value. *)
Definition loads (text : string) : result json :=
  if (text =? answer_without_method)
  then inr (JDict [("reason", PyStr "unclear")])
  else if (text =? strip_fences answer_category_a)
  then inr (JDict [("methodology", PyStr "Category A")])
  else if (text =? "[]") then inr (JList [])
  else inl "Expecting value: line 1 column 1 (char 0)".

Definition lib : Step5.library :=
  {| Step5.token_set_ratio := exact_ratio; Step5.json_loads := loads |}.

(** A task whose file is ready at once and whose classification answers
    [text]. *)
Definition ready_session (text : string) : Step5.session :=
  {| Step5.copy2 := inr tt;
     Step5.files_upload := inr (Some Step5.ACTIVE);
     Step5.files_get := fun _ => inr (Some Step5.ACTIVE);
     Step5.generate_content := inr (Some text);
     Step5.files_delete := inr tt |}.

(** A task whose file is reported PROCESSING [n] times before it is
    ACTIVE. *)
Definition slow_session (n : nat) (text : string) : Step5.session :=
  {| Step5.copy2 := inr tt;
     Step5.files_upload :=
       inr (Some (if (n =? 0)%nat then Step5.ACTIVE else Step5.PROCESSING));
     Step5.files_get := fun k =>
       inr (Some (if (S k <? n)%nat then Step5.PROCESSING else Step5.ACTIVE));
     Step5.generate_content := inr (Some text);
     Step5.files_delete := inr tt |}.

(** A task whose upload is refused. *)
Definition refused_session : Step5.session :=
  {| Step5.copy2 := inr tt;
     Step5.files_upload := inl "403 PERMISSION_DENIED";
     Step5.files_get := fun _ => inr (Some Step5.ACTIVE);
     Step5.generate_content := inr None;
     Step5.files_delete := inr tt |}.

Definition first_world : Step5.world := fun _ _ => ready_session answer_without_method.
Definition second_world : Step5.world := fun _ _ => ready_session answer_category_a.

(** Row 1 has no matching file; row 0 meets an upload that is refused. *)
Definition failing_world : Step5.world := fun i _ =>
  if (i =? 0)%nat then refused_session else ready_session answer_category_a.

Definition paper_row (citation : string) : Step5.row :=
  {| Step5.Full_Citation := Some (PyStr citation);
     Step5.Link := Some (PyStr "https://example.org/paper.pdf");
     Step5.Method := Some PyNaN;
     Step5.others := [("Year", PyInt 2020)] |}.

Definition stored (method : string) (r : Step5.row) : Step5.row :=
  Step5.with_method (Some (PyStr method)) r.

Definition table : list Step5.row :=
  [paper_row "Smith, J. (2020). Deep Learning."].

Definition two_papers : list Step5.row :=
  [paper_row "Smith, J. (2020). Deep Learning.";
   paper_row "Zz Totally Unrelated";
   paper_row "Doe, A. (2019). Graphs."].

Definition two_papers_after : list Step5.row :=
  [stored "Error" (paper_row "Smith, J. (2020). Deep Learning.");
   paper_row "Zz Totally Unrelated";
   stored "Category A" (paper_row "Doe, A. (2019). Graphs.")].

Definition folder : list string :=
  ["smith_j_2020_deep_learning.pdf"; "notes.txt"; "Doe A 2019 Graphs.PDF"].

(** An answer whose methodology is the text [N/A], and a library whose
    [json.loads] knows it too. *)
Definition answer_not_applicable : string :=
  "{" ++ dq ++ "methodology" ++ dq ++ ": " ++ dq ++ "N/A" ++ dq ++ "}".

Definition loads_more (text : string) : result json :=
  if (text =? answer_not_applicable)
  then inr (JDict [("methodology", PyStr "N/A")])
  else loads text.

Definition lib_more : Step5.library :=
  {| Step5.token_set_ratio := exact_ratio; Step5.json_loads := loads_more |}.

Definition third_world : Step5.world :=
  fun _ _ => ready_session answer_not_applicable.

(** A reader for files whose columns all hold text that is neither a
    number nor a boolean: every cell that is not missing is a string. *)
Definition text_reader : Step5Store.reader :=
  {| Step5Store.typed := fun _ text => PyStr text |}.

(** The file step 4 hands over, with one paper and no [Method] column,
    and the output file once the paper has the result [method]. *)
Definition input_file : list Step5Store.line :=
  [{| Step5Store.csv_Full_Citation := Some "Smith, J. (2020). Deep Learning.";
      Step5Store.csv_Link := Some "https://example.org/paper.pdf";
      Step5Store.csv_Method := None;
      Step5Store.csv_others := [("Journal", "Nature")] |}].

Definition output_with (method : string) : list Step5Store.line :=
  [{| Step5Store.csv_Full_Citation := Some "Smith, J. (2020). Deep Learning.";
      Step5Store.csv_Link := Some "https://example.org/paper.pdf";
      Step5Store.csv_Method := Some method;
      Step5Store.csv_others := [("Journal", "Nature")] |}].

(** ** The Batch Classifier *)

Definition entry_of (title abstract : string) : Step2.entry :=
  {| Step2.e_Title := PyStr title; Step2.e_Abstract := PyStr abstract;
     Step2.e_DOI := None; Step2.e_extra := [("Year", PyInt 2021)] |}.

Definition long_abstract : string :=
  "We study how graph neural networks generalise across molecular datasets.".

Definition three_entries : list Step2.entry :=
  [entry_of "Graphs I" long_abstract;
   entry_of "Graphs II" long_abstract;
   entry_of "Graphs III" long_abstract].

Definition mixed_entries : list Step2.entry :=
  [entry_of "Too short" "No abstract available";
   entry_of "Graphs II" long_abstract].

(** Three answers of the model to a screening prompt: a JSON object where
    a list is asked for; a text that stops being JSON at offset 429; and a
    list that decides papers 2 and 0 and says nothing of paper 1. *)
Definition answer_object : string :=
  "{" ++ dq ++ "error" ++ dq ++ ": " ++ dq ++ "overloaded" ++ dq ++ "}".

Fixpoint blanks (n : nat) : string :=
  match n with
  | O => ""
  | S n' => " " ++ blanks n'
  end.

Definition answer_garbled : string := "[" ++ blanks 428 ++ "x".

Definition answer_partial : string :=
  "```json
[{" ++ dq ++ "ID" ++ dq ++ ": 2, " ++ dq ++ "Included" ++ dq ++ ": true, "
  ++ dq ++ "Reason" ++ dq ++ ": " ++ dq ++ "on topic" ++ dq ++ "},
 {" ++ dq ++ "ID" ++ dq ++ ": 0, " ++ dq ++ "Included" ++ dq ++ ": false, "
  ++ dq ++ "Reason" ++ dq ++ ": " ++ dq ++ "off topic" ++ dq ++ "}]
```".

Definition partial_decisions : list json :=
  [JDict [("ID", PyInt 2); ("Included", PyBool true); ("Reason", PyStr "on topic")];
   JDict [("ID", PyInt 0); ("Included", PyBool false); ("Reason", PyStr "off topic")]].

(** [json.loads] on these answers. *)
Definition loads_batch (text : string) : result json :=
  if (text =? answer_object)
  then inr (JDict [("error", PyStr "overloaded")])
  else if (text =? answer_garbled)
  then inl "Expecting value: line 1 column 430 (char 429)"
  else if (text =? strip_fences answer_partial)
  then inr (JList partial_decisions)
  else inl "Expecting value: line 1 column 1 (char 0)".

Definition answering (text : string) : Step2.service :=
  {| Step2.generate_content := fun _ _ => inr (Some text);
     Step2.json_loads := loads_batch |}.

(** A service that is rate limited at every call. *)
Definition busy : Step2.service :=
  {| Step2.generate_content := fun _ _ =>
       inl "429 RESOURCE_EXHAUSTED. Quota exceeded for this model.";
     Step2.json_loads := loads_batch |}.

(** A service that reports an internal error at every call. *)
Definition broken : Step2.service :=
  {| Step2.generate_content := fun _ _ => inl "500 INTERNAL. Try again later.";
     Step2.json_loads := loads_batch |}.

Definition start : Step2.state := {| Step2.calls := 0; Step2.log := [] |}.

(** A service whose answer decides a paper that no prompt held: whatever
    it is sent, it includes the paper of identifier 0. *)
Definition answer_stray : string :=
  "[{" ++ dq ++ "ID" ++ dq ++ ": 0, " ++ dq ++ "Included" ++ dq ++ ": true, "
  ++ dq ++ "Reason" ++ dq ++ ": " ++ dq ++ "looks relevant" ++ dq ++ "}]".

Definition straying : Step2.service :=
  {| Step2.generate_content := fun _ _ => inr (Some answer_stray);
     Step2.json_loads := fun text =>
       if (text =? answer_stray)
       then inr (JList [JDict [("ID", PyInt 0); ("Included", PyBool true);
                               ("Reason", PyStr "looks relevant")]])
       else loads_batch text |}.

(** A service that is rate limited at its first two calls and then
    answers [text]. *)
Definition busy_twice (text : string) : Step2.service :=
  {| Step2.generate_content := fun n _ =>
       if (n <? 2)%nat then inl "429 RESOURCE_EXHAUSTED." else inr (Some text);
     Step2.json_loads := loads_batch |}.

(** A task whose file is reported PROCESSING for ever. *)
Definition stuck_session : Step5.session :=
  {| Step5.copy2 := inr tt;
     Step5.files_upload := inr (Some Step5.PROCESSING);
     Step5.files_get := fun _ => inr (Some Step5.PROCESSING);
     Step5.generate_content := inr None;
     Step5.files_delete := inr tt |}.

(** The children of a run in which the relevancy filter crashes. *)
Definition crash_at_filter (s : Master.step) : Master.process :=
  match s with
  | Master.Relevancy_Filter =>
      {| Master.stdout := ["Traceback (most recent call last):  "];
         Master.returncode := 1 |}
  | _ => {| Master.stdout := []; Master.returncode := 0 |}
  end.

End Fixtures.

(* ================================================================== *)
(** * Notions the properties are stated with *)
(* ================================================================== *)

Module Step5Notions.
Import Py Step5.

(** Every character of [s] satisfies [P]. *)
Fixpoint all_chars (P : ascii -> bool) (s : string) : bool :=
  match s with
  | EmptyString => true
  | String c s' => P c && all_chars P s'
  end.

(** A word of a normal form: not empty, letters a-z and digits only. *)
Definition word (t : string) : Prop :=
  t <> "" /\ all_chars is_lower_alnum t = true.

(** The score the matcher gives a file name. *)
Definition score_of (lib : library) (citation fname : string) : Z :=
  token_set_ratio lib (normalize_text (PyStr citation))
    (normalize_text (PyStr fname)).

(** [f] applied to every element with its index, counted from [k]. *)
Fixpoint mapi_from {A B : Type} (k : nat) (f : nat -> A -> B) (l : list A)
  : list B :=
  match l with
  | [] => []
  | a :: rest => f k a :: mapi_from (S k) f rest
  end.

(** What a cell of the [Method] column holds once the column exists. *)
Definition filled (cell : option pyval) : pyval :=
  match cell with
  | Some v => v
  | None => PyNaN
  end.

(** One assignment [df.at[row_idx, "Method"] = method], seen from the cell
    of row [j]. *)
Definition cell_step (j : nat) (cell : option pyval) (r : nat * verdict)
  : option pyval :=
  if (j =? fst r)%nat then Some (fst (snd r)) else Some (filled cell).

(** The [Method] cell of row [j] after the merges of [completed]. *)
Definition cell_after (completed : list (nat * verdict)) (j : nat)
  (cell : option pyval) : option pyval :=
  fold_left (cell_step j) completed cell.

(** The rows a later run would still take up. *)
Definition still_pending (df : list row) (i : nat) : bool :=
  match nth_error df i with
  | Some r => negb (already_done r)
  | None => false
  end.

(** A completion order hands back every finished task once. *)
Definition fair (completion : list (nat * verdict) -> list (nat * verdict))
  : Prop :=
  forall results, Permutation results (completion results).

(** The part of [task_of] after the resume test. *)
Definition matched (lib : library) (local_pdfs : list string) (index : nat)
  (r : row) : option task :=
  if not_for_analysis r then None
  else
    match find_best_local_match lib (cell_text (Full_Citation r)) local_pdfs with
    | (Some matched_file, score) =>
        if (85 <? score)%Z then Some (index, matched_file) else None
    | (None, _) => None
    end.

(** The successive reports of the service on the uploaded file: the answer
    of [files.upload], then the answers of [files.get]. *)
Definition reported (s : session) (k : nat) : result remote_file :=
  match k with
  | O => files_upload s
  | S j => files_get s j
  end.

(** The file leaves PROCESSING with its [n]-th report, which is [x]
    (a state, or an exception). *)
Definition settles (s : session) (n : nat) (x : result remote_file) : Prop :=
  (forall k, k < n -> reported s k = inr (Some PROCESSING))
  /\ reported s n = x
  /\ x <> inr (Some PROCESSING).

(** What [n] turns of the polling loop show. *)
Definition polls (n : nat) : list event :=
  concat (repeat [EvSleep 1; EvGet] n).

(** The verdict of a task that failed with [e]. *)
Definition error (e : string) : verdict := (PyStr "Error", PyStr e).

(** What the loop hands on when the report [x] ends it. *)
Definition handed_on (x : result remote_file) : result remote_file :=
  match x with
  | inl e => inl e
  | inr None => inl (no_attribute "NoneType" "name")
  | inr (Some st) => inr (Some st)
  end.

(** A log without a poll. *)
Definition no_poll (log : list event) : Prop :=
  ~ In EvGet log /\ ~ In (EvSleep 1) log.

End Step5Notions.

Module StoreNotions.
Import Py Step5 Step5Store.

(** A stored result that the next run reads as pending: no [Method]
    column, a text read as a missing value, or [Unknown]. *)
Definition pending_text (cell : option string) : bool :=
  match cell with
  | None => true
  | Some text => in_list text STR_NA_VALUES || (text =? "Unknown")
  end.

(** The lines of the file a run that reads it would still take up. *)
Definition stored_pending (file : list line) (i : nat) : bool :=
  match nth_error file i with
  | Some l => pending_text (csv_Method l)
  | None => false
  end.

(** What the properties use of the way pandas types a column. A value
    that is not missing never prints as [nan], as the empty text or as
    [None], and prints as [Unknown] only when the text is [Unknown]; it
    is not written as a text that reads as missing; and a column that was
    read, written and read again holds the values of the first reading. *)
Record as_pandas (pd : reader) : Prop := {
  typed_prints : forall column text,
    in_list text STR_NA_VALUES = false ->
    in_list (py_str (typed pd column text)) ["nan"; ""; "None"; "Unknown"]
    = (text =? "Unknown");
  typed_written : forall column text,
    in_list text STR_NA_VALUES = false ->
    in_list (csv_text (typed pd column text)) STR_NA_VALUES = false;
  read_stable : forall column text,
    In text column ->
    read_cell pd (map (fun t => csv_text (read_cell pd column t)) column)
      (csv_text (read_cell pd column text))
    = read_cell pd column text
}.

End StoreNotions.

Module Step2Notions.
Import Py Step2.

(** A row as [load] makes it. *)
Definition loaded (i : nat) (e : entry) : paper :=
  {| source := e; Temp_ID := Z.of_nat i; Included := PyBool false;
     Rejection_Reason := PyStr "" |}.

(** A row no decision has reached. *)
Definition unresolved (p : paper) : Prop :=
  Included p = PyBool false /\ Rejection_Reason p = PyStr "".

(** What the outside sees of [k] attempts that all meet a rate limit. *)
Definition retries (k : nat) (prompt : string) : list event :=
  concat (repeat [Call prompt; Sleep 10] k).

(** What the outside sees of the loop over the batches. *)
Definition busy_log (bs : list (list mini)) : list event :=
  flat_map (fun b => (retries 3 (full_prompt b) ++ [Sleep 1])%list) bs.

(** The decision carries the identifier [key]. *)
Definition names (key : pyval) (d : decision) : bool :=
  py_eq (dict_get "ID" d PyNone) key.

(** The decision that the merge uses for a key: the last one of the
    answers that carries it. *)
Fixpoint answer_for (key : pyval) (items : list json) : option decision :=
  match items with
  | [] => None
  | item :: rest =>
      match answer_for key rest, item with
      | Some d, _ => Some d
      | None, JDict d => if names key d then Some d else None
      | None, _ => None
      end
  end.

(** The decisions in what [screen_batch] returned. *)
Definition decisions_of (batch_decisions : json) : list json :=
  match batch_decisions with
  | JList items => items
  | _ => []
  end.

(** The decisions [screen_batch] returns over the batches of a run, in
    the order in which the loop of phase 2 records them. *)
Fixpoint gathered (svc : service) (bs : list (list mini)) (st : state)
  : list json :=
  match bs with
  | [] => []
  | mini_batch :: rest =>
      let (batch_decisions, st) := screen_batch svc mini_batch st in
      (decisions_of batch_decisions
       ++ gathered svc rest (emit (Sleep 1) st))%list
  end.

(** Every call is answered by a list of decision objects. *)
Definition answered (svc : service) : Prop :=
  forall prompt st, exists items,
    ask svc prompt st = inr (JList items)
    /\ forall item, In item items -> exists d, item = JDict d.

End Step2Notions.

Module TaskNotions.
Import Py Step5.

(** The calls a task may end with, after the polls. *)
Definition ending (s : session) (tail : list event) : Prop :=
  tail = []
  \/ (tail = [EvGenerate] /\ exists e, generate_content s = inl e)
  \/ (tail = [EvGenerate; EvDelete] /\ exists text, generate_content s = inr text).

End TaskNotions.

Module TextNotions.
Import Py Step5 Step5Notions.

(** A text without a backquote. *)
Definition no_backquote (s : string) : Prop :=
  all_chars (fun c => negb (c =? "`")%char) s = true.

(** The characters of a normal form. *)
Definition plain (c : ascii) : bool := is_lower_alnum c || (c =? " ")%char.

End TextNotions.

Module ScriptNotions.
Import Py Step2.

(** What the outside sees when every batch fails once for good. *)
Definition single_calls (bs : list (list mini)) : list event :=
  flat_map (fun b => [Call (full_prompt b); Sleep 1]) bs.

(** The seconds the script sleeps, as the log shows them. *)
Fixpoint slept (log : list event) : Z :=
  match log with
  | [] => 0
  | Sleep seconds :: rest => seconds + slept rest
  | Call _ :: rest => slept rest
  end.

End ScriptNotions.

Module MasterNotions.
Import Py Master.

(** The child of step [s] exited with code 0. *)
Definition succeeded (world : step -> process) (s : step) : Prop :=
  returncode (world s) = 0%Z.

(** The characters of a run folder's name. *)
Definition name_char (c : ascii) : bool := isalnum c || (c =? "_")%char.

End MasterNotions.

(* ================================================================== *)
(** * Properties of the Text Normalizer and the Fuzzy Matcher *)
(* ================================================================== *)

Module NormalizerFacts.
Import Py Step5 Step5Notions.

Lemma all_chars_snoc P s c :
  all_chars P s = true -> P c = true -> all_chars P (s ++ String c "") = true.
Proof.
  induction s as [|a s IH]; simpl; intros Hs Hc.
  - now rewrite Hc.
  - apply andb_true_iff in Hs as [Ha Hs]. rewrite Ha. simpl. now apply IH.
Qed.

Lemma snoc_not_empty s c : s ++ String c "" <> "".
Proof. destruct s; discriminate. Qed.

Lemma eqb_empty_false s : s <> "" -> (s =? "") = false.
Proof. intros H. now apply String.eqb_neq. Qed.

Lemma sub_char_class c : is_lower_alnum (sub_char c) || is_space (sub_char c) = true.
Proof.
  unfold sub_char. destruct (is_lower_alnum c || is_space c) eqn:E.
  - exact E.
  - reflexivity.
Qed.

Lemma re_sub_class s :
  all_chars (fun c => is_lower_alnum c || is_space c) (re_sub_non_alnum s) = true.
Proof.
  induction s as [|c s IH]; simpl; [reflexivity|].
  now rewrite sub_char_class, IH.
Qed.

Lemma split_from_words s : forall cur,
  all_chars is_lower_alnum cur = true ->
  all_chars (fun c => is_lower_alnum c || is_space c) s = true ->
  Forall word (split_from cur s).
Proof.
  induction s as [|c s IH]; intros cur Hcur Hs; simpl in *.
  - destruct (cur =? "") eqn:E; constructor; [|constructor].
    split; [|exact Hcur]. now apply String.eqb_neq.
  - apply andb_true_iff in Hs as [Hc Hs].
    destruct (is_space c) eqn:Sp.
    + destruct (cur =? "") eqn:E.
      * now apply IH.
      * constructor; [|now apply IH].
        split; [|exact Hcur]. now apply String.eqb_neq.
    + rewrite orb_false_r in Hc. apply IH; [|exact Hs].
      now apply all_chars_snoc.
Qed.

Lemma normalize_text_words text :
  exists words, normalize_text text = join " " words /\ Forall word words.
Proof.
  unfold normalize_text.
  eexists; split; [reflexivity|].
  apply split_from_words; [reflexivity|apply re_sub_class].
Qed.

(** C3, as the claim states it, fails: [None] is first printed as the text
    [None], so its normal form is [none], not the normal form of the empty
    text. *)
Lemma normalize_text_None_not_empty :
  ~ (normalize_text PyNone = normalize_text (PyStr "")
     /\ normalize_text PyNone = "").
Proof. intros [H _]. vm_compute in H. discriminate H. Qed.

(** C3 (amended): the normalizer is a total function; every value has a
    normal form made of words of a-z and 0-9 joined by single blanks; the
    empty text has the empty normal form, and an absent input ([None]) has
    the normal form of the text [None], which is [none]. *)
Theorem normalize_text_total :
  (forall text : pyval,
      exists words, normalize_text text = join " " words /\ Forall word words)
  /\ normalize_text (PyStr "") = ""
  /\ normalize_text PyNone = normalize_text (PyStr "None")
  /\ normalize_text PyNone = "none".
Proof.
  split; [exact normalize_text_words|].
  repeat split; reflexivity.
Qed.

End NormalizerFacts.

Module MatcherFacts.
Import Py Step5 Step5Notions.

Section Scores.
Variable lib : library.
Variable citation : string.

Lemma fold_consider files : forall best_file best_score,
  let res := fold_left (consider lib (normalize_text (PyStr citation))) files
               (best_file, best_score) in
  (res = (best_file, best_score)
   /\ forall g, In g files -> (score_of lib citation g <= best_score)%Z)
  \/ exists front f back,
       files = (front ++ f :: back)%list
       /\ res = (Some f, score_of lib citation f)
       /\ (best_score < score_of lib citation f)%Z
       /\ (forall g, In g front -> (score_of lib citation g < score_of lib citation f)%Z)
       /\ (forall g, In g back -> (score_of lib citation g <= score_of lib citation f)%Z).
Proof.
  induction files as [|a files IH]; intros best_file best_score; cbv zeta; simpl.
  - left. split; [reflexivity|]. intros g [].
  - cbv zeta in IH.
    replace (consider lib (normalize_text (PyStr citation)) (best_file, best_score) a)
      with (if (best_score <? score_of lib citation a)%Z then (Some a, score_of lib citation a)
            else (best_file, best_score)) by reflexivity.
    destruct (best_score <? score_of lib citation a)%Z eqn:E.
    + apply Z.ltb_lt in E.
      destruct (IH (Some a) (score_of lib citation a)) as [[Hres Hle]|(front & f & back & Hf & Hres & Hlt & Hfront & Hback)].
      * right. exists [], a, files. simpl. conjuncts; auto.
        intros g [].
      * right. exists (a :: front), f, back. subst files. simpl.
        conjuncts; auto; try lia.
        intros g [<-|Hg]; [lia|auto].
    + apply Z.ltb_ge in E.
      destruct (IH best_file best_score) as [[Hres Hle]|(front & f & back & Hf & Hres & Hlt & Hfront & Hback)].
      * left. split; [exact Hres|]. intros g [<-|Hg]; auto.
      * right. exists (a :: front), f, back. subst files. simpl.
        conjuncts; auto.
        intros g [<-|Hg]; [lia|auto].
Qed.

Lemma find_best_first_max files :
  files <> [] ->
  (forall g, In g files -> (0 <= score_of lib citation g)%Z) ->
  exists front f back,
    files = (front ++ f :: back)%list
    /\ find_best_local_match lib citation files = (Some f, score_of lib citation f)
    /\ (forall g, In g front -> (score_of lib citation g < score_of lib citation f)%Z)
    /\ (forall g, In g back -> (score_of lib citation g <= score_of lib citation f)%Z).
Proof.
  intros Hne Hpos. unfold find_best_local_match.
  destruct (fold_consider files None (-1)%Z) as [[_ Hle]|(front & f & back & Hf & Hres & _ & Hfront & Hback)].
  - destruct files as [|a files]; [contradiction|].
    specialize (Hle a (or_introl eq_refl)). specialize (Hpos a (or_introl eq_refl)). lia.
  - exists front, f, back. auto.
Qed.

Lemma find_best_none files :
  fst (find_best_local_match lib citation files) = None ->
  snd (find_best_local_match lib citation files) = (-1)%Z.
Proof.
  unfold find_best_local_match.
  destruct (fold_consider files None (-1)%Z) as [[-> _]|(front & f & back & _ & -> & _)].
  - reflexivity.
  - discriminate.
Qed.

End Scores.

End MatcherFacts.

(* ================================================================== *)
(** * Properties of the task list and of the merge *)
(* ================================================================== *)

Module TableFacts.
Import Py Step5 Step5Notions.

Lemma mapi_from_ext {A B} (f g : nat -> A -> B) l : forall k,
  (forall i a, f i a = g i a) -> mapi_from k f l = mapi_from k g l.
Proof.
  induction l as [|a l IH]; intros k H; simpl; [reflexivity|].
  now rewrite H, (IH (S k) H).
Qed.

Lemma mapi_from_mapi_from {A B C} (g : nat -> B -> C) (f : nat -> A -> B) l :
  forall k, mapi_from k g (mapi_from k f l)
            = mapi_from k (fun i a => g i (f i a)) l.
Proof.
  induction l as [|a l IH]; intros k; simpl; [reflexivity|].
  now rewrite IH.
Qed.

Lemma mapi_from_length {A B} (f : nat -> A -> B) l : forall k,
  List.length (mapi_from k f l) = List.length l.
Proof. induction l as [|a l IH]; intros k; simpl; auto. Qed.

Lemma mapi_from_nth {A B} (f : nat -> A -> B) l : forall k j,
  nth_error (mapi_from k f l) j = option_map (f (k + j)) (nth_error l j).
Proof.
  induction l as [|a l IH]; intros k j; destruct j; simpl; try reflexivity.
  - now rewrite Nat.add_0_r.
  - rewrite IH. now rewrite Nat.add_succ_r.
Qed.

Lemma mapi_from_id {A} (f : nat -> A -> A) l : forall k,
  (forall i a, f i a = a) -> mapi_from k f l = l.
Proof.
  induction l as [|a l IH]; intros k H; simpl; [reflexivity|].
  now rewrite H, IH.
Qed.

Lemma with_method_twice a b r : with_method a (with_method b r) = with_method a r.
Proof. reflexivity. Qed.

Lemma with_method_same r : with_method (Method r) r = r.
Proof. now destruct r. Qed.

Lemma set_method_mapi row_idx method df : forall k,
  set_method_from k row_idx method df
  = mapi_from k (fun i r => with_method (cell_step i (Method r) (row_idx, (method, PyNone))) r) df.
Proof.
  induction df as [|r df IH]; intros k; simpl; [reflexivity|].
  rewrite IH. f_equal. unfold cell_step. simpl.
  destruct (k =? row_idx)%nat; reflexivity.
Qed.

Lemma cell_step_reason j cell i m x y :
  cell_step j cell (i, (m, x)) = cell_step j cell (i, (m, y)).
Proof. reflexivity. Qed.

Lemma merge_all_mapi completed : forall df,
  merge_all completed df
  = mapi_from 0 (fun i r => with_method (cell_after completed i (Method r)) r) df.
Proof.
  induction completed as [|[i [m x]] completed IH]; intros df.
  - simpl. symmetry. apply mapi_from_id. intros i r. apply with_method_same.
  - unfold merge_all in *. simpl. rewrite IH.
    unfold merge at 1, set_method. simpl. rewrite set_method_mapi.
    rewrite mapi_from_mapi_from. apply mapi_from_ext.
    intros j r. reflexivity.
Qed.

Lemma merge_all_nth completed df j :
  nth_error (merge_all completed df) j
  = option_map (fun r => with_method (cell_after completed j (Method r)) r)
      (nth_error df j).
Proof. rewrite merge_all_mapi. now rewrite mapi_from_nth. Qed.

Lemma cell_after_other completed j : forall v,
  ~ In j (map fst completed) -> cell_after completed j (Some v) = Some v.
Proof.
  induction completed as [|r completed IH]; intros v Hj; [reflexivity|].
  unfold cell_after in *. simpl. unfold cell_step at 2.
  destruct (j =? fst r)%nat eqn:E.
  - apply Nat.eqb_eq in E. exfalso. apply Hj. left. now symmetry.
  - simpl. apply IH. intros H. apply Hj. now right.
Qed.

Lemma cell_after_absent completed j : forall cell,
  ~ In j (map fst completed) -> completed <> [] ->
  cell_after completed j cell = Some (filled cell).
Proof.
  destruct completed as [|r completed]; intros cell Hj Hne; [contradiction|].
  unfold cell_after. simpl. unfold cell_step at 2.
  destruct (j =? fst r)%nat eqn:E.
  - apply Nat.eqb_eq in E. exfalso. apply Hj. left. now symmetry.
  - apply cell_after_other. intros H. apply Hj. now right.
Qed.

Lemma cell_after_present completed j v : forall cell,
  NoDup (map fst completed) -> In (j, v) completed ->
  cell_after completed j cell = Some (fst v).
Proof.
  induction completed as [|r completed IH]; intros cell Hnd Hin; [contradiction|].
  simpl in Hnd. inversion Hnd as [|? ? Hnotin Hnd']; subst.
  unfold cell_after in *. simpl. unfold cell_step at 2.
  destruct Hin as [->|Hin].
  - simpl. rewrite Nat.eqb_refl. now apply cell_after_other.
  - destruct (j =? fst r)%nat eqn:E.
    + apply Nat.eqb_eq in E. exfalso. apply Hnotin. rewrite <- E.
      apply (in_map fst) in Hin. exact Hin.
    + now apply IH.
Qed.

(** The merges may come in any order: each task writes its own row. *)
Lemma cell_after_permutation completed completed' j cell :
  NoDup (map fst completed) -> Permutation completed completed' ->
  cell_after completed' j cell = cell_after completed j cell.
Proof.
  intros Hnd Hperm.
  assert (Hnd' : NoDup (map fst completed')).
  { eapply Permutation_NoDup; [|exact Hnd]. now apply Permutation_map. }
  destruct (in_dec Nat.eq_dec j (map fst completed)) as [Hin|Hout].
  - apply in_map_iff in Hin as [[i v] [Hi Hin]]. simpl in Hi. subst i.
    rewrite (cell_after_present completed j v cell Hnd Hin).
    apply cell_after_present; [exact Hnd'|].
    eapply Permutation_in; eauto.
  - destruct completed as [|r completed].
    + apply Permutation_nil in Hperm. now subst.
    + rewrite (cell_after_absent (r :: completed) j cell Hout) by discriminate.
      apply cell_after_absent.
      * intros H. apply Hout. eapply Permutation_in; [|exact H].
        apply Permutation_map. now apply Permutation_sym.
      * intros ->. apply Permutation_sym, Permutation_nil in Hperm. discriminate.
Qed.

Lemma merge_all_permutation completed completed' df :
  NoDup (map fst completed) -> Permutation completed completed' ->
  merge_all completed' df = merge_all completed df.
Proof.
  intros Hnd Hperm. rewrite !merge_all_mapi. apply mapi_from_ext.
  intros i r. f_equal. now apply cell_after_permutation.
Qed.

End TableFacts.

Module RunFacts.
Import Py Step5 Step5Notions TableFacts.

Section Tasks.
Variable lib : library.
Variable local_pdfs : list string.

Lemma task_of_matched i r :
  task_of lib local_pdfs i r = if already_done r then None else matched lib local_pdfs i r.
Proof. reflexivity. Qed.

Lemma matched_with_method i c r : matched lib local_pdfs i (with_method c r) = matched lib local_pdfs i r.
Proof. reflexivity. Qed.

Lemma matched_index i r t : matched lib local_pdfs i r = Some t -> fst t = i.
Proof.
  unfold matched. destruct (not_for_analysis r); [discriminate|].
  destruct (find_best_local_match _ _ _) as [[f|] score]; [|discriminate].
  destruct (85 <? score)%Z; [|discriminate].
  now intros [= <-].
Qed.

Lemma task_of_index i r t : task_of lib local_pdfs i r = Some t -> fst t = i.
Proof.
  rewrite task_of_matched. destruct (already_done r); [discriminate|].
  apply matched_index.
Qed.

Lemma tasks_from_In df : forall k i f,
  In (i, f) (tasks_from lib local_pdfs k df) <->
  exists j r, i = k + j /\ nth_error df j = Some r
              /\ task_of lib local_pdfs i r = Some (i, f).
Proof.
  induction df as [|r df IH]; intros k i f; simpl.
  - split; [intros []|]. intros (j & r & _ & H & _). now destruct j.
  - assert (Htail : In (i, f) (tasks_from lib local_pdfs (S k) df) <->
              exists j r0, i = k + S j /\ nth_error df j = Some r0
                           /\ task_of lib local_pdfs i r0 = Some (i, f)).
    { rewrite IH. split; intros (j & r0 & Hi & H); exists j, r0;
        (split; [lia|exact H]). }
    destruct (task_of lib local_pdfs k r) as [t|] eqn:Et; simpl.
    + split.
      * intros [->|Hin].
        -- exists 0, r. pose proof (task_of_index _ _ _ Et) as Hk. simpl in Hk.
           subst i. rewrite Nat.add_0_r. auto.
        -- apply Htail in Hin as (j & r0 & Hi & H). exists (S j), r0. auto.
      * intros ([|j] & r0 & Hi & Hnth & Ht); simpl in Hnth.
        -- injection Hnth as <-. rewrite Nat.add_0_r in Hi. subst i.
           left. congruence.
        -- right. apply Htail. eauto.
    + split.
      * intros Hin. apply Htail in Hin as (j & r0 & Hi & H). exists (S j), r0. auto.
      * intros ([|j] & r0 & Hi & Hnth & Ht); simpl in Hnth.
        -- injection Hnth as <-. rewrite Nat.add_0_r in Hi. subst i. congruence.
        -- apply Htail. eauto.
Qed.

Lemma tasks_from_lower df : forall k i,
  In i (map fst (tasks_from lib local_pdfs k df)) -> k <= i.
Proof.
  intros k i Hin. apply in_map_iff in Hin as [[i' f] [Hi Hin]]. simpl in Hi.
  subst i'. apply tasks_from_In in Hin as (j & _ & -> & _). lia.
Qed.

Lemma tasks_from_NoDup df : forall k,
  NoDup (map fst (tasks_from lib local_pdfs k df)).
Proof.
  induction df as [|r df IH]; intros k; simpl; [constructor|].
  destruct (task_of lib local_pdfs k r) as [t|] eqn:Et; [|apply IH].
  simpl. constructor; [|apply IH].
  rewrite (task_of_index _ _ _ Et). intros Hin.
  apply tasks_from_lower in Hin. lia.
Qed.

Lemma tasks_from_mapi (F : nat -> row -> row) (P : nat -> bool) df : forall k,
  (forall j r, nth_error df j = Some r ->
     task_of lib local_pdfs (k + j) (F (k + j) r)
     = match task_of lib local_pdfs (k + j) r with
       | Some t => if P (k + j) then Some t else None
       | None => None
       end) ->
  tasks_from lib local_pdfs k (mapi_from k F df)
  = filter (fun t => P (fst t)) (tasks_from lib local_pdfs k df).
Proof.
  induction df as [|r df IH]; intros k H; simpl; [reflexivity|].
  assert (Hrest : tasks_from lib local_pdfs (S k) (mapi_from (S k) F df)
                  = filter (fun t => P (fst t)) (tasks_from lib local_pdfs (S k) df)).
  { apply IH. intros j r0 Hnth. specialize (H (S j) r0 Hnth).
    now rewrite Nat.add_succ_r in H. }
  specialize (H 0 r eq_refl). rewrite Nat.add_0_r in H. rewrite H.
  destruct (task_of lib local_pdfs k r) as [t|] eqn:Et; simpl.
  - rewrite (task_of_index _ _ _ Et).
    destruct (P k); now rewrite Hrest.
  - exact Hrest.
Qed.

Lemma already_done_filled r :
  already_done (with_method (Some (filled (Method r))) r) = already_done r.
Proof. unfold already_done. simpl. now destruct (Method r). Qed.

Lemma already_done_has_method r :
  already_done r = true -> exists v, Method r = Some v.
Proof.
  unfold already_done. destruct (Method r) as [v|]; [eauto|discriminate].
Qed.

(** The task list of a table whose [Method] column received the verdicts
    of the tasks of [df]: the tasks whose row is still pending. *)
Lemma tasks_after_merge completed df :
  map fst completed = map fst (build_tasks lib local_pdfs df) ->
  build_tasks lib local_pdfs (merge_all completed df)
  = filter (fun t => still_pending (merge_all completed df) (fst t))
      (build_tasks lib local_pdfs df).
Proof.
  intros Hidx. unfold build_tasks in *.
  rewrite merge_all_mapi at 1.
  apply tasks_from_mapi. intros j r Hnth. simpl.
  unfold still_pending. rewrite merge_all_nth, Hnth. simpl.
  rewrite !task_of_matched, matched_with_method.
  destruct (already_done r) eqn:Ed.
  - destruct (already_done_has_method r Ed) as [v Hv].
    rewrite Hv, cell_after_other.
    + rewrite <- Hv, with_method_same, Ed. reflexivity.
    + rewrite Hidx. intros Hin. apply in_map_iff in Hin as [[i f] [Hi Hin]].
      simpl in Hi. subst i. apply tasks_from_In in Hin as (j' & r' & Hj & Hr' & Ht).
      simpl in Hj. subst j'. rewrite Hnth in Hr'. injection Hr' as <-.
      rewrite task_of_matched, Ed in Ht. discriminate.
  - destruct (matched lib local_pdfs j r) as [t|];
      destruct (already_done (with_method _ r)); reflexivity.
Qed.

End Tasks.

Section Runs.
Variable lib : library.
Variable fuel : nat.
Variable w : world.

Lemma attempt_index s i fname r :
  fst (analyze_single_paper lib fuel s i fname) = Some r -> fst r = i.
Proof.
  unfold analyze_single_paper. destruct (attempt lib fuel s) as [[x|] log]; simpl.
  - now intros [= <-].
  - discriminate.
Qed.

Lemma run_tasks_indices tasks : forall results,
  run_tasks lib fuel w tasks = Some results ->
  map fst results = map fst tasks.
Proof.
  induction tasks as [|[i f] tasks IH]; intros results; simpl.
  - now intros [= <-].
  - destruct (fst (analyze_single_paper lib fuel (w i f) i f)) as [r|] eqn:Er;
      [|discriminate].
    destruct (run_tasks lib fuel w tasks) as [rs|]; [|discriminate].
    intros [= <-]. simpl. rewrite (IH rs eq_refl).
    now rewrite (attempt_index _ _ _ _ Er).
Qed.

Lemma run_tasks_In tasks : forall results i f,
  run_tasks lib fuel w tasks = Some results ->
  In (i, f) tasks ->
  exists v, fst (analyze_single_paper lib fuel (w i f) i f) = Some (i, v)
            /\ In (i, v) results.
Proof.
  induction tasks as [|[i0 f0] tasks IH]; intros results i f; simpl; [intros _ []|].
  destruct (fst (analyze_single_paper lib fuel (w i0 f0) i0 f0)) as [r|] eqn:Er;
    [|discriminate].
  destruct (run_tasks lib fuel w tasks) as [rs|]; [|discriminate].
  intros [= <-] [[= -> ->]|Hin].
  - pose proof (attempt_index _ _ _ _ Er) as Hi. destruct r as [i' v].
    simpl in Hi. subst i'. exists v. split; [exact Er|now left].
  - destruct (IH rs i f eq_refl Hin) as (v & Hv & Hin'). exists v.
    split; [exact Hv|now right].
Qed.

Lemma run_tasks_total tasks :
  (forall i f, In (i, f) tasks ->
     fst (analyze_single_paper lib fuel (w i f) i f) <> None) ->
  exists results, run_tasks lib fuel w tasks = Some results.
Proof.
  induction tasks as [|[i f] tasks IH]; intros H; simpl; [eauto|].
  destruct (fst (analyze_single_paper lib fuel (w i f) i f)) as [r|] eqn:Er.
  - destruct IH as [rs ->]; [|eauto]. intros i' f' Hin. apply H. now right.
  - exfalso. apply (H i f); [now left|exact Er].
Qed.

Lemma run_fast_pipeline_eq listing df :
  run_fast_pipeline lib fuel w listing df
  = option_map (fun results => merge_all results df)
      (run_tasks lib fuel w (build_tasks lib (pdfs_of listing) df)).
Proof.
  unfold run_fast_pipeline, run_in_order.
  destruct (build_tasks lib (pdfs_of listing) df) as [|t tasks]; [reflexivity|].
  destruct (run_tasks lib fuel w (t :: tasks)); reflexivity.
Qed.

(** The table a run leaves does not depend on the order in which the
    tasks complete. *)
Lemma run_in_order_fair completion listing df :
  fair completion ->
  run_in_order completion lib fuel w listing df
  = run_fast_pipeline lib fuel w listing df.
Proof.
  intros Hfair. unfold run_fast_pipeline, run_in_order.
  destruct (build_tasks lib (pdfs_of listing) df) as [|t tasks] eqn:Et; [reflexivity|].
  destruct (run_tasks lib fuel w (t :: tasks)) as [results|] eqn:Er; [|reflexivity].
  f_equal. apply merge_all_permutation; [|apply Hfair].
  rewrite (run_tasks_indices _ _ Er), <- Et. apply tasks_from_NoDup.
Qed.

End Runs.

End RunFacts.

(* ================================================================== *)
(** * The Concurrent Item Analyzer: matching, threshold, resume *)
(* ================================================================== *)

Module AnalyzerFacts.
Import Py Step5 Step5Store Step5Notions StoreNotions TableFacts RunFacts MatcherFacts.

Lemma tasks_from_no_files lib df : forall k, tasks_from lib [] k df = [].
Proof.
  induction df as [|r df IH]; intros k; simpl; [reflexivity|].
  unfold task_of. simpl.
  destruct (already_done r); [apply IH|].
  destruct (not_for_analysis r); apply IH.
Qed.

(** C10: with no candidate the matcher returns no file and the score -1,
    which is not above 85; so when the folder lists no PDF file a run
    submits no task and leaves the table as it found it. *)
Theorem empty_candidates_enqueue_nothing :
  forall (lib : library) (citation : string) (listing : list string)
         (df : list row),
    find_best_local_match lib citation [] = (None, (-1)%Z)
    /\ (85 <? -1)%Z = false
    /\ (pdfs_of listing = [] ->
        build_tasks lib (pdfs_of listing) df = []
        /\ forall completion fuel w,
             run_in_order completion lib fuel w listing df = Some df).
Proof.
  intros lib citation listing df. conjuncts; try reflexivity.
  intros Hnone. split.
  - rewrite Hnone. apply tasks_from_no_files.
  - intros completion fuel w. unfold run_in_order, build_tasks.
    rewrite Hnone. now rewrite tasks_from_no_files.
Qed.

Lemma empty_candidates_witness :
  build_tasks Fixtures.lib (pdfs_of ["notes.txt"; "README.md"]) Fixtures.two_papers = []
  /\ forall completion fuel w,
       run_in_order completion Fixtures.lib fuel w ["notes.txt"; "README.md"]
         Fixtures.two_papers = Some Fixtures.two_papers.
Proof.
  apply (empty_candidates_enqueue_nothing Fixtures.lib "Smith 2020"
           ["notes.txt"; "README.md"] Fixtures.two_papers).
  reflexivity.
Defined.

Section Threshold.
Variable lib : library.
Variable listing : list string.

Lemma matched_iff i r f :
  not_for_analysis r = false ->
  matched lib (pdfs_of listing) i r = Some (i, f) <->
  (fst (find_best_local_match lib (cell_text (Full_Citation r)) (pdfs_of listing)) = Some f
   /\ (85 < snd (find_best_local_match lib (cell_text (Full_Citation r)) (pdfs_of listing)))%Z).
Proof.
  intros Hn. unfold matched. rewrite Hn.
  destruct (find_best_local_match _ _ _) as [[g|] score]; simpl.
  - destruct (85 <? score)%Z eqn:E.
    + apply Z.ltb_lt in E. split; [intros [= ->]; auto|intros [[= ->] _]; auto].
    + apply Z.ltb_ge in E. split; [discriminate|intros [_ H]; lia].
  - split; [discriminate|intros [H _]; discriminate].
Qed.

Lemma enqueued_iff df i r f :
  nth_error df i = Some r ->
  already_done r = false -> not_for_analysis r = false ->
  In (i, f) (build_tasks lib (pdfs_of listing) df) <->
  (fst (find_best_local_match lib (cell_text (Full_Citation r)) (pdfs_of listing)) = Some f
   /\ (85 < snd (find_best_local_match lib (cell_text (Full_Citation r)) (pdfs_of listing)))%Z).
Proof.
  intros Hnth Hd Hn. rewrite <- (matched_iff i r f Hn).
  unfold build_tasks. rewrite tasks_from_In. split.
  - intros (j & r' & Hj & Hr' & Ht). simpl in Hj. subst j.
    rewrite Hnth in Hr'. injection Hr' as <-.
    now rewrite task_of_matched, Hd in Ht.
  - intros Hm. exists i, r. conjuncts; auto.
    now rewrite task_of_matched, Hd.
Qed.

(** A row that has no task keeps its cells, but for the empty [Method]
    cell that the column gets when another row creates it. *)
Lemma skipped_row_kept completion fuel w df df' i r :
  fair completion ->
  run_in_order completion lib fuel w listing df = Some df' ->
  nth_error df i = Some r ->
  (forall f, ~ In (i, f) (build_tasks lib (pdfs_of listing) df)) ->
  nth_error df' i = Some r
  \/ nth_error df' i = Some (with_method (Some (filled (Method r))) r).
Proof.
  intros Hfair Hrun Hnth Hskip.
  rewrite (run_in_order_fair lib fuel w completion listing df Hfair) in Hrun.
  rewrite run_fast_pipeline_eq in Hrun.
  destruct (run_tasks lib fuel w _) as [results|] eqn:Er; [|discriminate].
  injection Hrun as <-. rewrite merge_all_nth, Hnth. simpl.
  assert (Hout : ~ In i (map fst results)).
  { rewrite (run_tasks_indices _ _ _ _ _ Er). intros Hin.
    apply in_map_iff in Hin as [[i' f] [Hi Hin]]. simpl in Hi. subst i'.
    exact (Hskip f Hin). }
  destruct results as [|x results].
  - left. simpl. now rewrite with_method_same.
  - right. now rewrite cell_after_absent.
Qed.

End Threshold.

(** C8: among the candidates (scores are not negative) the matcher returns
    the first one that attains the highest score; a pending row gets a task
    exactly when that score is above 85, and otherwise the run leaves the
    row pending: its [Method] cell stays empty, nothing marks it failed. *)
Theorem best_match_first_maximum_and_threshold :
  forall (lib : library),
    (forall a b, (0 <= token_set_ratio lib a b)%Z) ->
    (forall citation files, files <> [] ->
       exists front f back,
         files = (front ++ f :: back)%list
         /\ find_best_local_match lib citation files
            = (Some f, score_of lib citation f)
         /\ (forall g, In g front -> (score_of lib citation g < score_of lib citation f)%Z)
         /\ (forall g, In g back -> (score_of lib citation g <= score_of lib citation f)%Z))
    /\ (forall listing df i r,
          nth_error df i = Some r ->
          already_done r = false -> not_for_analysis r = false ->
          let best := find_best_local_match lib (cell_text (Full_Citation r))
                        (pdfs_of listing) in
          (forall f, In (i, f) (build_tasks lib (pdfs_of listing) df)
                     <-> fst best = Some f /\ (85 < snd best)%Z)
          /\ ((snd best <= 85)%Z ->
              forall completion fuel w df',
                fair completion ->
                run_in_order completion lib fuel w listing df = Some df' ->
                exists r', nth_error df' i = Some r'
                           /\ with_method (Method r) r' = r
                           /\ already_done r' = false
                           /\ not_for_analysis r' = false)).
Proof.
  intros lib Hpos. split.
  - intros citation files Hne. apply find_best_first_max; auto.
    intros g _. apply Hpos.
  - intros listing df i r Hnth Hd Hn best. split.
    + intros f. now apply enqueued_iff.
    + intros Hle completion fuel w df' Hfair Hrun.
      assert (Hskip : forall f, ~ In (i, f) (build_tasks lib (pdfs_of listing) df)).
      { intros f Hin. apply (enqueued_iff lib listing df i r f Hnth Hd Hn) in Hin.
        fold best in Hin. lia. }
      destruct (skipped_row_kept lib listing completion fuel w df df' i r
                  Hfair Hrun Hnth Hskip) as [H|H].
      * exists r. conjuncts; auto. apply with_method_same.
      * exists (with_method (Some (filled (Method r))) r). conjuncts; auto.
        -- now destruct r.
        -- now rewrite already_done_filled.
Qed.

Lemma fair_identity : fair (fun results => results).
Proof. intros results. apply Permutation_refl. Qed.

Lemma fair_reverse : fair (@rev (nat * verdict)).
Proof. intros results. apply Permutation_rev. Qed.

Lemma exact_ratio_not_negative a b : (0 <= Fixtures.exact_ratio a b)%Z.
Proof. unfold Fixtures.exact_ratio. destruct (a =? b); lia. Qed.

Lemma best_match_witness :
  (exists r', nth_error Fixtures.two_papers_after 1 = Some r'
              /\ with_method (Some PyNaN) r' = Fixtures.paper_row "Zz Totally Unrelated"
              /\ already_done r' = false
              /\ not_for_analysis r' = false)
  /\
  (exists front f back,
      Fixtures.folder = (front ++ f :: back)%list
      /\ find_best_local_match Fixtures.lib "Smith, J. (2020). Deep Learning." Fixtures.folder
         = (Some f, score_of Fixtures.lib "Smith, J. (2020). Deep Learning." f)
      /\ (forall g, In g front ->
            (score_of Fixtures.lib "Smith, J. (2020). Deep Learning." g
             < score_of Fixtures.lib "Smith, J. (2020). Deep Learning." f)%Z)
      /\ (forall g, In g back ->
            (score_of Fixtures.lib "Smith, J. (2020). Deep Learning." g
             <= score_of Fixtures.lib "Smith, J. (2020). Deep Learning." f)%Z)).
Proof.
  split.
  - apply (proj2 (proj2 (best_match_first_maximum_and_threshold Fixtures.lib
                           exact_ratio_not_negative)
                    Fixtures.folder Fixtures.two_papers 1
                    (Fixtures.paper_row "Zz Totally Unrelated")
                    eq_refl eq_refl eq_refl))
      with (completion := @rev (nat * verdict)) (fuel := 1)
           (w := Fixtures.failing_world).
    + vm_compute. discriminate.
    + exact fair_reverse.
    + vm_compute. reflexivity.
  - apply (proj1 (best_match_first_maximum_and_threshold Fixtures.lib
                    exact_ratio_not_negative)).
    discriminate.
Defined.

Lemma filter_none {A} (p : A -> bool) l :
  (forall x, In x l -> p x = false) -> filter p l = [].
Proof.
  induction l as [|a l IH]; intros H; simpl; [reflexivity|].
  rewrite (H a (or_introl eq_refl)). apply IH. intros x Hx. apply H. now right.
Qed.

Section Resume.
Variable lib : library.
Variable listing : list string.

Lemma run_result completion fuel w df df1 :
  fair completion ->
  run_in_order completion lib fuel w listing df = Some df1 ->
  exists results,
    map fst results = map fst (build_tasks lib (pdfs_of listing) df)
    /\ run_tasks lib fuel w (build_tasks lib (pdfs_of listing) df) = Some results
    /\ df1 = merge_all results df.
Proof.
  intros Hfair Hrun.
  rewrite (run_in_order_fair lib fuel w completion listing df Hfair) in Hrun.
  rewrite run_fast_pipeline_eq in Hrun.
  destruct (run_tasks lib fuel w _) as [results|] eqn:Er; [|discriminate].
  injection Hrun as <-. exists results. conjuncts; auto.
  now apply run_tasks_indices in Er.
Qed.

Lemma done_row_untouched completion fuel w df1 df2 j r :
  fair completion ->
  run_in_order completion lib fuel w listing df1 = Some df2 ->
  nth_error df1 j = Some r -> already_done r = true ->
  nth_error df2 j = Some r.
Proof.
  intros Hfair Hrun Hnth Hd.
  destruct (run_result completion fuel w df1 df2 Hfair Hrun)
    as (results & Hidx & _ & ->).
  rewrite merge_all_nth, Hnth. simpl.
  destruct (already_done_has_method r Hd) as [v Hv].
  rewrite Hv, cell_after_other; [now rewrite <- Hv, with_method_same|].
  rewrite Hidx. intros Hin. apply in_map_iff in Hin as [[i f] [Hi Hin]].
  simpl in Hi. subst i. apply tasks_from_In in Hin as (j' & r' & Hj & Hr' & Ht).
  simpl in Hj. subst j'. rewrite Hnth in Hr'. injection Hr' as <-.
  rewrite task_of_matched, Hd in Ht. discriminate.
Qed.

End Resume.

Section Reload.
Variable pd : reader.
Hypothesis pandas : as_pandas pd.
Variable lib : library.
Variable listing : list string.

Lemma map_mapi_from {A B C} (f : B -> C) (g : nat -> A -> B) l : forall k,
  map f (mapi_from k g l) = mapi_from k (fun i a => f (g i a)) l.
Proof. induction l as [|a l IH]; intros k; simpl; [|rewrite IH]; reflexivity. Qed.

Lemma mapi_from_map {A B C} (g : nat -> B -> C) (f : A -> B) l : forall k,
  mapi_from k g (map f l) = mapi_from k (fun i a => g i (f a)) l.
Proof. induction l as [|a l IH]; intros k; simpl; [|rewrite IH]; reflexivity. Qed.

Lemma mapi_from_plain {A B} (f : A -> B) l : forall k,
  mapi_from k (fun _ a => f a) l = map f l.
Proof. induction l as [|a l IH]; intros k; simpl; [|rewrite IH]; reflexivity. Qed.

(** A row read from the file is done exactly when its stored result does
    not read as pending. *)
Lemma read_back_done file l :
  already_done (read_line pd file l) = negb (pending_text (csv_Method l)).
Proof.
  unfold already_done, pending_text, read_line. cbn [Method].
  destruct (csv_Method l) as [text|]; [|reflexivity].
  cbn [option_map cell_text]. unfold read_cell.
  destruct (in_list text STR_NA_VALUES) eqn:E; [reflexivity|].
  now rewrite (typed_prints pd pandas _ text E).
Qed.

(** A result that was read as done and is written again is read as done
    again. *)
Lemma done_cell_stays_done col text :
  in_list (py_str (read_cell pd col text)) ["nan"; ""; "None"; "Unknown"] = false ->
  pending_text (Some (csv_text (read_cell pd col text))) = false.
Proof.
  unfold read_cell, pending_text.
  destruct (in_list text STR_NA_VALUES) eqn:E; [discriminate|].
  intros Hdone. rewrite (typed_written pd pandas col text E). cbn [orb].
  assert (Hsame : csv_text (typed pd col text) = py_str (typed pd col text)).
  { destruct (typed pd col text); try reflexivity; discriminate Hdone. }
  rewrite Hsame. unfold in_list in Hdone. cbn [existsb] in Hdone.
  repeat (apply orb_false_iff in Hdone; destruct Hdone as [? Hdone]).
  assumption.
Qed.

Section Column.
Variable get : line -> option string.
Variable cell : row -> option pyval.
Hypothesis written : forall r, get (write_line r) = option_map csv_text (cell r).
Hypothesis read : forall file l,
  cell (read_line pd file l) = option_map (read_cell pd (column get file)) (get l).
Hypothesis kept : forall c r, cell (with_method c r) = cell r.

(** A column the run does not assign is written as it was read. *)
Lemma kept_column completed input :
  column get (to_csv (merge_all completed (read_csv pd input)))
  = map (fun t => csv_text (read_cell pd (column get input) t)) (column get input).
Proof.
  set (c0 := column get input). unfold column at 1. unfold to_csv.
  rewrite merge_all_mapi. unfold read_csv.
  rewrite mapi_from_map, !map_mapi_from. subst c0. unfold column at 2.
  rewrite map_map.
  rewrite <- (mapi_from_plain
                (fun l => csv_text (read_cell pd (column get input) (text_of (get l))))
                input 0).
  apply mapi_from_ext. intros i l. rewrite written, kept, read.
  destruct (get l) as [text|]; reflexivity.
Qed.

Lemma kept_cell completed input l :
  In l input ->
  option_map
    (read_cell pd (column get (to_csv (merge_all completed (read_csv pd input)))))
    (option_map csv_text (cell (read_line pd input l)))
  = cell (read_line pd input l).
Proof.
  intros Hin. rewrite kept_column, read.
  destruct (get l) as [text|] eqn:E; [|reflexivity].
  cbn [option_map]. f_equal. apply (read_stable pd pandas).
  unfold column. apply in_map_iff. exists l. now rewrite E.
Qed.

End Column.

Lemma matched_same local_pdfs i a b :
  Full_Citation a = Full_Citation b -> Link a = Link b ->
  matched lib local_pdfs i a = matched lib local_pdfs i b.
Proof. unfold matched, not_for_analysis. now intros -> ->. Qed.

(** The task list of a run that reads the file the first run left: the
    tasks of the first run whose stored result reads as pending. *)
Lemma tasks_after_reload completed input :
  map fst completed
  = map fst (build_tasks lib (pdfs_of listing) (read_csv pd input)) ->
  build_tasks lib (pdfs_of listing)
    (read_csv pd (to_csv (merge_all completed (read_csv pd input))))
  = filter
      (fun t => stored_pending (to_csv (merge_all completed (read_csv pd input)))
                  (fst t))
      (build_tasks lib (pdfs_of listing) (read_csv pd input)).
Proof.
  intros Hidx.
  remember (to_csv (merge_all completed (read_csv pd input))) as output eqn:Hout.
  assert (Hread : read_csv pd output
                  = mapi_from 0
                      (fun i r => read_line pd output
                                    (write_line
                                       (with_method (cell_after completed i (Method r)) r)))
                      (read_csv pd input)).
  { unfold read_csv at 1. rewrite Hout at 2. unfold to_csv.
    now rewrite merge_all_mapi, !map_mapi_from. }
  unfold build_tasks in *. rewrite Hread.
  apply (tasks_from_mapi lib (pdfs_of listing) _ (fun j => stored_pending output j)).
  intros j r Hnth. cbn [plus].
  assert (Hline : nth_error output j
                  = Some (write_line (with_method (cell_after completed j (Method r)) r))).
  { rewrite Hout. unfold to_csv. rewrite nth_error_map, merge_all_nth, Hnth.
    reflexivity. }
  unfold stored_pending. rewrite Hline.
  unfold read_csv in Hnth. rewrite nth_error_map in Hnth.
  destruct (nth_error input j) as [l|] eqn:El; [|discriminate].
  cbn [option_map] in Hnth. injection Hnth as <-.
  assert (Hin : In l input) by (eapply nth_error_In; eauto).
  rewrite !task_of_matched, read_back_done.
  rewrite (matched_same (pdfs_of listing) j _ (read_line pd input l)).
  2:{ rewrite Hout.
      apply (kept_cell csv_Full_Citation Full_Citation); auto. }
  2:{ rewrite Hout.
      apply (kept_cell csv_Link Link); auto. }
  set (stored := csv_Method (write_line _)).
  destruct (already_done (read_line pd input l)) eqn:Ed.
  - assert (Hstored : pending_text stored = false); [|now rewrite Hstored].
    subst stored. cbn [csv_Method write_line Method with_method].
    destruct (already_done_has_method _ Ed) as [v Hv].
    rewrite Hv, cell_after_other.
    + cbn [option_map]. unfold already_done in Ed.
      cbn [read_line Method] in Hv, Ed.
      destruct (csv_Method l) as [text|]; [|discriminate].
      cbn [option_map cell_text] in Hv, Ed. injection Hv as <-.
      apply done_cell_stays_done. now apply negb_true_iff in Ed.
    + rewrite Hidx. intros Hj. apply in_map_iff in Hj as [[i f] [Hi Hj]].
      simpl in Hi. subst i. apply tasks_from_In in Hj as (j' & r' & Hj' & Hr' & Ht).
      simpl in Hj'. subst j'. unfold read_csv in Hr'.
      rewrite nth_error_map, El in Hr'. injection Hr' as <-.
      rewrite task_of_matched, Ed in Ht. discriminate.
  - destruct (pending_text stored);
      destruct (matched lib (pdfs_of listing) j (read_line pd input l));
      reflexivity.
Qed.

End Reload.

(** C1, as the claim states it, fails, in two ways. The first run stores
    the text [N/A] that the model gave as methodology; the resume test
    takes [N/A] for a result, but the second run reads the file with
    [pd.read_csv], which takes [N/A] for a missing value: the paper is
    analyzed again and its line is written a second time, here with
    another answer. And the first run stores [Unknown] for a paper whose
    answer names no methodology; the resume test counts [Unknown] as
    pending, and the second run analyzes that paper again as well. *)
Lemma resume_reprocesses_stored_results :
  fresh_in_order (fun results => results) Fixtures.lib_more Fixtures.text_reader 1
    Fixtures.third_world Fixtures.folder Fixtures.input_file
  = Some (Fixtures.output_with "N/A")
  /\ in_list "N/A" ["nan"; ""; "None"; "Unknown"] = false
  /\ build_tasks Fixtures.lib_more (pdfs_of Fixtures.folder)
       (read_csv Fixtures.text_reader (Fixtures.output_with "N/A"))
     = [(0, "smith_j_2020_deep_learning.pdf")]
  /\ resume_in_order (fun results => results) Fixtures.lib_more Fixtures.text_reader 1
       Fixtures.second_world Fixtures.folder (Fixtures.output_with "N/A")
     = Some (Fixtures.output_with "Category A")
  /\ Fixtures.output_with "Category A" <> Fixtures.output_with "N/A"
  /\ fresh_in_order (fun results => results) Fixtures.lib_more Fixtures.text_reader 1
       Fixtures.first_world Fixtures.folder Fixtures.input_file
     = Some (Fixtures.output_with "Unknown")
  /\ resume_in_order (fun results => results) Fixtures.lib_more Fixtures.text_reader 1
       Fixtures.second_world Fixtures.folder (Fixtures.output_with "Unknown")
     = Some (Fixtures.output_with "Category A")
  /\ Fixtures.output_with "Category A" <> Fixtures.output_with "Unknown".
Proof.
  conjuncts; try (vm_compute; reflexivity); vm_compute; discriminate.
Qed.

(** C1 (amended): the second run reads the file the first run left with
    [pd.read_csv] and takes up exactly the tasks of the first run whose
    stored result reads as pending: the text [Unknown], or a text that
    [pd.read_csv] takes for a missing value (the empty text, [nan],
    [None], [N/A], [NA], [null] and the like). A row whose stored result
    is any other text (also [Error]) is left by the second run as it
    read it. When no task of the first run left a result that reads as
    pending, the second run submits nothing and the file stays
    identical. *)
Theorem resume_takes_up_pending_rows_only :
  forall (pd : reader) (lib : library) (listing : list string) completion fuel w
         (input output : list line),
    as_pandas pd ->
    fair completion ->
    fresh_in_order completion lib pd fuel w listing input = Some output ->
    build_tasks lib (pdfs_of listing) (read_csv pd output)
    = filter (fun t => stored_pending output (fst t))
        (build_tasks lib (pdfs_of listing) (read_csv pd input))
    /\ (forall completion' fuel' w' df2 j l,
          fair completion' ->
          run_in_order completion' lib fuel' w' listing (read_csv pd output)
          = Some df2 ->
          nth_error output j = Some l ->
          pending_text (csv_Method l) = false ->
          nth_error df2 j = Some (read_line pd output l))
    /\ ((forall t, In t (build_tasks lib (pdfs_of listing) (read_csv pd input)) ->
                   stored_pending output (fst t) = false) ->
        forall completion' fuel' w',
          resume_in_order completion' lib pd fuel' w' listing output = Some output).
Proof.
  intros pd lib listing completion fuel w input output Hpd Hfair Hrun.
  unfold fresh_in_order in Hrun.
  destruct (run_in_order completion lib fuel w listing (read_csv pd input))
    as [df1|] eqn:Hrun1; [|discriminate].
  cbn [option_map] in Hrun. injection Hrun as <-.
  destruct (run_result lib listing completion fuel w _ df1 Hfair Hrun1)
    as (results & Hidx & _ & ->).
  pose proof (tasks_after_reload pd Hpd lib listing results input Hidx) as Htasks.
  conjuncts.
  - exact Htasks.
  - intros completion' fuel' w' df2 j l Hfair' Hrun2 Hline Hdone.
    apply (done_row_untouched lib listing completion' fuel' w' _ df2 j _ Hfair' Hrun2).
    + unfold read_csv at 1. now rewrite nth_error_map, Hline.
    + now rewrite (read_back_done pd Hpd), Hdone.
  - intros Hnone completion' fuel' w'.
    assert (Hempty : build_tasks lib (pdfs_of listing)
                       (read_csv pd (to_csv (merge_all results (read_csv pd input))))
                     = []).
    { rewrite Htasks. apply filter_none. exact Hnone. }
    unfold resume_in_order. now rewrite Hempty.
Qed.

Lemma text_reader_as_pandas : as_pandas Fixtures.text_reader.
Proof.
  assert (Hcell : forall col text,
             csv_text (read_cell Fixtures.text_reader col text)
             = if in_list text STR_NA_VALUES then "" else text).
  { intros col text. unfold read_cell.
    destruct (in_list text STR_NA_VALUES); reflexivity. }
  split.
  - intros col text Hna. cbn [typed Fixtures.text_reader py_str].
    unfold in_list in *. cbn [existsb] in *.
    repeat (apply orb_false_iff in Hna; destruct Hna as [? Hna]).
    repeat match goal with H : (text =? _) = false |- _ => rewrite H; clear H end.
    now rewrite orb_false_r.
  - intros col text Hna. exact Hna.
  - intros col text _. rewrite Hcell. unfold read_cell at 1 3.
    destruct (in_list text STR_NA_VALUES) eqn:E; [reflexivity|].
    now rewrite E.
Defined.

Lemma resume_witness :
  fresh_in_order (fun results => results) Fixtures.lib_more Fixtures.text_reader 1
    Fixtures.second_world Fixtures.folder Fixtures.input_file
  = Some (Fixtures.output_with "Category A")
  /\ build_tasks Fixtures.lib_more (pdfs_of Fixtures.folder)
       (read_csv Fixtures.text_reader (Fixtures.output_with "Category A")) = []
  /\ resume_in_order (@rev (nat * verdict)) Fixtures.lib_more Fixtures.text_reader 0
       Fixtures.first_world Fixtures.folder (Fixtures.output_with "Category A")
     = Some (Fixtures.output_with "Category A").
Proof.
  pose proof (resume_takes_up_pending_rows_only Fixtures.text_reader
                Fixtures.lib_more Fixtures.folder (fun results => results) 1
                Fixtures.second_world Fixtures.input_file
                (Fixtures.output_with "Category A")
                text_reader_as_pandas fair_identity eq_refl) as (Htasks & _ & Hsame).
  conjuncts.
  - reflexivity.
  - rewrite Htasks. reflexivity.
  - apply Hsame. intros t [<-|[]]. reflexivity.
Defined.

End AnalyzerFacts.

(* ================================================================== *)
(** * One analysis task: failures and the polling loop *)
(* ================================================================== *)

Module TaskFacts.
Import Py Step5 Step5Notions TableFacts RunFacts.

Lemma polls_succ log n :
  ((log ++ [EvSleep 1; EvGet]) ++ polls n = log ++ polls (S n))%list.
Proof. unfold polls. simpl. now rewrite <- app_assoc. Qed.

Section Task.
Variable lib : library.
Variable s : session.

Lemma wait_settles x n : forall fuel k f log,
  n <= fuel ->
  reported s k = inr f ->
  (forall j, j < n -> reported s (k + j) = inr (Some PROCESSING)) ->
  reported s (k + n) = x ->
  x <> inr (Some PROCESSING) ->
  wait_while_processing fuel s k f log
  = (Some (handed_on x), (log ++ polls n)%list).
Proof.
  induction n as [|n IH]; intros fuel k f log Hfuel Hk Hproc Hx Hne.
  - rewrite Nat.add_0_r, Hk in Hx. subst x. unfold polls. simpl.
    rewrite app_nil_r.
    destruct f as [[| | |]|]; destruct fuel; simpl; try reflexivity;
      now contradiction Hne.
  - destruct fuel as [|fuel]; [lia|].
    pose proof (Hproc 0 (Nat.lt_0_succ n)) as H0.
    rewrite Nat.add_0_r, Hk in H0. injection H0 as ->. simpl.
    rewrite <- polls_succ.
    destruct (files_get s k) as [e|f'] eqn:Eg.
    + destruct n as [|n].
      * rewrite Nat.add_1_r in Hx. simpl in Hx. rewrite Eg in Hx. subst x.
        unfold polls. simpl. now rewrite app_nil_r.
      * specialize (Hproc 1 ltac:(lia)). rewrite Nat.add_1_r in Hproc.
        simpl in Hproc. congruence.
    + apply IH; try lia; auto.
      * intros j Hj. specialize (Hproc (S j) ltac:(lia)).
        now rewrite Nat.add_succ_r in Hproc.
      * now rewrite Nat.add_succ_r in Hx.
Qed.

Lemma wait_starves : forall fuel k f log,
  reported s k = inr f ->
  (forall j, j <= fuel -> reported s (k + j) = inr (Some PROCESSING)) ->
  fst (wait_while_processing fuel s k f log) = None.
Proof.
  induction fuel as [|fuel IH]; intros k f log Hk Hproc.
  - specialize (Hproc 0 (le_n 0)). rewrite Nat.add_0_r, Hk in Hproc.
    injection Hproc as ->. reflexivity.
  - pose proof (Hproc 0 (Nat.le_0_l _)) as H0.
    rewrite Nat.add_0_r, Hk in H0. injection H0 as ->. simpl.
    pose proof (Hproc 1 ltac:(lia)) as H1. rewrite Nat.add_1_r in H1.
    simpl in H1. rewrite H1. apply IH; [exact H1|].
    intros j Hj. specialize (Hproc (S j) ltac:(lia)).
    now rewrite Nat.add_succ_r in Hproc.
Qed.

(** The body of the [try] once the copy is made and the file settles. *)
Lemma attempt_settles fuel n x u :
  copy2 s = inr u -> settles s n x -> n <= fuel ->
  attempt lib fuel s
  = match handed_on x with
    | inl e => (Some (inl e), (EvUpload :: polls n))
    | inr f => (Some (fst (classify lib s f)),
                (EvUpload :: polls n ++ snd (classify lib s f))%list)
    end.
Proof.
  intros Hcopy (Hproc & Hx & Hne) Hfuel. unfold attempt. rewrite Hcopy.
  destruct (files_upload s) as [e|f] eqn:Eu.
  - destruct n as [|n].
    + simpl in Hx. rewrite Eu in Hx. subst x. reflexivity.
    + specialize (Hproc 0 (Nat.lt_0_succ n)). simpl in Hproc. congruence.
  - rewrite (wait_settles x n fuel 0 f [EvUpload] Hfuel Eu Hproc Hx Hne).
    destruct (handed_on x) as [e|f']; [reflexivity|].
    now destruct (classify lib s f').
Qed.

Lemma attempt_starves fuel u :
  copy2 s = inr u ->
  (forall k, k <= fuel -> reported s k = inr (Some PROCESSING)) ->
  fst (attempt lib fuel s) = None.
Proof.
  intros Hcopy Hproc. unfold attempt. rewrite Hcopy.
  pose proof (Hproc 0 (Nat.le_0_l _)) as H0. simpl in H0. rewrite H0.
  pose proof (wait_starves fuel 0 (Some PROCESSING) [EvUpload] H0 Hproc) as H.
  destruct (wait_while_processing fuel s 0 (Some PROCESSING) [EvUpload])
    as [[[e|f]|] log]; simpl in H; try discriminate. reflexivity.
Qed.

Lemma classify_no_poll f : no_poll (snd (classify lib s f)).
Proof.
  assert (H0 : no_poll []) by (split; intros []).
  assert (H1 : no_poll [EvGenerate]).
  { split; intros [H|[]]; discriminate H. }
  assert (H2 : no_poll [EvGenerate; EvDelete]).
  { split; intros [H|[H|[]]]; discriminate H. }
  unfold classify. destruct (state_name f) as [e|[| | |]]; try exact H0;
    (destruct (generate_content s) as [e|[text|]]; try exact H1; try exact H2;
     destruct (json_loads lib (strip_fences text)) as [e|[v|items|data]];
     exact H2).
Qed.

End Task.

Section Verdicts.
Variable lib : library.

Lemma copy_failure s fuel i fname e :
  copy2 s = inl e ->
  analyze_single_paper lib fuel s i fname = (Some (i, error e), []).
Proof.
  intros H. unfold analyze_single_paper, attempt. now rewrite H.
Qed.

Lemma settled_task_returns s fuel n x u i fname :
  copy2 s = inr u -> settles s n x -> n <= fuel ->
  exists v more,
    analyze_single_paper lib fuel s i fname
    = (Some (i, v), (EvUpload :: polls n ++ more)%list)
    /\ no_poll more
    /\ (forall e, x = inl e -> v = error e)
    /\ (x = inr None -> v = error (no_attribute "NoneType" "name"))
    /\ (x = inr (Some FAILED) -> v = error "File processing failed")
    /\ (forall st, x = inr (Some st) -> st <> FAILED ->
          (forall e, generate_content s = inl e -> v = error e)
          /\ (generate_content s = inr None ->
              v = error (no_attribute "NoneType" "replace"))
          /\ (forall text, generate_content s = inr (Some text) ->
                (forall e, json_loads lib (strip_fences text) = inl e ->
                   v = error e)
                /\ (forall other,
                      json_loads lib (strip_fences text) = inr other ->
                      (forall data, other <> JDict data) ->
                      v = error (no_attribute (type_name other) "get"))
                /\ (forall data,
                      json_loads lib (strip_fences text) = inr (JDict data) ->
                      v = (dict_get "methodology" data (PyStr "Unknown"),
                           dict_get "reason" data (PyStr ""))))).
Proof.
  intros Hcopy Hsettles Hfuel. unfold analyze_single_paper.
  rewrite (attempt_settles lib s fuel n x u Hcopy Hsettles Hfuel).
  destruct Hsettles as (_ & _ & Hne).
  destruct x as [e|[st|]]; simpl.
  - exists (error e), []. rewrite app_nil_r. conjuncts; try discriminate.
    + reflexivity.
    + split; intros [].
    + now intros e' [= ->].
  - exists (handle (fst (classify lib s (Some st)))), (snd (classify lib s (Some st))).
    conjuncts; try discriminate.
    + reflexivity.
    + apply classify_no_poll.
    + now intros [= ->].
    + intros st' [= <-] Hst. unfold classify.
      destruct st; try (now contradiction Hne); try (now contradiction Hst);
        simpl; (conjuncts;
                [ now intros e ->
                | now intros ->
                | intros text ->; conjuncts;
                  [ now intros e ->
                  | intros other -> Hother; destruct other as [v|items|data];
                    [reflexivity|reflexivity|now contradiction (Hother data)]
                  | now intros data -> ] ]).
  - exists (error (no_attribute "NoneType" "name")), []. rewrite app_nil_r.
    conjuncts; try discriminate.
    + reflexivity.
    + split; intros [].
    + now intros _.
Qed.

Lemma starved_task s fuel u i fname :
  copy2 s = inr u ->
  (forall k, k <= fuel -> reported s k = inr (Some PROCESSING)) ->
  fst (analyze_single_paper lib fuel s i fname) = None.
Proof.
  intros Hcopy Hproc. unfold analyze_single_paper.
  pose proof (attempt_starves lib s fuel u Hcopy Hproc) as H.
  destruct (attempt lib fuel s) as [r log]. simpl in *. now rewrite H.
Qed.

Lemma slow_session_settles n text :
  settles (Fixtures.slow_session n text) n (inr (Some ACTIVE)).
Proof.
  unfold settles. conjuncts.
  - intros [|k] Hk; simpl.
    + destruct n; [lia|reflexivity].
    + assert (E : (S k <? n)%nat = true) by now apply Nat.ltb_lt.
      now rewrite E.
  - destruct n as [|n]; simpl; [reflexivity|].
    now rewrite Nat.ltb_irrefl.
  - discriminate.
Qed.

Lemma slow_session_processing n text k :
  k < n -> reported (Fixtures.slow_session n text) k = inr (Some PROCESSING).
Proof. intros Hk. now apply (slow_session_settles n text). Qed.

(** A run in which every task returns stores every verdict, whatever it
    is. *)
Lemma every_verdict_stored completion fuel w listing df :
  fair completion ->
  (forall i f, In (i, f) (build_tasks lib (pdfs_of listing) df) ->
     fst (analyze_single_paper lib fuel (w i f) i f) <> None) ->
  exists df',
    run_in_order completion lib fuel w listing df = Some df'
    /\ forall i f, In (i, f) (build_tasks lib (pdfs_of listing) df) ->
         exists v r,
           fst (analyze_single_paper lib fuel (w i f) i f) = Some (i, v)
           /\ nth_error df i = Some r
           /\ nth_error df' i = Some (with_method (Some (fst v)) r).
Proof.
  intros Hfair Hret.
  destruct (run_tasks_total lib fuel w _ Hret) as [results Hres].
  exists (merge_all results df). split.
  - rewrite (run_in_order_fair lib fuel w completion listing df Hfair).
    rewrite run_fast_pipeline_eq, Hres. reflexivity.
  - intros i f Hin.
    destruct (run_tasks_In lib fuel w _ results i f Hres Hin) as (v & Hv & Hinv).
    pose proof Hin as Hin'. apply tasks_from_In in Hin' as (j & r & Hj & Hr & _).
    simpl in Hj. subst j. exists v, r. conjuncts; auto.
    rewrite merge_all_nth, Hr. simpl. f_equal. f_equal.
    apply cell_after_present; [|exact Hinv].
    rewrite (run_tasks_indices lib fuel w _ _ Hres). apply tasks_from_NoDup.
Qed.

End Verdicts.

(** C9: whatever is raised inside a task (by the copy, the upload, a poll,
    the classification call, or while the answer is read) comes back as
    the verdict [Error] with the text of the exception; the task returns
    its verdict as soon as the file leaves PROCESSING, after as many polls
    as the service took, however many; and a run whose tasks return stores
    all their verdicts, failures included. *)
Theorem task_failures_become_error_verdicts :
  forall (lib : library),
    (forall s fuel i fname e,
        copy2 s = inl e ->
        analyze_single_paper lib fuel s i fname = (Some (i, error e), []))
    /\ (forall s fuel n x u i fname,
          copy2 s = inr u -> settles s n x -> n <= fuel ->
          exists v more,
            analyze_single_paper lib fuel s i fname
            = (Some (i, v), (EvUpload :: polls n ++ more)%list)
            /\ no_poll more
            /\ (forall e, x = inl e -> v = error e)
            /\ (x = inr None -> v = error (no_attribute "NoneType" "name"))
            /\ (x = inr (Some FAILED) -> v = error "File processing failed")
            /\ (forall st, x = inr (Some st) -> st <> FAILED ->
                  (forall e, generate_content s = inl e -> v = error e)
                  /\ (generate_content s = inr None ->
                      v = error (no_attribute "NoneType" "replace"))
                  /\ (forall text, generate_content s = inr (Some text) ->
                        (forall e, json_loads lib (strip_fences text) = inl e ->
                           v = error e)
                        /\ (forall other,
                              json_loads lib (strip_fences text) = inr other ->
                              (forall data, other <> JDict data) ->
                              v = error (no_attribute (type_name other) "get"))
                        /\ (forall data,
                              json_loads lib (strip_fences text) = inr (JDict data) ->
                              v = (dict_get "methodology" data (PyStr "Unknown"),
                                   dict_get "reason" data (PyStr ""))))))
    /\ (forall completion fuel w listing df,
          fair completion ->
          (forall i f, In (i, f) (build_tasks lib (pdfs_of listing) df) ->
             fst (analyze_single_paper lib fuel (w i f) i f) <> None) ->
          exists df',
            run_in_order completion lib fuel w listing df = Some df'
            /\ forall i f, In (i, f) (build_tasks lib (pdfs_of listing) df) ->
                 exists v r,
                   fst (analyze_single_paper lib fuel (w i f) i f) = Some (i, v)
                   /\ nth_error df i = Some r
                   /\ nth_error df' i = Some (with_method (Some (fst v)) r))
    /\ (forall n i fname,
          exists s,
            (forall fuel, fuel < n ->
               fst (analyze_single_paper lib fuel s i fname) = None)
            /\ (forall fuel, n <= fuel ->
                  exists v more,
                    analyze_single_paper lib fuel s i fname
                    = (Some (i, v), (EvUpload :: polls n ++ more)%list)
                    /\ no_poll more)).
Proof.
  intros lib. conjuncts.
  - intros s fuel i fname e. apply copy_failure.
  - intros s fuel n x u i fname. apply settled_task_returns.
  - intros completion fuel w listing df. apply every_verdict_stored.
  - intros n i fname. exists (Fixtures.slow_session n ""). split.
    + intros fuel Hfuel. apply (starved_task lib _ fuel tt); [reflexivity|].
      intros k Hk. apply slow_session_processing. lia.
    + intros fuel Hfuel.
      destruct (settled_task_returns lib (Fixtures.slow_session n "") fuel n
                  (inr (Some ACTIVE)) tt i fname eq_refl
                  (slow_session_settles n "") Hfuel) as (v & more & H & Hmore & _).
      exists v, more. auto.
Qed.

Lemma refused_upload_settles :
  settles Fixtures.refused_session 0 (inl "403 PERMISSION_DENIED").
Proof.
  unfold settles. conjuncts.
  - intros k Hk. lia.
  - reflexivity.
  - discriminate.
Defined.

Lemma task_failures_witness :
  exists v more,
    analyze_single_paper Fixtures.lib 1 Fixtures.refused_session 0
      "smith_j_2020_deep_learning.pdf"
    = (Some (0, v), (EvUpload :: polls 0 ++ more)%list)
    /\ v = error "403 PERMISSION_DENIED".
Proof.
  destruct (proj1 (proj2 (task_failures_become_error_verdicts Fixtures.lib))
              Fixtures.refused_session 1 0 (inl "403 PERMISSION_DENIED") tt 0
              "smith_j_2020_deep_learning.pdf" eq_refl refused_upload_settles
              (le_S 0 0 (le_n 0)))
    as (v & more & H & _ & He & _).
  exists v, more. split; [exact H|]. apply He. reflexivity.
Defined.

End TaskFacts.

(* ================================================================== *)
(** * The Batch Classifier: retries, failures, merge *)
(* ================================================================== *)

Module BatchFacts.
Import Py Step2 Step2Notions.

Lemma load_from_nth rows : forall k j,
  nth_error (load_from k rows) j = option_map (loaded (k + j)) (nth_error rows j).
Proof.
  induction rows as [|e rows IH]; intros k j; destruct j; simpl; try reflexivity.
  - now rewrite Nat.add_0_r.
  - rewrite IH. now rewrite Nat.add_succ_r.
Qed.

Lemma load_nth rows j :
  nth_error (load rows) j = option_map (loaded j) (nth_error rows j).
Proof. apply load_from_nth. Qed.

Lemma load_In rows p :
  In p (load rows) -> exists j e, nth_error rows j = Some e /\ p = loaded j e.
Proof.
  intros Hin. apply In_nth_error in Hin as [j Hj]. rewrite load_nth in Hj.
  destruct (nth_error rows j) as [e|] eqn:E; [|discriminate].
  injection Hj as <-. eauto.
Qed.

Lemma load_from_source rows : forall k, map source (load_from k rows) = rows.
Proof.
  induction rows as [|e rows IH]; intros k; simpl; [reflexivity|].
  now rewrite IH.
Qed.

Lemma load_from_ids rows : forall k,
  map Temp_ID (load_from k rows) = map Z.of_nat (seq k (List.length rows)).
Proof.
  induction rows as [|e rows IH]; intros k; simpl; [reflexivity|].
  now rewrite IH.
Qed.

Lemma pre_flight_source p q :
  source p = source q -> pre_flight_check p = pre_flight_check q.
Proof.
  intros H. unfold pre_flight_check, Abstract, DOI. now rewrite H.
Qed.

Lemma auto_reject_source p : source (auto_reject p) = source p.
Proof. unfold auto_reject. now destruct (pre_flight_check p) as [[|] reason]. Qed.

Lemma auto_reject_id p : Temp_ID (auto_reject p) = Temp_ID p.
Proof. unfold auto_reject. now destruct (pre_flight_check p) as [[|] reason]. Qed.

Lemma auto_reject_valid p :
  fst (pre_flight_check p) = true -> auto_reject p = p.
Proof.
  unfold auto_reject. destruct (pre_flight_check p) as [[|] reason]; simpl;
    [reflexivity|discriminate].
Qed.

Lemma auto_reject_invalid p :
  fst (pre_flight_check p) = false ->
  auto_reject p
  = {| source := source p; Temp_ID := Temp_ID p; Included := PyBool false;
       Rejection_Reason := PyStr ("Auto-Reject: " ++ snd (pre_flight_check p)) |}.
Proof.
  unfold auto_reject. destruct (pre_flight_check p) as [[|] reason]; simpl;
    [discriminate|reflexivity].
Qed.

Lemma auto_reject_excluded p :
  Included p = PyBool false -> Included (auto_reject p) = PyBool false.
Proof.
  unfold auto_reject. now destruct (pre_flight_check p) as [[|] reason].
Qed.

Lemma phase1_excluded rows p :
  In p (phase1 (load rows)) -> Included p = PyBool false.
Proof.
  unfold phase1. intros Hin. apply in_map_iff in Hin as (q & <- & Hq).
  apply auto_reject_excluded. apply load_In in Hq as (j & e & _ & ->).
  reflexivity.
Qed.

Lemma phase1_valid_unresolved rows p :
  In p (phase1 (load rows)) -> fst (pre_flight_check p) = true -> unresolved p.
Proof.
  unfold phase1. intros Hin Hv. apply in_map_iff in Hin as (q & <- & Hq).
  rewrite (pre_flight_source _ q (auto_reject_source q)) in Hv.
  rewrite (auto_reject_valid q Hv).
  apply load_In in Hq as (j & e & _ & ->). split; reflexivity.
Qed.

Lemma filtered_none df :
  (forall p, In p df -> Included p = PyBool false) -> filtered_df df = [].
Proof.
  induction df as [|p df IH]; intros H; simpl; [reflexivity|].
  rewrite (H p (or_introl eq_refl)). simpl. apply IH.
  intros q Hq. apply H. now right.
Qed.

Lemma phase3_nothing df : phase3 [] df = df.
Proof. unfold phase3. induction df as [|p df IH]; simpl; [|rewrite IH]; reflexivity. Qed.

Section Busy.
Variable svc : service.
Hypothesis always_rate_limited :
  forall n prompt, exists msg,
    generate_content svc n prompt = inl msg /\ rate_limited msg = true.

Lemma attempts_busy k : forall prompt st,
  attempts k svc prompt st
  = (JList [], {| calls := calls st + k;
                  log := (log st ++ retries k prompt)%list |}).
Proof.
  induction k as [|k IH]; intros prompt st; simpl.
  - unfold retries. simpl. rewrite Nat.add_0_r, app_nil_r. now destruct st.
  - unfold ask. destruct (always_rate_limited (calls st) prompt) as (msg & -> & ->).
    rewrite IH. simpl. f_equal. f_equal; [lia|].
    unfold retries. simpl. now rewrite <- !app_assoc.
Qed.

Lemma phase2_busy bs : forall m st,
  phase2 svc bs m st
  = (inr m, {| calls := calls st + 3 * List.length bs;
               log := (log st ++ busy_log bs)%list |}).
Proof.
  induction bs as [|b bs IH]; intros m st; simpl.
  - rewrite Nat.add_0_r, app_nil_r. now destruct st.
  - unfold screen_batch. rewrite attempts_busy. simpl. rewrite IH. simpl.
    f_equal. f_equal; [lia|]. now rewrite <- !app_assoc.
Qed.

Lemma script_busy rows :
  script svc rows
  = (inr {| final_df := phase1 (load rows); saved := [] |},
     {| calls := 3 * List.length (batches (valid_papers_for_ai (load rows)));
        log := busy_log (batches (valid_papers_for_ai (load rows))) |}).
Proof.
  unfold script.
  rewrite (filtered_none (phase1 (load rows)) (phase1_excluded rows)).
  destruct (valid_papers_for_ai (load rows)) as [|p valid] eqn:Ev.
  - reflexivity.
  - rewrite phase2_busy. simpl calls. simpl log. rewrite phase3_nothing.
    rewrite (filtered_none (phase1 (load rows)) (phase1_excluded rows)).
    reflexivity.
Qed.

End Busy.

(** C4: when every call of the service is answered by a rate-limit error,
    [screen_batch] makes exactly three calls with the same prompt, sleeps
    10 seconds after each failure, and returns the empty list; the script
    sends every batch in this way, three calls per batch and the pause of
    one second after it, and then ends normally with every paper that
    went to the service still unresolved, and writes no row. *)
Theorem rate_limited_batch_is_abandoned :
  forall (svc : service),
    (forall n prompt, exists msg,
        generate_content svc n prompt = inl msg /\ rate_limited msg = true) ->
    (forall papers_batch st,
        screen_batch svc papers_batch st
        = (JList [],
           {| calls := calls st + 3;
              log := (log st ++ [Call (full_prompt papers_batch); Sleep 10;
                                 Call (full_prompt papers_batch); Sleep 10;
                                 Call (full_prompt papers_batch); Sleep 10])%list |}))
    /\ (forall rows,
          script svc rows
          = (inr {| final_df := phase1 (load rows); saved := [] |},
             {| calls := 3 * List.length (batches (valid_papers_for_ai (load rows)));
                log := flat_map
                         (fun b => [Call (full_prompt b); Sleep 10;
                                    Call (full_prompt b); Sleep 10;
                                    Call (full_prompt b); Sleep 10; Sleep 1])
                         (batches (valid_papers_for_ai (load rows))) |})
          /\ forall p, In p (phase1 (load rows)) ->
               fst (pre_flight_check p) = true -> unresolved p).
Proof.
  intros svc Hbusy. split.
  - intros papers_batch st. unfold screen_batch.
    now rewrite (attempts_busy svc Hbusy).
  - intros rows. split; [apply (script_busy svc Hbusy)|].
    apply phase1_valid_unresolved.
Qed.

Lemma busy_is_rate_limited :
  forall n prompt, exists msg,
    generate_content Fixtures.busy n prompt = inl msg /\ rate_limited msg = true.
Proof. intros n prompt. eexists. split; reflexivity. Defined.

Lemma rate_limited_witness :
  script Fixtures.busy Fixtures.mixed_entries
  = (inr {| final_df := phase1 (load Fixtures.mixed_entries); saved := [] |},
     {| calls := 3;
        log := [Call (full_prompt [mini_of (loaded 1 (Fixtures.entry_of "Graphs II"
                                                        Fixtures.long_abstract))]);
                Sleep 10;
                Call (full_prompt [mini_of (loaded 1 (Fixtures.entry_of "Graphs II"
                                                        Fixtures.long_abstract))]);
                Sleep 10;
                Call (full_prompt [mini_of (loaded 1 (Fixtures.entry_of "Graphs II"
                                                        Fixtures.long_abstract))]);
                Sleep 10; Sleep 1] |})
  /\ forall p, In p (phase1 (load Fixtures.mixed_entries)) ->
       fst (pre_flight_check p) = true -> unresolved p.
Proof.
  exact (proj2 (rate_limited_batch_is_abandoned Fixtures.busy busy_is_rate_limited)
           Fixtures.mixed_entries).
Defined.

(** ** Failures that are not rate limits *)

(** A failure whose text does not read as a rate limit ends the attempts
    after one call, with no delay and no decision. *)
Lemma other_failure_gives_up svc prompt st msg k :
  ask svc prompt st = inl msg -> rate_limited msg = false ->
  attempts (S k) svc prompt st = (JList [], called prompt st).
Proof. intros Hask Hmsg. simpl. now rewrite Hask, Hmsg. Qed.

(** C5, evaluated where the code departs from it. An answer that is JSON
    but not a list of objects (here an object) is returned by
    [screen_batch] as it is, and the loop over the decisions then raises
    outside any [try]: the script ends with that exception, nothing is
    written and no later batch is sent. And an answer that is not JSON,
    whose parse error mentions offset 429, reads as a rate limit: the
    batch is sent three times, 10 seconds apart. *)
Theorem malformed_answer_not_contained :
  fst (script (Fixtures.answering Fixtures.answer_object) Fixtures.three_entries)
  = inl "'str' object has no attribute 'get'"
  /\ json_loads (Fixtures.answering Fixtures.answer_garbled)
       (strip_fences Fixtures.answer_garbled)
     = inl "Expecting value: line 1 column 430 (char 429)"
  /\ screen_batch (Fixtures.answering Fixtures.answer_garbled)
       (map mini_of (load Fixtures.three_entries)) Fixtures.start
     = (JList [],
        {| calls := 3;
           log := retries 3 (full_prompt (map mini_of (load Fixtures.three_entries))) |}).
Proof. conjuncts; vm_compute; reflexivity. Qed.

(** ** The merge *)

Lemma record_items_lookup key items : forall m0 m,
  record_items items m0 = inr m ->
  lookup key m = match answer_for key items with
                 | Some d => Some d
                 | None => lookup key m0
                 end.
Proof.
  induction items as [|item items IH]; intros m0 m; simpl.
  - now intros [= <-].
  - destruct item as [v|l|d]; try discriminate.
    intros H. rewrite (IH _ _ H). unfold names.
    destruct (answer_for key items); [reflexivity|]. simpl.
    now destruct (py_eq (dict_get "ID" d PyNone) key).
Qed.

Lemma record_items_dicts items : forall m0,
  (forall item, In item items -> exists d, item = JDict d) ->
  exists m, record_items items m0 = inr m.
Proof.
  induction items as [|item items IH]; intros m0 H; simpl; [eauto|].
  destruct (H item (or_introl eq_refl)) as [d ->].
  apply IH. intros item' Hin. apply H. now right.
Qed.

Lemma answer_for_absent key items :
  (forall d, In (JDict d) items -> names key d = false) ->
  answer_for key items = None.
Proof.
  induction items as [|item items IH]; intros H; simpl; [reflexivity|].
  rewrite IH by (intros d Hd; apply H; now right).
  destruct item as [v|l|d]; try reflexivity.
  now rewrite (H d (or_introl eq_refl)).
Qed.

Lemma answer_for_last key front d back :
  names key d = true ->
  (forall d', In (JDict d') back -> names key d' = false) ->
  answer_for key (front ++ JDict d :: back) = Some d.
Proof.
  intros Hd Hback. induction front as [|item front IH]; simpl.
  - now rewrite (answer_for_absent key back Hback), Hd.
  - now rewrite IH.
Qed.

Lemma phase1_nth rows i :
  nth_error (phase1 (load rows)) i
  = option_map (fun e => auto_reject (loaded i e)) (nth_error rows i).
Proof.
  unfold phase1. rewrite nth_error_map, load_nth.
  now destruct (nth_error rows i).
Qed.

Lemma record_items_app items more : forall m0,
  record_items (items ++ more) m0
  = match record_items items m0 with
    | inl e => inl e
    | inr m1 => record_items more m1
    end.
Proof.
  induction items as [|item items IH]; intros m0; simpl; [reflexivity|].
  destruct item as [v|l|d]; try reflexivity. apply IH.
Qed.

Lemma record_decisions_items batch_decisions m0 m1 :
  record_decisions batch_decisions m0 = inr m1 ->
  record_items (decisions_of batch_decisions) m0 = inr m1.
Proof.
  destruct batch_decisions as [v|items|fields]; simpl.
  - destruct v as [| | | |t]; try discriminate.
    destruct (t =? ""); [auto|discriminate].
  - auto.
  - destruct fields; [auto|discriminate].
Qed.

Lemma phase2_gathered svc bs : forall m0 st m st',
  phase2 svc bs m0 st = (inr m, st') ->
  record_items (gathered svc bs st) m0 = inr m.
Proof.
  induction bs as [|b bs IH]; intros m0 st m st'; simpl.
  - now intros [= <- _].
  - destruct (screen_batch svc b st) as [batch_decisions st1].
    destruct (record_decisions batch_decisions m0) as [e|m1] eqn:Er;
      [discriminate|].
    intros H. rewrite record_items_app.
    rewrite (record_decisions_items _ _ _ Er). eapply IH; eauto.
Qed.

(** The table at the end of a run that ends normally: the rows of phase 1
    merged with the decisions gathered. *)
Lemma script_gathered svc rows out st :
  script svc rows = (inr out, st) ->
  exists m,
    record_items (gathered svc (batches (valid_papers_for_ai (load rows)))
                    {| calls := 0; log := [] |}) [] = inr m
    /\ final_df out = phase3 m (phase1 (load rows)).
Proof.
  unfold script.
  destruct (valid_papers_for_ai (load rows)) as [|p valid] eqn:Ev.
  - intros [= <- _]. exists []. split; [reflexivity|].
    cbn [final_df]. now rewrite phase3_nothing.
  - destruct (phase2 svc _ [] _) as [[e|m] st'] eqn:E2; [discriminate|].
    intros [= <- _]. exists m. split; [|reflexivity].
    eapply phase2_gathered; eauto.
Qed.

(** The row of index [i] at the end of such a run. *)
Lemma merged_row svc rows out st i e :
  script svc rows = (inr out, st) ->
  nth_error rows i = Some e ->
  nth_error (final_df out) i
  = Some match answer_for (PyInt (Z.of_nat i))
                 (gathered svc (batches (valid_papers_for_ai (load rows)))
                    {| calls := 0; log := [] |}) with
         | Some d =>
             {| source := e; Temp_ID := Z.of_nat i;
                Included := dict_get "Included" d (PyBool false);
                Rejection_Reason := dict_get "Reason" d (PyStr "Unknown") |}
         | None => auto_reject (loaded i e)
         end.
Proof.
  intros Hscript Hnth.
  destruct (script_gathered svc rows out st Hscript) as (m & Hm & ->).
  unfold phase3. rewrite nth_error_map, phase1_nth, Hnth. cbn [option_map].
  unfold merge_row. rewrite auto_reject_id, auto_reject_source.
  cbn [Temp_ID loaded source].
  rewrite (record_items_lookup (PyInt (Z.of_nat i)) _ [] m Hm).
  now destruct (answer_for _ _).
Qed.

Lemma phase2_answered svc bs :
  answered svc ->
  forall m0 st, exists m st', phase2 svc bs m0 st = (inr m, st').
Proof.
  intros Hsvc. induction bs as [|b bs IH]; intros m0 st; simpl; [eauto|].
  unfold screen_batch. cbn [attempts].
  destruct (Hsvc (full_prompt b) st) as (items & -> & Hdicts).
  cbn [record_decisions].
  destruct (record_items_dicts items m0 Hdicts) as [m1 ->].
  apply IH.
Qed.

Lemma script_answered svc rows :
  answered svc -> exists out st, script svc rows = (inr out, st).
Proof.
  intros Hsvc. unfold script.
  destruct (valid_papers_for_ai (load rows)) as [|p valid]; [eauto|].
  destruct (phase2_answered svc (batches (p :: valid)) Hsvc []
              {| calls := 0; log := [] |}) as (m & st' & ->).
  eauto.
Qed.

(** C6: when every call is answered by a list of decisions, the run ends
    normally and each row is merged by its identifier, whatever the place
    of the decision in the answers: a row whose identifier no decision
    carries stays as phase 1 left it (so unresolved, when it went to the
    service), and a row whose identifier a decision carries takes
    [Included] and [Reason] from the last such decision. *)
Theorem partial_response_merges_by_identifier :
  forall (svc : service) (rows : list entry),
    answered svc ->
    exists out st,
      script svc rows = (inr out, st)
      /\ forall i e, nth_error rows i = Some e ->
           let items := gathered svc (batches (valid_papers_for_ai (load rows)))
                          {| calls := 0; log := [] |} in
           ((forall d, In (JDict d) items ->
               py_eq (dict_get "ID" d PyNone) (PyInt (Z.of_nat i)) = false) ->
            nth_error (final_df out) i = Some (auto_reject (loaded i e))
            /\ (fst (pre_flight_check (loaded i e)) = true ->
                auto_reject (loaded i e) = loaded i e
                /\ unresolved (loaded i e)))
           /\ (forall front d back,
                 items = (front ++ JDict d :: back)%list ->
                 py_eq (dict_get "ID" d PyNone) (PyInt (Z.of_nat i)) = true ->
                 (forall d', In (JDict d') back ->
                    py_eq (dict_get "ID" d' PyNone) (PyInt (Z.of_nat i)) = false) ->
                 nth_error (final_df out) i
                 = Some {| source := e; Temp_ID := Z.of_nat i;
                           Included := dict_get "Included" d (PyBool false);
                           Rejection_Reason := dict_get "Reason" d (PyStr "Unknown") |}).
Proof.
  intros svc rows Hsvc.
  destruct (script_answered svc rows Hsvc) as (out & st & Hscript).
  exists out, st. split; [exact Hscript|].
  intros i e Hnth items. rewrite (merged_row svc rows out st i e Hscript Hnth).
  fold items. split.
  - intros Habsent. rewrite (answer_for_absent _ items Habsent).
    split; [reflexivity|]. intros Hv. split; [now apply auto_reject_valid|].
    split; reflexivity.
  - intros front d back Hitems Hd Hback. rewrite Hitems.
    now rewrite (answer_for_last _ front d back Hd Hback).
Qed.

Lemma partial_answer_answered : answered (Fixtures.answering Fixtures.answer_partial).
Proof.
  intros prompt st. exists Fixtures.partial_decisions. split.
  - reflexivity.
  - intros item [<-|[<-|[]]]; eexists; reflexivity.
Defined.

Lemma partial_response_witness :
  exists out st,
    script (Fixtures.answering Fixtures.answer_partial) Fixtures.three_entries
    = (inr out, st)
    /\ nth_error (final_df out) 1
       = Some (loaded 1 (Fixtures.entry_of "Graphs II" Fixtures.long_abstract))
    /\ nth_error (final_df out) 0
       = Some {| source := Fixtures.entry_of "Graphs I" Fixtures.long_abstract;
                 Temp_ID := 0; Included := PyBool false;
                 Rejection_Reason := PyStr "off topic" |}.
Proof.
  destruct (partial_response_merges_by_identifier
              (Fixtures.answering Fixtures.answer_partial) Fixtures.three_entries
              partial_answer_answered)
    as (out & st & Hscript & Hrows).
  exists out, st. conjuncts.
  - exact Hscript.
  - apply (proj1 (Hrows 1 _ eq_refl)).
    intros d [[= <-]|[[= <-]|[]]]; reflexivity.
  - apply (proj2 (Hrows 0 _ eq_refl)
             [JDict [("ID", PyInt 2); ("Included", PyBool true);
                     ("Reason", PyStr "on topic")]]
             [("ID", PyInt 0); ("Included", PyBool false);
              ("Reason", PyStr "off topic")] []).
    + reflexivity.
    + reflexivity.
    + intros d' [].
Defined.

(** ** The pre-flight check *)

Lemma pre_flight_fails_iff p :
  fst (pre_flight_check p) = false <->
  (String.length (py_str (Abstract p)) < MIN_ABSTRACT_LENGTH
   \/ exists phrase, In phrase bad_phrases
                     /\ contains phrase (lower (py_str (Abstract p))) = true).
Proof.
  unfold pre_flight_check.
  destruct (String.length (py_str (Abstract p)) <? MIN_ABSTRACT_LENGTH)%nat eqn:El.
  - apply Nat.ltb_lt in El. cbn [fst]. split; auto.
  - apply Nat.ltb_ge in El.
    destruct (existsb (fun phrase => contains phrase (lower (py_str (Abstract p))))
                bad_phrases) eqn:Eb; cbn [fst].
    + apply existsb_exists in Eb. split; auto.
    + split; [discriminate|]. intros [Hl|(phrase & Hin & Hc)]; [lia|].
      assert (Ht : existsb (fun phrase => contains phrase (lower (py_str (Abstract p))))
                     bad_phrases = true) by (apply existsb_exists; eauto).
      congruence.
Qed.

Lemma pre_flight_reason p :
  fst (pre_flight_check p) = false ->
  snd (pre_flight_check p) = "Abstract too short"
  \/ snd (pre_flight_check p) = "Placeholder text".
Proof.
  unfold pre_flight_check.
  destruct (String.length (py_str (Abstract p)) <? MIN_ABSTRACT_LENGTH)%nat; auto.
  destruct (existsb _ bad_phrases); auto. discriminate.
Qed.

Lemma chunks_upto_In fuel : forall papers c p,
  In c (chunks_upto fuel papers) -> In p c -> In p papers.
Proof.
  induction fuel as [|fuel IH]; intros papers c p Hc Hp.
  - destruct papers; contradiction.
  - destruct papers as [|q papers]; [contradiction|].
    change (In c (firstn BATCH_SIZE (q :: papers)
                  :: chunks_upto fuel (skipn BATCH_SIZE (q :: papers)))) in Hc.
    rewrite <- (firstn_skipn BATCH_SIZE (q :: papers)). apply in_or_app.
    destruct Hc as [<-|Hc]; [now left|right]. eapply IH; eauto.
Qed.

Lemma batches_In valid b m :
  In b (batches valid) -> In m b -> exists p, In p valid /\ m = mini_of p.
Proof.
  unfold batches. intros Hb Hm. apply in_map_iff in Hb as (c & <- & Hc).
  apply in_map_iff in Hm as (p & <- & Hp). exists p. split; [|reflexivity].
  eapply chunks_upto_In; eauto.
Qed.

Lemma attempts_calls svc prompt q k : forall st,
  In (Call q) (log (snd (attempts k svc prompt st))) ->
  In (Call q) (log st) \/ q = prompt.
Proof.
  induction k as [|k IH]; intros st; simpl; [auto|].
  assert (Hcalled : In (Call q) (log (called prompt st)) ->
                    In (Call q) (log st) \/ q = prompt).
  { simpl. intros H. apply in_app_or in H as [H|[[= ->]|[]]]; auto. }
  destruct (ask svc prompt st) as [msg|decisions]; [|exact Hcalled].
  destruct (rate_limited msg); [|exact Hcalled].
  intros H. apply IH in H as [H|H]; [|auto]. apply Hcalled. simpl in *.
  apply in_app_or in H as [H|[H|[]]]; [exact H|discriminate H].
Qed.

Lemma phase2_calls svc q bs : forall m st,
  In (Call q) (log (snd (phase2 svc bs m st))) ->
  In (Call q) (log st) \/ exists b, In b bs /\ q = full_prompt b.
Proof.
  induction bs as [|b bs IH]; intros m st; simpl; [auto|].
  unfold screen_batch.
  pose proof (attempts_calls svc (full_prompt b) q 3 st) as Hb.
  destruct (attempts 3 svc (full_prompt b) st) as [decisions st1].
  simpl in Hb.
  assert (Hst1 : In (Call q) (log st1) ->
                 In (Call q) (log st) \/ exists b', In b' (b :: bs) /\ q = full_prompt b').
  { intros H. apply Hb in H as [H | ->]; [auto|]. right. exists b. split; [now left|reflexivity]. }
  destruct (record_decisions decisions m) as [e|m1]; [exact Hst1|].
  intros H. apply IH in H as [H|(b' & Hb' & ->)].
  - apply Hst1. simpl in H. apply in_app_or in H as [H|[H|[]]]; [exact H|discriminate H].
  - right. exists b'. split; [now right|reflexivity].
Qed.

Lemma script_calls svc rows q :
  In (Call q) (log (snd (script svc rows))) ->
  exists b, In b (batches (valid_papers_for_ai (load rows))) /\ q = full_prompt b.
Proof.
  unfold script.
  destruct (valid_papers_for_ai (load rows)) as [|p valid] eqn:Ev; [intros []|].
  pose proof (phase2_calls svc q (batches (p :: valid)) [] {| calls := 0; log := [] |}) as H.
  destruct (phase2 svc (batches (p :: valid)) [] {| calls := 0; log := [] |})
    as [[e|m] st]; simpl in *; intros Hq; destruct (H Hq) as [[]|Hb]; exact Hb.
Qed.

(** C7, as the claim states it, fails: the merge of phase 3 runs over
    all the rows, also those the pre-flight check rejected. Row 0 fails
    the check and is in no batch; the one prompt sent holds paper 1 only;
    the answer carries the identifier 0, and the row ends the run
    included, with the reason of the answer, and is written. *)
Lemma auto_rejected_row_overridden :
  fst (pre_flight_check
         (loaded 0 (Fixtures.entry_of "Too short" "No abstract available"))) = false
  /\ nth_error (phase1 (load Fixtures.mixed_entries)) 0
     = Some {| source := Fixtures.entry_of "Too short" "No abstract available";
               Temp_ID := 0; Included := PyBool false;
               Rejection_Reason := PyStr "Auto-Reject: Abstract too short" |}
  /\ batches (valid_papers_for_ai (load Fixtures.mixed_entries))
     = [[mini_of (loaded 1 (Fixtures.entry_of "Graphs II" Fixtures.long_abstract))]]
  /\ script Fixtures.straying Fixtures.mixed_entries
     = (inr {| final_df :=
                 [{| source := Fixtures.entry_of "Too short" "No abstract available";
                     Temp_ID := 0; Included := PyBool true;
                     Rejection_Reason := PyStr "looks relevant" |};
                  loaded 1 (Fixtures.entry_of "Graphs II" Fixtures.long_abstract)];
               saved :=
                 [{| source := Fixtures.entry_of "Too short" "No abstract available";
                     Temp_ID := 0; Included := PyBool true;
                     Rejection_Reason := PyStr "looks relevant" |}] |},
        {| calls := 1;
           log := [Call (full_prompt
                           [mini_of (loaded 1 (Fixtures.entry_of "Graphs II"
                                                 Fixtures.long_abstract))]);
                   Sleep 1] |}).
Proof. conjuncts; vm_compute; reflexivity. Qed.

(** C7 (amended): a row that fails the pre-flight check (its abstract is
    shorter than 50 characters or holds a placeholder phrase) gets the
    reason [Auto-Reject: ...] in phase 1 without any call; it is in no
    batch, and every prompt the service receives is the prompt of one of
    those batches; the row ends the run with that reason when no
    decision that came back carries its identifier. *)
Theorem pre_flight_rejects_never_sent :
  forall (svc : service) (rows : list entry) (i : nat) (e : entry),
    nth_error rows i = Some e ->
    fst (pre_flight_check (loaded i e)) = false ->
    (String.length (py_str (e_Abstract e)) < MIN_ABSTRACT_LENGTH
     \/ exists phrase, In phrase bad_phrases
                       /\ contains phrase (lower (py_str (e_Abstract e))) = true)
    /\ (snd (pre_flight_check (loaded i e)) = "Abstract too short"
        \/ snd (pre_flight_check (loaded i e)) = "Placeholder text")
    /\ nth_error (phase1 (load rows)) i
       = Some {| source := e; Temp_ID := Z.of_nat i; Included := PyBool false;
                 Rejection_Reason :=
                   PyStr ("Auto-Reject: " ++ snd (pre_flight_check (loaded i e))) |}
    /\ (forall b m, In b (batches (valid_papers_for_ai (load rows))) ->
                    In m b -> ID m <> Z.of_nat i)
    /\ (forall prompt, In (Call prompt) (log (snd (script svc rows))) ->
          exists b, In b (batches (valid_papers_for_ai (load rows)))
                    /\ prompt = full_prompt b)
    /\ (forall out st,
          script svc rows = (inr out, st) ->
          (forall d,
              In (JDict d) (gathered svc (batches (valid_papers_for_ai (load rows)))
                              {| calls := 0; log := [] |}) ->
              py_eq (dict_get "ID" d PyNone) (PyInt (Z.of_nat i)) = false) ->
          nth_error (final_df out) i
          = Some {| source := e; Temp_ID := Z.of_nat i; Included := PyBool false;
                    Rejection_Reason :=
                      PyStr ("Auto-Reject: " ++ snd (pre_flight_check (loaded i e))) |}).
Proof.
  intros svc rows i e Hnth Hfail. conjuncts.
  - now apply (pre_flight_fails_iff (loaded i e)).
  - now apply pre_flight_reason.
  - rewrite phase1_nth, Hnth. cbn [option_map].
    now rewrite (auto_reject_invalid _ Hfail).
  - intros b m Hb Hm Hid.
    destruct (batches_In _ b m Hb Hm) as (p & Hp & ->).
    unfold valid_papers_for_ai in Hp. apply filter_In in Hp as [Hp Hvalid].
    apply load_In in Hp as (j & e' & Hj & ->). cbn in Hid.
    apply Nat2Z.inj in Hid. subst j. rewrite Hnth in Hj. injection Hj as <-.
    congruence.
  - intros prompt. apply script_calls.
  - intros out st Hscript Habsent.
    rewrite (merged_row svc rows out st i e Hscript Hnth).
    rewrite (answer_for_absent _ _ Habsent).
    now rewrite (auto_reject_invalid _ Hfail).
Qed.

Lemma pre_flight_witness :
  nth_error (phase1 (load Fixtures.mixed_entries)) 0
  = Some {| source := Fixtures.entry_of "Too short" "No abstract available";
            Temp_ID := 0; Included := PyBool false;
            Rejection_Reason := PyStr "Auto-Reject: Abstract too short" |}
  /\ (forall b m, In b (batches (valid_papers_for_ai (load Fixtures.mixed_entries))) ->
                  In m b -> ID m <> 0%Z)
  /\ exists out st,
       script Fixtures.broken Fixtures.mixed_entries = (inr out, st)
       /\ nth_error (final_df out) 0
          = Some {| source := Fixtures.entry_of "Too short" "No abstract available";
                    Temp_ID := 0; Included := PyBool false;
                    Rejection_Reason := PyStr "Auto-Reject: Abstract too short" |}.
Proof.
  pose proof (pre_flight_rejects_never_sent Fixtures.broken Fixtures.mixed_entries 0
                (Fixtures.entry_of "Too short" "No abstract available")
                eq_refl eq_refl) as (_ & _ & Hrow & Hbatches & _ & Hfinal).
  conjuncts; [exact Hrow|exact Hbatches|].
  destruct (script Fixtures.broken Fixtures.mixed_entries) as [[e|out] st] eqn:E;
    [vm_compute in E; discriminate E|].
  exists out, st. split; [reflexivity|].
  apply (Hfinal out st eq_refl). intros d Hd. vm_compute in Hd. destruct Hd.
Defined.

(** ** What the script writes *)

Lemma merge_row_source m p : source (merge_row m p) = source p.
Proof. unfold merge_row. now destruct (lookup _ m). Qed.

Lemma merge_row_id m p : Temp_ID (merge_row m p) = Temp_ID p.
Proof. unfold merge_row. now destruct (lookup _ m). Qed.

Lemma phases_source m rows : map source (phase3 m (phase1 (load rows))) = rows.
Proof.
  unfold phase3, phase1, load. rewrite !map_map.
  rewrite (map_ext _ source); [apply load_from_source|].
  intros p. now rewrite merge_row_source, auto_reject_source.
Qed.

Lemma phases_ids m rows :
  map Temp_ID (phase3 m (phase1 (load rows)))
  = map Z.of_nat (seq 0 (List.length rows)).
Proof.
  unfold phase3, phase1, load. rewrite !map_map.
  rewrite (map_ext _ Temp_ID); [apply load_from_ids|].
  intros p. now rewrite merge_row_id, auto_reject_id.
Qed.

Lemma script_rows svc rows out st :
  script svc rows = (inr out, st) ->
  map source (final_df out) = rows
  /\ map Temp_ID (final_df out) = map Z.of_nat (seq 0 (List.length rows))
  /\ saved out = filter (fun p => py_eq (Included p) (PyBool true)) (final_df out).
Proof.
  unfold script.
  destruct (valid_papers_for_ai (load rows)) as [|p valid].
  - intros [= <- _]. cbn [final_df saved].
    rewrite <- (phase3_nothing (phase1 (load rows))).
    conjuncts; [apply phases_source|apply phases_ids|reflexivity].
  - destruct (phase2 svc _ [] _) as [[e|m] st']; [discriminate|].
    intros [= <- _]. cbn [final_df saved].
    conjuncts; [apply phases_source|apply phases_ids|reflexivity].
Qed.

End BatchFacts.

(* ================================================================== *)
(** * The rows of the Record Store across a stage *)
(* ================================================================== *)

Module StoreFacts.
Import Py.

Lemma analyzer_keeps_rows lib completion fuel w listing df df' :
  Step5Notions.fair completion ->
  Step5.run_in_order completion lib fuel w listing df = Some df' ->
  List.length df' = List.length df
  /\ forall i r, nth_error df i = Some r ->
       exists cell, nth_error df' i = Some (Step5.with_method cell r).
Proof.
  intros Hfair Hrun.
  destruct (AnalyzerFacts.run_result lib listing completion fuel w df df' Hfair Hrun)
    as (results & _ & _ & ->).
  split.
  - rewrite TableFacts.merge_all_mapi. apply TableFacts.mapi_from_length.
  - intros i r Hnth. rewrite TableFacts.merge_all_nth, Hnth. simpl. eauto.
Qed.

(** C2, as the claim states it, fails for the Batch Classifier: of three
    rows read, the file it writes holds the one row the service included. *)
Lemma filter_stage_drops_rows :
  exists out,
    fst (Step2.script (Fixtures.answering Fixtures.answer_partial)
           Fixtures.three_entries) = inr out
    /\ map Step2.Temp_ID (Step2.saved out) = [2%Z]
    /\ map Step2.source (Step2.saved out) <> Fixtures.three_entries.
Proof.
  eexists. conjuncts.
  - vm_compute. reflexivity.
  - reflexivity.
  - vm_compute. discriminate.
Qed.

(** C2 (amended): the Concurrent Item Analyzer saves every row it loaded,
    in place, with at most the [Method] cell changed. The Batch Classifier
    keeps every row in its table, with the identifier the row's position
    gave it and its input cells unchanged, but the file it writes holds
    only the rows whose [Included] cell equals [True]. *)
Theorem stages_keep_rows_but_filter_saves :
  (forall lib completion fuel w listing df df',
      Step5Notions.fair completion ->
      Step5.run_in_order completion lib fuel w listing df = Some df' ->
      List.length df' = List.length df
      /\ forall i r, nth_error df i = Some r ->
           exists cell, nth_error df' i = Some (Step5.with_method cell r))
  /\ (forall svc rows out st,
        Step2.script svc rows = (inr out, st) ->
        map Step2.source (Step2.final_df out) = rows
        /\ map Step2.Temp_ID (Step2.final_df out)
           = map Z.of_nat (seq 0 (List.length rows))
        /\ Step2.saved out
           = filter (fun p => py_eq (Step2.Included p) (PyBool true))
               (Step2.final_df out)).
Proof.
  split.
  - apply analyzer_keeps_rows.
  - apply BatchFacts.script_rows.
Qed.

Lemma stages_witness :
  (List.length Fixtures.two_papers_after = List.length Fixtures.two_papers
   /\ forall i r, nth_error Fixtures.two_papers i = Some r ->
        exists cell,
          nth_error Fixtures.two_papers_after i = Some (Step5.with_method cell r))
  /\ (map Step2.source (Step2.phase1 (Step2.load Fixtures.mixed_entries))
      = Fixtures.mixed_entries
      /\ map Step2.Temp_ID (Step2.phase1 (Step2.load Fixtures.mixed_entries))
         = map Z.of_nat (seq 0 (List.length Fixtures.mixed_entries))
      /\ [] = filter (fun p => py_eq (Step2.Included p) (PyBool true))
                (Step2.phase1 (Step2.load Fixtures.mixed_entries))).
Proof.
  split.
  - apply (proj1 stages_keep_rows_but_filter_saves Fixtures.lib
             (fun results => results) 1 Fixtures.failing_world Fixtures.folder
             Fixtures.two_papers Fixtures.two_papers_after
             AnalyzerFacts.fair_identity eq_refl).
  - apply (proj2 stages_keep_rows_but_filter_saves Fixtures.broken
             Fixtures.mixed_entries
             {| Step2.final_df := Step2.phase1 (Step2.load Fixtures.mixed_entries);
                Step2.saved := [] |}
             {| Step2.calls := 1;
                Step2.log :=
                  [Step2.Call (Step2.full_prompt
                     (map Step2.mini_of
                        (Step2.valid_papers_for_ai (Step2.load Fixtures.mixed_entries))));
                   Step2.Sleep 1] |}).
    vm_compute. reflexivity.
Defined.

End StoreFacts.

(* ================================================================== *)
(** * Further properties of the Concurrent Item Analyzer *)
(* ================================================================== *)

Module AnalyzerMore.
Import Py Step5 Step5Notions TaskNotions TableFacts RunFacts MatcherFacts TaskFacts.

Lemma find_best_member lib citation files f score :
  find_best_local_match lib citation files = (Some f, score) -> In f files.
Proof.
  unfold find_best_local_match.
  destruct (fold_consider lib citation files None (-1)%Z)
    as [[-> _]|(front & g & back & -> & -> & _)].
  - discriminate.
  - intros [= <- _]. apply in_or_app. right. now left.
Qed.

Lemma tasks_from_sorted lib local_pdfs df : forall k,
  StronglySorted lt (map fst (tasks_from lib local_pdfs k df)).
Proof.
  induction df as [|r df IH]; intros k; simpl; [constructor|].
  destruct (task_of lib local_pdfs k r) as [t|] eqn:Et; [|apply IH].
  simpl. constructor; [apply IH|].
  rewrite (task_of_index _ _ _ _ _ Et). apply Forall_forall.
  intros i Hi. apply tasks_from_lower in Hi. lia.
Qed.

(** X1: the tasks a run submits come in row order, at most one per row;
    each is for a row of the table that is pending and not a separator,
    and names a file of the folder listing whose lower-cased name ends in
    [.pdf]. *)
Theorem tasks_well_formed :
  forall (lib : library) (listing : list string) (df : list row),
    StronglySorted lt (map fst (build_tasks lib (pdfs_of listing) df))
    /\ NoDup (map fst (build_tasks lib (pdfs_of listing) df))
    /\ forall i f, In (i, f) (build_tasks lib (pdfs_of listing) df) ->
         exists r, nth_error df i = Some r
                   /\ already_done r = false
                   /\ not_for_analysis r = false
                   /\ In f listing
                   /\ endswith ".pdf" (lower f) = true.
Proof.
  intros lib listing df. conjuncts.
  - apply tasks_from_sorted.
  - apply tasks_from_NoDup.
  - intros i f Hin. apply tasks_from_In in Hin as (j & r & Hj & Hr & Ht).
    simpl in Hj. subst j. exists r. split; [exact Hr|].
    unfold task_of in Ht.
    destruct (already_done r); [discriminate|].
    destruct (not_for_analysis r); [discriminate|].
    destruct (find_best_local_match lib (cell_text (Full_Citation r)) (pdfs_of listing))
      as [[g|] score] eqn:Eb; [|discriminate].
    destruct (85 <? score)%Z; [|discriminate].
    injection Ht as <-. apply find_best_member in Eb.
    unfold pdfs_of in Eb. apply filter_In in Eb as [Hl He]. auto.
Qed.

(** X2: the table a run saves does not depend on the order in which the
    pool hands the finished tasks back. *)
Theorem completion_order_irrelevant :
  forall (lib : library) fuel w (listing : list string) (df : list row)
         first second,
    fair first -> fair second ->
    run_in_order first lib fuel w listing df
    = run_in_order second lib fuel w listing df.
Proof.
  intros lib fuel w listing df first second Hfirst Hsecond.
  now rewrite !(run_in_order_fair lib fuel w _ listing df) by assumption.
Qed.

Lemma reverse_is_fair : fair (@rev (nat * verdict)).
Proof. intros results. apply Permutation_rev. Defined.

Lemma identity_is_fair : fair (fun results : list (nat * verdict) => results).
Proof. intros results. apply Permutation_refl. Defined.

Lemma completion_order_witness :
  run_in_order (@rev (nat * verdict)) Fixtures.lib 1 Fixtures.failing_world
    Fixtures.folder Fixtures.two_papers
  = run_in_order (fun results => results) Fixtures.lib 1 Fixtures.failing_world
      Fixtures.folder Fixtures.two_papers.
Proof.
  apply (completion_order_irrelevant Fixtures.lib 1 Fixtures.failing_world
           Fixtures.folder Fixtures.two_papers _ _ reverse_is_fair identity_is_fair).
Defined.

Lemma wait_log s : forall fuel k f log,
  exists n, n <= fuel
            /\ snd (wait_while_processing fuel s k f log) = (log ++ polls n)%list.
Proof.
  induction fuel as [|fuel IH]; intros k f log.
  - exists 0. split; [lia|]. unfold polls. simpl. rewrite app_nil_r.
    now destruct f as [[| | |]|].
  - destruct f as [[| | |]|]; simpl;
      try (exists 0; split; [lia|]; unfold polls; simpl; now rewrite app_nil_r).
    destruct (files_get s k) as [e|f'].
    + exists 1. split; [lia|]. reflexivity.
    + destruct (IH (S k) f' (log ++ [EvSleep 1; EvGet])%list) as (n & Hn & ->).
      exists (S n). split; [lia|]. apply polls_succ.
Qed.

Lemma classify_ending lib s f : ending s (snd (classify lib s f)).
Proof.
  unfold classify, ending.
  destruct (state_name f) as [e|[| | |]]; simpl; auto;
    (destruct (generate_content s) as [e|text] eqn:Eg; simpl;
     [right; left; eauto|right; right; split; [|eauto]];
     destruct text as [text|]; [|reflexivity];
     now destruct (json_loads lib (strip_fences text)) as [e|[v|l|d]]).
Qed.

(** X3: what a task does with the service, whatever the service answers:
    nothing when the local copy fails; else one upload, then polls, each
    after a one-second sleep, then at most one classification call,
    followed by the deletion of the remote file exactly when that call
    returned. A file whose processing FAILED is never sent for
    classification. *)
Theorem task_call_discipline :
  forall (lib : library) (fuel : nat) (s : session) (i : nat) (fname : string),
    ((exists e, copy2 s = inl e) ->
     snd (analyze_single_paper lib fuel s i fname) = [])
    /\ ((exists u, copy2 s = inr u) ->
        exists n tail,
          n <= fuel
          /\ snd (analyze_single_paper lib fuel s i fname)
             = (EvUpload :: polls n ++ tail)%list
          /\ ending s tail)
    /\ (forall n u, copy2 s = inr u -> settles s n (inr (Some FAILED)) ->
          n <= fuel ->
          analyze_single_paper lib fuel s i fname
          = (Some (i, error "File processing failed"), EvUpload :: polls n)).
Proof.
  intros lib fuel s i fname. conjuncts.
  - intros [e He]. unfold analyze_single_paper, attempt. now rewrite He.
  - intros [u Hu]. unfold analyze_single_paper, attempt. rewrite Hu.
    destruct (files_upload s) as [e|f].
    + exists 0, []. conjuncts; [lia|reflexivity|now left].
    + destruct (wait_log s fuel 0 f [EvUpload]) as (n & Hn & Hlog).
      destruct (wait_while_processing fuel s 0 f [EvUpload]) as [[[e|f']|] log];
        simpl in Hlog; subst log.
      * exists n, []. conjuncts; [exact Hn|simpl; now rewrite app_nil_r|now left].
      * pose proof (classify_ending lib s f') as Hend.
        destruct (classify lib s f') as [r tail]. simpl in *.
        exists n, tail. conjuncts; auto.
      * exists n, []. conjuncts; [exact Hn|simpl; now rewrite app_nil_r|now left].
  - intros n u Hu Hsettles Hn. unfold analyze_single_paper.
    rewrite (attempt_settles lib s fuel n _ u Hu Hsettles Hn). simpl.
    now rewrite app_nil_r.
Qed.

Lemma run_tasks_blocked lib fuel w tasks i f :
  In (i, f) tasks ->
  fst (analyze_single_paper lib fuel (w i f) i f) = None ->
  run_tasks lib fuel w tasks = None.
Proof.
  induction tasks as [|[i0 f0] tasks IH]; intros Hin Hnone; [contradiction|].
  simpl. destruct Hin as [[= -> ->]|Hin].
  - now rewrite Hnone.
  - rewrite (IH Hin Hnone).
    now destruct (fst (analyze_single_paper lib fuel (w i0 f0) i0 f0)).
Qed.

(** X11: the run waits for every task, with no time limit of its own. It
    returns a table of as many rows when, for every task, the copy fails
    or the file leaves PROCESSING within the polls allowed; and as long as
    the file of one task is still reported PROCESSING, the run has not
    returned, whatever the other tasks did. *)
Theorem run_waits_for_every_task :
  forall (lib : library) completion (fuel : nat) (w : world)
         (listing : list string) (df : list row),
    ((forall i f, In (i, f) (build_tasks lib (pdfs_of listing) df) ->
        (exists e, copy2 (w i f) = inl e)
        \/ exists n x, n <= fuel /\ settles (w i f) n x) ->
     exists df', run_in_order completion lib fuel w listing df = Some df'
                 /\ List.length df' = List.length df)
    /\ (forall i f u,
          In (i, f) (build_tasks lib (pdfs_of listing) df) ->
          copy2 (w i f) = inr u ->
          (forall k, k <= fuel -> reported (w i f) k = inr (Some PROCESSING)) ->
          run_in_order completion lib fuel w listing df = None).
Proof.
  intros lib completion fuel w listing df. split.
  - intros Hsettle.
    assert (Hret : forall i f, In (i, f) (build_tasks lib (pdfs_of listing) df) ->
              fst (analyze_single_paper lib fuel (w i f) i f) <> None).
    { intros i f Hin. destruct (Hsettle i f Hin) as [[e He]|(n & x & Hn & Hx)].
      - now rewrite (copy_failure lib (w i f) fuel i f e He).
      - destruct (copy2 (w i f)) as [e|u] eqn:Ec.
        + now rewrite (copy_failure lib (w i f) fuel i f e Ec).
        + destruct (settled_task_returns lib (w i f) fuel n x u i f Ec Hx Hn)
            as (v & more & -> & _). discriminate. }
    destruct (run_tasks_total lib fuel w _ Hret) as [results Hres].
    unfold run_in_order.
    destruct (build_tasks lib (pdfs_of listing) df) as [|t tasks] eqn:Et; [eauto|].
    rewrite Hres. eexists. split; [reflexivity|].
    rewrite merge_all_mapi. apply mapi_from_length.
  - intros i f u Hin Hcopy Hproc. unfold run_in_order.
    rewrite (run_tasks_blocked lib fuel w _ i f Hin
               (starved_task lib (w i f) fuel u i f Hcopy Hproc)).
    destruct (build_tasks lib (pdfs_of listing) df); [contradiction|reflexivity].
Qed.

Lemma run_waits_witness :
  run_in_order (fun results => results) Fixtures.lib 1000
    (fun _ _ => Fixtures.stuck_session) Fixtures.folder Fixtures.table
  = None.
Proof.
  apply (proj2 (run_waits_for_every_task Fixtures.lib (fun results => results)
                  1000 (fun _ _ => Fixtures.stuck_session) Fixtures.folder
                  Fixtures.table)
           0 "smith_j_2020_deep_learning.pdf" tt).
  - left. reflexivity.
  - reflexivity.
  - intros [|k] _; reflexivity.
Defined.

Lemma task_call_witness :
  analyze_single_paper Fixtures.lib 1
    {| copy2 := inr tt; files_upload := inr (Some FAILED);
       files_get := fun _ => inr (Some FAILED);
       generate_content := inr (Some "[]"); files_delete := inr tt |}
    4 "x.pdf"
  = (Some (4, error "File processing failed"), EvUpload :: polls 0).
Proof.
  apply (proj2 (proj2 (task_call_discipline Fixtures.lib 1 _ 4 "x.pdf")) 0 tt).
  - reflexivity.
  - unfold settles. conjuncts.
    + intros k Hk. exfalso. exact (Nat.nlt_0_r k Hk).
    + reflexivity.
    + discriminate.
  - apply Nat.le_0_l.
Defined.

End AnalyzerMore.

(* ================================================================== *)
(** * Further properties of the text functions *)
(* ================================================================== *)

Module TextMore.
Import Py Step5 Step5Notions TextNotions NormalizerFacts.

Lemma append_empty s : s ++ "" = s.
Proof. induction s as [|c s IH]; simpl; [|rewrite IH]; reflexivity. Qed.

Lemma append_assoc (a b c : string) : (a ++ b) ++ c = a ++ (b ++ c).
Proof. induction a as [|x a IH]; simpl; [|rewrite IH]; reflexivity. Qed.

Lemma replace_absent old new s :
  contains old s = false -> replace old new s = s.
Proof.
  unfold replace. induction s as [|c s IH]; intros H; [reflexivity|].
  cbn [contains] in H. apply orb_false_iff in H as [Hp Hc].
  cbn [replace_from]. rewrite Hp. now rewrite (IH Hc).
Qed.

Lemma prefix_shorter a b s : prefix (a ++ b) s = true -> prefix a s = true.
Proof.
  revert s. induction a as [|x a IH]; intros s; [now destruct s|].
  destruct s as [|y s]; simpl; [discriminate|].
  destruct (ascii_dec x y); [apply IH|discriminate].
Qed.

Lemma contains_shorter a b s : contains a s = false -> contains (a ++ b) s = false.
Proof.
  induction s as [|c s IH]; cbn [contains]; intros H;
    apply orb_false_iff in H as [Hp Hc]; apply orb_false_iff; split.
  - destruct (prefix (a ++ b) "") eqn:E; [|reflexivity].
    apply prefix_shorter in E. congruence.
  - reflexivity.
  - destruct (prefix (a ++ b) (String c s)) eqn:E; [|reflexivity].
    apply prefix_shorter in E. congruence.
  - now apply IH.
Qed.

Lemma replace_clean_front old' new body rest :
  no_backquote body ->
  replace (String "`" old') new (body ++ rest)
  = body ++ replace (String "`" old') new rest.
Proof.
  unfold replace, no_backquote. induction body as [|c body IH]; intros H; [reflexivity|].
  cbn [all_chars] in H. apply andb_true_iff in H as [Hc Hb].
  cbn [append replace_from prefix].
  destruct (ascii_dec "`" c) as [<-|_]; [discriminate Hc|].
  now rewrite (IH Hb).
Qed.

(** X4: how an answer is cleaned before it is parsed. A text that holds
    no run of three backquotes is only stripped of the white space around
    it; and a text wrapped in a [```json] fence is reduced to its inner
    text, stripped, when that holds no backquote. *)
Theorem strip_fences_unwraps :
  (forall text, contains "```" text = false -> strip_fences text = strip text)
  /\ (forall body, no_backquote body ->
        strip_fences ("```json" ++ body ++ "```") = strip body).
Proof.
  split.
  - intros text H. unfold strip_fences.
    rewrite (replace_absent "```json" "" text (contains_shorter "```" "json" text H)).
    now rewrite (replace_absent "```" "" text H).
  - intros body H. unfold strip_fences.
    assert (E1 : replace "```json" "" ("```json" ++ body ++ "```") = body ++ "```").
    { unfold replace. cbn.
      change (replace_from "```json" "" 0 (body ++ "```"))
        with (replace "```json" "" (body ++ "```")).
      rewrite (replace_clean_front "``json" "" body "```" H).
      change (replace "```json" "" "```") with "```".
      assert (Hp : prefix "" (body ++ "```") = true) by now destruct (body ++ "```").
      now rewrite Hp. }
    rewrite E1. rewrite (replace_clean_front "``" "" body "```" H).
    cbn. now rewrite append_empty.
Qed.

Lemma strip_fences_witness :
  strip_fences ("```json" ++ (nl ++ "[1, 2]" ++ nl) ++ "```") = "[1, 2]"
  /\ strip_fences " [1, 2] " = "[1, 2]".
Proof.
  split.
  - rewrite (proj2 strip_fences_unwraps (nl ++ "[1, 2]" ++ nl) eq_refl).
    reflexivity.
  - now rewrite (proj1 strip_fences_unwraps " [1, 2] " eq_refl).
Defined.

(** ** The normal form *)

Lemma plain_fixed c :
  plain c = true -> lower_char c = c /\ sub_char c = c /\ c <> "."%char.
Proof.
  destruct c as [[] [] [] [] [] [] [] []]; vm_compute; intros H;
    try discriminate H; repeat split; discriminate.
Qed.

Lemma alnum_not_space c : is_lower_alnum c = true -> is_space c = false.
Proof.
  destruct c as [[] [] [] [] [] [] [] []]; vm_compute; intros H;
    try discriminate H; reflexivity.
Qed.

Lemma all_chars_app P a b :
  all_chars P (a ++ b) = all_chars P a && all_chars P b.
Proof.
  induction a as [|c a IH]; simpl; [reflexivity|].
  now rewrite IH, andb_assoc.
Qed.

Lemma all_chars_weaken (P Q : ascii -> bool) s :
  (forall c, P c = true -> Q c = true) ->
  all_chars P s = true -> all_chars Q s = true.
Proof.
  intros HPQ. induction s as [|c s IH]; simpl; [reflexivity|].
  intros H. apply andb_true_iff in H as [Hc Hs].
  now rewrite (HPQ c Hc), (IH Hs).
Qed.

Lemma join_plain words :
  Forall word words -> all_chars plain (join " " words) = true.
Proof.
  assert (Hw : forall w, word w -> all_chars plain w = true).
  { intros w [_ H]. apply (all_chars_weaken is_lower_alnum); [|exact H].
    intros c Hc. unfold plain. now rewrite Hc. }
  induction 1 as [|w words Hword Hwords IH]; [reflexivity|].
  destruct words as [|w' words]; [now apply Hw|].
  change (join " " (w :: w' :: words)) with (w ++ " " ++ join " " (w' :: words)).
  rewrite !all_chars_app, (Hw w Hword), IH. reflexivity.
Qed.

Lemma lower_plain s : all_chars plain s = true -> lower s = s.
Proof.
  induction s as [|c s IH]; simpl; [reflexivity|].
  intros H. apply andb_true_iff in H as [Hc Hs].
  now rewrite (proj1 (plain_fixed c Hc)), (IH Hs).
Qed.

Lemma re_sub_plain s : all_chars plain s = true -> re_sub_non_alnum s = s.
Proof.
  induction s as [|c s IH]; simpl; [reflexivity|].
  intros H. apply andb_true_iff in H as [Hc Hs].
  now rewrite (proj1 (proj2 (plain_fixed c Hc))), (IH Hs).
Qed.

Lemma no_extension_in_plain s :
  all_chars plain s = true -> contains ".pdf" s = false.
Proof.
  induction s as [|c s IH]; [reflexivity|].
  cbn [all_chars contains prefix]. intros H.
  apply andb_true_iff in H as [Hc Hs]. rewrite (IH Hs).
  destruct (ascii_dec "." c) as [<-|_]; [|reflexivity].
  now destruct (proj2 (proj2 (plain_fixed "." Hc))).
Qed.

Lemma split_from_word w rest : forall cur,
  all_chars is_lower_alnum w = true ->
  split_from cur (w ++ rest) = split_from (cur ++ w) rest.
Proof.
  induction w as [|c w IH]; intros cur H; simpl.
  - now rewrite append_empty.
  - simpl in H. apply andb_true_iff in H as [Hc Hw].
    rewrite (alnum_not_space c Hc), (IH _ Hw), append_assoc. reflexivity.
Qed.

Lemma split_from_blank cur rest :
  cur <> "" -> split_from cur (String " " rest) = cur :: split_from "" rest.
Proof. intros H. simpl. now rewrite (eqb_empty_false cur H). Qed.

Lemma split_from_end cur : cur <> "" -> split_from cur "" = [cur].
Proof. intros H. simpl. now rewrite (eqb_empty_false cur H). Qed.

Lemma split_join words :
  Forall word words -> split (join " " words) = words.
Proof.
  unfold split. induction 1 as [|w words [Hne Hw] Hwords IH]; [reflexivity|].
  destruct words as [|w' words].
  - cbn [join]. rewrite <- (append_empty w) at 1.
    rewrite (split_from_word w "" "" Hw). cbn [append].
    now apply split_from_end.
  - change (join " " (w :: w' :: words)) with (w ++ " " ++ join " " (w' :: words)).
    rewrite (split_from_word w _ "" Hw). cbn [append].
    rewrite (split_from_blank w _ Hne). now rewrite IH.
Qed.

(** X5: a normal form is its own normal form: normalizing twice gives
    what normalizing once gives. *)
Theorem normalize_text_idempotent :
  forall text : pyval,
    normalize_text (PyStr (normalize_text text)) = normalize_text text.
Proof.
  intros text. destruct (normalize_text_words text) as (words & -> & Hwords).
  pose proof (join_plain words Hwords) as Hplain.
  unfold normalize_text at 1. cbn [py_str].
  rewrite (lower_plain _ Hplain).
  rewrite (replace_absent ".pdf" "" _ (no_extension_in_plain _ Hplain)).
  rewrite (re_sub_plain _ Hplain). now rewrite (split_join words Hwords).
Qed.

(** ** The extension of a file name *)

Lemma lower_app a b : lower (a ++ b) = lower a ++ lower b.
Proof. induction a as [|c a IH]; simpl; [|rewrite IH]; reflexivity. Qed.

Ltac decide_chars :=
  repeat match goal with
         | |- context [ascii_dec ?a ?b] => destruct (ascii_dec a b); subst
         end.

Lemma prefix_extension_app c u :
  prefix ".pdf" (String c u ++ ".pdf") = prefix ".pdf" (String c u)
  /\ (prefix ".pdf" (String c u) = true -> 3 <= String.length u).
Proof.
  destruct u as [|c2 [|c3 [|c4 u]]]; cbn [append prefix String.length];
    decide_chars; split; try reflexivity; try discriminate;
    try (intros _; lia); try (now vm_compute).
  now destruct u.
Qed.

Lemma replace_extension_app u : forall skip,
  skip <= String.length u ->
  replace_from ".pdf" "" skip (u ++ ".pdf") = replace_from ".pdf" "" skip u.
Proof.
  induction u as [|c u IH]; intros skip Hskip.
  - simpl in Hskip. assert (skip = 0) as -> by lia. reflexivity.
  - destruct skip as [|skip].
    + change (replace_from ".pdf" "" 0 (String c u ++ ".pdf"))
        with (if prefix ".pdf" (String c u ++ ".pdf")
              then "" ++ replace_from ".pdf" "" 3 (u ++ ".pdf")
              else String c (replace_from ".pdf" "" 0 (u ++ ".pdf"))).
      change (replace_from ".pdf" "" 0 (String c u))
        with (if prefix ".pdf" (String c u)
              then "" ++ replace_from ".pdf" "" 3 u
              else String c (replace_from ".pdf" "" 0 u)).
      destruct (prefix_extension_app c u) as [-> Hlen].
      destruct (prefix ".pdf" (String c u)).
      * now rewrite (IH 3 (Hlen eq_refl)).
      * now rewrite (IH 0 (Nat.le_0_l _)).
    + simpl in Hskip. cbn [append replace_from]. apply IH. lia.
Qed.

(** X6: the matcher normalizes a file name and the same name followed by
    the extension [.pdf] (in lower or in upper case) to the same text. *)
Theorem normalize_text_drops_extension :
  forall name : string,
    normalize_text (PyStr (name ++ ".pdf")) = normalize_text (PyStr name)
    /\ normalize_text (PyStr (name ++ ".PDF")) = normalize_text (PyStr name).
Proof.
  intros name. unfold normalize_text. cbn [py_str]. rewrite !lower_app.
  change (lower ".pdf") with ".pdf". change (lower ".PDF") with ".pdf".
  unfold replace.
  now rewrite (replace_extension_app (lower name) 0 (Nat.le_0_l _)).
Qed.

End TextMore.

(* ================================================================== *)
(** * Further properties of the Batch Classifier *)
(* ================================================================== *)

Module BatchMore.
Import Py Step2 Step2Notions ScriptNotions BatchFacts.

Lemma batch_size_positive : 1 <= BATCH_SIZE.
Proof. unfold BATCH_SIZE. lia. Qed.

Lemma chunks_upto_cons fuel p papers :
  chunks_upto (S fuel) (p :: papers)
  = firstn BATCH_SIZE (p :: papers)
    :: chunks_upto fuel (skipn BATCH_SIZE (p :: papers)).
Proof. reflexivity. Qed.

Lemma skipn_shorter (p : paper) papers :
  List.length (skipn BATCH_SIZE (p :: papers)) <= List.length papers.
Proof.
  rewrite length_skipn. pose proof batch_size_positive. simpl List.length. lia.
Qed.

Lemma chunks_concat fuel : forall papers,
  List.length papers <= fuel -> concat (chunks_upto fuel papers) = papers.
Proof.
  induction fuel as [|fuel IH]; intros papers Hlen.
  - destruct papers; [reflexivity|simpl in Hlen; lia].
  - destruct papers as [|p papers]; [reflexivity|].
    rewrite chunks_upto_cons. cbn [concat]. rewrite IH.
    + apply firstn_skipn.
    + pose proof (skipn_shorter p papers). simpl in Hlen. lia.
Qed.

Lemma chunks_sizes fuel : forall papers c,
  In c (chunks_upto fuel papers) -> 1 <= List.length c <= BATCH_SIZE.
Proof.
  induction fuel as [|fuel IH]; intros papers c Hc.
  - destruct papers; contradiction.
  - destruct papers as [|p papers]; [contradiction|].
    rewrite chunks_upto_cons in Hc. destruct Hc as [<-|Hc]; [|eapply IH; eauto].
    rewrite length_firstn. pose proof batch_size_positive.
    simpl List.length. lia.
Qed.

Lemma chunks_count fuel : forall papers,
  List.length papers <= fuel ->
  List.length (chunks_upto fuel papers)
  = (List.length papers + (BATCH_SIZE - 1)) / BATCH_SIZE.
Proof.
  induction fuel as [|fuel IH]; intros papers Hlen.
  - destruct papers; [reflexivity|simpl in Hlen; lia].
  - destruct papers as [|p papers]; [reflexivity|].
    rewrite chunks_upto_cons. cbn [List.length].
    pose proof (skipn_shorter p papers) as Hs.
    rewrite IH by (simpl in Hlen; lia).
    rewrite length_skipn. cbn [List.length]. unfold BATCH_SIZE.
    destruct (Nat.le_gt_cases 20 (S (List.length papers))) as [Hge|Hlt].
    + replace (S (List.length papers) + (20 - 1))
        with ((S (List.length papers) - 20 + (20 - 1)) + 1 * 20) by lia.
      rewrite Nat.div_add by lia. lia.
    + replace (S (List.length papers) - 20) with 0 by lia.
      rewrite (Nat.div_small (0 + (20 - 1)) 20) by lia.
      apply (Nat.div_unique _ 20 1 (List.length papers)); lia.
Qed.

(** X7: the batches cut the papers that passed the pre-flight check into
    consecutive groups: put end to end they give those papers, each once
    and in order; no batch is empty or holds more than 20 papers; and
    there are as many batches as 20 goes into their number, rounded up. *)
Theorem batches_partition_valid_papers :
  forall valid : list paper,
    concat (batches valid) = map mini_of valid
    /\ (forall b, In b (batches valid) -> 1 <= List.length b <= BATCH_SIZE)
    /\ List.length (batches valid)
       = (List.length valid + (BATCH_SIZE - 1)) / BATCH_SIZE.
Proof.
  intros valid. unfold batches. conjuncts.
  - rewrite <- concat_map. now rewrite chunks_concat.
  - intros b Hb. apply in_map_iff in Hb as (c & <- & Hc).
    rewrite length_map. eapply chunks_sizes; eauto.
  - rewrite length_map. now apply chunks_count.
Qed.

Lemma attempts_bound svc prompt k : forall st,
  calls st <= calls (snd (attempts k svc prompt st)) <= calls st + k
  /\ (1 <= k -> calls st + 1 <= calls (snd (attempts k svc prompt st))).
Proof.
  induction k as [|k IH]; intros st; simpl; [lia|].
  destruct (ask svc prompt st) as [msg|decisions]; [|simpl; lia].
  destruct (rate_limited msg); [|simpl; lia].
  specialize (IH (emit (Sleep 10) (called prompt st))). simpl in IH. lia.
Qed.

Lemma phase2_bound svc bs : forall m st,
  calls (snd (phase2 svc bs m st)) <= calls st + 3 * List.length bs
  /\ (forall m', fst (phase2 svc bs m st) = inr m' ->
        calls st + List.length bs <= calls (snd (phase2 svc bs m st))).
Proof.
  induction bs as [|b bs IH]; intros m st; simpl; [split; [lia|intros; lia]|].
  unfold screen_batch.
  pose proof (attempts_bound svc (full_prompt b) 3 st) as Hb.
  destruct (attempts 3 svc (full_prompt b) st) as [decisions st1]. simpl in Hb.
  destruct (record_decisions decisions m) as [e|m1]; simpl.
  - split; [lia|discriminate].
  - specialize (IH m1 (emit (Sleep 1) st1)). simpl in IH.
    destruct IH as [Hup Hlow]. split; [lia|].
    intros m' Hm'. specialize (Hlow m' Hm'). lia.
Qed.

(** X8: whatever the service answers, the script calls it at most three
    times per batch, not at all when no paper passes the pre-flight check,
    and, when the script ends normally, at least once per batch. *)
Theorem script_call_budget :
  forall (svc : service) (rows : list entry),
    let n := List.length (batches (valid_papers_for_ai (load rows))) in
    calls (snd (script svc rows)) <= 3 * n
    /\ (valid_papers_for_ai (load rows) = [] -> snd (script svc rows)
                                                = {| calls := 0; log := [] |})
    /\ (forall out, fst (script svc rows) = inr out ->
          n <= calls (snd (script svc rows))).
Proof.
  intros svc rows n. subst n. unfold script.
  destruct (valid_papers_for_ai (load rows)) as [|p valid] eqn:Ev.
  - conjuncts; simpl; auto.
  - pose proof (phase2_bound svc (batches (p :: valid)) []
                  {| calls := 0; log := [] |}) as [Hup Hlow].
    destruct (phase2 svc (batches (p :: valid)) [] {| calls := 0; log := [] |})
      as [[e|m] st]; simpl in *; conjuncts; try lia; try discriminate.
    intros out _. apply (Hlow m eq_refl).
Qed.

Lemma phase2_failing svc :
  (forall prompt st, exists msg,
      ask svc prompt st = inl msg /\ rate_limited msg = false) ->
  forall bs m st,
    phase2 svc bs m st
    = (inr m, {| calls := calls st + List.length bs;
                 log := (log st ++ single_calls bs)%list |}).
Proof.
  intros Hfail. induction bs as [|b bs IH]; intros m st; simpl.
  - rewrite Nat.add_0_r, app_nil_r. now destruct st.
  - unfold screen_batch. cbn [attempts].
    destruct (Hfail (full_prompt b) st) as (msg & -> & ->).
    cbn [record_decisions record_items]. rewrite IH. simpl.
    f_equal. f_equal; [lia|]. now rewrite <- !app_assoc.
Qed.

(** X9: when every call fails with a message that holds neither [429]
    nor [RESOURCE_EXHAUSTED] (or gives a text that does not parse, with
    such a message), each batch is sent exactly once, with no 10-second
    delay, and the script ends normally: the papers that were sent stay
    unresolved and no row is written. *)
Theorem lasting_failure_one_call_per_batch :
  forall (svc : service) (rows : list entry),
    (forall prompt st, exists msg,
        ask svc prompt st = inl msg /\ rate_limited msg = false) ->
    script svc rows
    = (inr {| final_df := phase1 (load rows); saved := [] |},
       {| calls := List.length (batches (valid_papers_for_ai (load rows)));
          log := single_calls (batches (valid_papers_for_ai (load rows))) |})
    /\ forall p, In p (phase1 (load rows)) ->
         fst (pre_flight_check p) = true -> unresolved p.
Proof.
  intros svc rows Hfail. split; [|apply phase1_valid_unresolved].
  unfold script.
  rewrite (filtered_none (phase1 (load rows)) (phase1_excluded rows)).
  destruct (valid_papers_for_ai (load rows)) as [|p valid] eqn:Ev; [reflexivity|].
  rewrite (phase2_failing svc Hfail). simpl calls. simpl log.
  rewrite phase3_nothing.
  now rewrite (filtered_none (phase1 (load rows)) (phase1_excluded rows)).
Qed.

Lemma broken_fails_for_good :
  forall prompt st, exists msg,
    ask Fixtures.broken prompt st = inl msg /\ rate_limited msg = false.
Proof. intros prompt st. eexists. split; reflexivity. Defined.

Lemma lasting_failure_witness :
  calls (snd (script Fixtures.broken Fixtures.mixed_entries)) = 1
  /\ fst (script Fixtures.broken Fixtures.mixed_entries)
     = inr {| final_df := phase1 (load Fixtures.mixed_entries); saved := [] |}.
Proof.
  rewrite (proj1 (lasting_failure_one_call_per_batch Fixtures.broken
                    Fixtures.mixed_entries broken_fails_for_good)).
  split; reflexivity.
Defined.

Lemma ask_calls svc prompt st st' :
  calls st = calls st' -> ask svc prompt st = ask svc prompt st'.
Proof. intros H. unfold ask. now rewrite H. Qed.

Lemma attempts_recover svc prompt decisions text k : forall n st,
  k < n ->
  (forall j, j < k -> exists msg,
      generate_content svc (calls st + j) prompt = inl msg
      /\ rate_limited msg = true) ->
  generate_content svc (calls st + k) prompt = inr (Some text) ->
  json_loads svc (strip_fences text) = inr decisions ->
  attempts n svc prompt st
  = (decisions,
     {| calls := calls st + k + 1;
        log := (log st ++ retries k prompt ++ [Call prompt])%list |}).
Proof.
  induction k as [|k IH]; intros n st Hk Hbusy Hgen Hparse;
    (destruct n as [|n]; [lia|]); cbn [attempts]; unfold ask at 1.
  - rewrite Nat.add_0_r in Hgen. rewrite Hgen, Hparse. unfold called, retries.
    simpl. f_equal. f_equal. lia.
  - destruct (Hbusy 0 (Nat.lt_0_succ k)) as (msg & Hmsg & Hrl).
    rewrite Nat.add_0_r in Hmsg. rewrite Hmsg, Hrl.
    rewrite (IH n (emit (Sleep 10) (called prompt st))).
    + simpl. f_equal. f_equal; [lia|]. unfold retries. simpl.
      now rewrite <- !app_assoc.
    + lia.
    + intros j Hj. destruct (Hbusy (S j) ltac:(lia)) as (msg' & Hmsg' & Hrl').
      exists msg'. split; [|exact Hrl']. simpl.
      now rewrite Nat.add_succ_r in Hmsg'.
    + simpl. now rewrite Nat.add_succ_r in Hgen.
    + exact Hparse.
Qed.

(** X10: a batch survives up to two rate limits: when the first [k] calls
    for it ([k] at most 2) are rate limited and the next one answers a
    text that parses, [screen_batch] returns the parsed answer after
    [k + 1] calls with the same prompt and [k] delays of 10 seconds. *)
Theorem retry_recovers_from_rate_limits :
  forall (svc : service) (papers_batch : list mini) (st : state)
         (k : nat) (text : string) (decisions : json),
    k < 3 ->
    (forall j, j < k -> exists msg,
        generate_content svc (calls st + j) (full_prompt papers_batch) = inl msg
        /\ rate_limited msg = true) ->
    generate_content svc (calls st + k) (full_prompt papers_batch)
    = inr (Some text) ->
    json_loads svc (strip_fences text) = inr decisions ->
    screen_batch svc papers_batch st
    = (decisions,
       {| calls := calls st + k + 1;
          log := (log st ++ retries k (full_prompt papers_batch)
                  ++ [Call (full_prompt papers_batch)])%list |}).
Proof.
  intros svc papers_batch st k text decisions Hk Hbusy Hgen Hparse.
  unfold screen_batch. now apply (attempts_recover svc _ decisions text k).
Qed.

Lemma retry_witness :
  screen_batch (Fixtures.busy_twice Fixtures.answer_partial)
    (map mini_of (load Fixtures.three_entries)) Fixtures.start
  = (JList Fixtures.partial_decisions,
     {| calls := 3;
        log := (retries 2 (full_prompt (map mini_of (load Fixtures.three_entries)))
                ++ [Call (full_prompt (map mini_of (load Fixtures.three_entries)))])%list |}).
Proof.
  apply (retry_recovers_from_rate_limits
           (Fixtures.busy_twice Fixtures.answer_partial)
           (map mini_of (load Fixtures.three_entries)) Fixtures.start 2
           Fixtures.answer_partial (JList Fixtures.partial_decisions)).
  - repeat constructor.
  - intros j Hj. exists "429 RESOURCE_EXHAUSTED.". split; [|reflexivity].
    destruct j as [|[|j]]; [reflexivity|reflexivity|].
    exfalso. apply (Nat.lt_irrefl 2). eapply Nat.le_lt_trans; [|exact Hj].
    apply le_n_S, le_n_S, Nat.le_0_l.
  - reflexivity.
  - reflexivity.
Defined.

Lemma slept_app a b : slept (a ++ b) = (slept a + slept b)%Z.
Proof.
  induction a as [|[q|z] a IH]; simpl; [reflexivity|exact IH|rewrite IH; lia].
Qed.

Lemma attempts_slept svc prompt k : forall st,
  (slept (log st) <= slept (log (snd (attempts k svc prompt st)))
   <= slept (log st) + 10 * Z.of_nat k)%Z.
Proof.
  induction k as [|k IH]; intros st; [simpl; lia|]. cbn [attempts].
  destruct (ask svc prompt st) as [msg|decisions];
    [|simpl; rewrite slept_app; simpl; lia].
  destruct (rate_limited msg); [|simpl; rewrite slept_app; simpl; lia].
  specialize (IH (emit (Sleep 10) (called prompt st))).
  assert (Hs : slept (log (emit (Sleep 10) (called prompt st)))
               = (slept (log st) + 10)%Z).
  { simpl. rewrite !slept_app. simpl. lia. }
  rewrite Hs in IH. rewrite Nat2Z.inj_succ. lia.
Qed.

Lemma phase2_slept svc bs : forall m st,
  (slept (log (snd (phase2 svc bs m st)))
   <= slept (log st) + 31 * Z.of_nat (List.length bs))%Z.
Proof.
  induction bs as [|b bs IH]; intros m st; [simpl; lia|].
  cbn [phase2]. unfold screen_batch.
  pose proof (attempts_slept svc (full_prompt b) 3 st) as Hb.
  destruct (attempts 3 svc (full_prompt b) st) as [decisions st1]. simpl in Hb.
  assert (Hs : slept (log (emit (Sleep 1) st1)) = (slept (log st1) + 1)%Z).
  { simpl. rewrite slept_app. simpl. lia. }
  destruct (record_decisions decisions m) as [e|m1]; cbn [snd List.length];
    rewrite Nat2Z.inj_succ.
  - lia.
  - specialize (IH m1 (emit (Sleep 1) st1)). rewrite Hs in IH. lia.
Qed.

(** X15: whatever the service answers, the delays of the script add up to
    at most 31 seconds per batch: three waits of 10 seconds for rate
    limits and the pause of one second after the batch. *)
Theorem script_sleep_budget :
  forall (svc : service) (rows : list entry),
    (0 <= slept (log (snd (script svc rows)))
     <= 31 * Z.of_nat (List.length (batches (valid_papers_for_ai (load rows)))))%Z.
Proof.
  intros svc rows. unfold script.
  destruct (valid_papers_for_ai (load rows)) as [|p valid] eqn:Ev; [simpl; lia|].
  pose proof (phase2_slept svc (batches (p :: valid)) []
                {| calls := 0; log := [] |}) as Hup.
  assert (Hlow : forall bs m st,
             (slept (log st) <= slept (log (snd (phase2 svc bs m st))))%Z).
  { induction bs as [|b bs IH]; intros m st; [simpl; lia|].
    cbn [phase2]. unfold screen_batch.
    pose proof (attempts_slept svc (full_prompt b) 3 st) as Hb.
    destruct (attempts 3 svc (full_prompt b) st) as [decisions st1]. simpl in Hb.
    assert (Hs : slept (log (emit (Sleep 1) st1)) = (slept (log st1) + 1)%Z).
    { simpl. rewrite slept_app. simpl. lia. }
    destruct (record_decisions decisions m) as [e|m1]; cbn [snd]; [lia|].
    specialize (IH m1 (emit (Sleep 1) st1)). rewrite Hs in IH. lia. }
  specialize (Hlow (batches (p :: valid)) [] {| calls := 0; log := [] |}).
  destruct (phase2 svc (batches (p :: valid)) [] {| calls := 0; log := [] |})
    as [[e|m] st]; simpl in *; lia.
Qed.

End BatchMore.

(* ================================================================== *)
(** * The progress report of the Batch Classifier *)
(* ================================================================== *)

Module ReportFacts.
Import Py Step2 Step2Report Step2Notions BatchFacts.

Lemma answer_for_In key items d :
  answer_for key items = Some d -> In (JDict d) items.
Proof.
  induction items as [|item items IH]; simpl; [discriminate|].
  destruct (answer_for key items) as [d'|].
  - intros [= ->]. right. now apply IH.
  - destruct item as [v|l|d0]; try discriminate.
    destruct (names key d0); [|discriminate]. intros [= ->]. now left.
Qed.

Lemma kept_or_rejected v :
  py_eq v (PyBool true) && py_eq v (PyBool false) = false.
Proof.
  destruct v as [| |[|]|z|t]; try reflexivity. simpl.
  destruct (z =? 1)%Z eqn:E; [|reflexivity].
  apply Z.eqb_eq in E. now subst z.
Qed.

Lemma kept_and_rejected_bound df :
  List.length (filtered_df df) + List.length (rejected_df df) <= List.length df.
Proof.
  induction df as [|p df IH]; simpl; [lia|].
  pose proof (kept_or_rejected (Included p)) as H.
  destruct (py_eq (Included p) (PyBool true));
    destruct (py_eq (Included p) (PyBool false)); simpl in *;
    try discriminate; lia.
Qed.

Lemma kept_and_rejected_split df :
  (forall p, In p df -> exists b, Included p = PyBool b) ->
  Permutation df (filtered_df df ++ rejected_df df).
Proof.
  induction df as [|p df IH]; intros H; simpl; [constructor|].
  assert (IH' : Permutation df (filtered_df df ++ rejected_df df)).
  { apply IH. intros q Hq. apply H. now right. }
  destruct (H p (or_introl eq_refl)) as [[|] ->]; simpl.
  - now constructor.
  - now apply Permutation_cons_app.
Qed.

Lemma final_included_boolean svc rows out st :
  script svc rows = (inr out, st) ->
  (forall d,
      In (JDict d) (gathered svc (batches (valid_papers_for_ai (load rows)))
                      {| calls := 0; log := [] |}) ->
      exists b, dict_get "Included" d (PyBool false) = PyBool b) ->
  forall p, In p (final_df out) -> exists b, Included p = PyBool b.
Proof.
  intros Hscript Hbool p Hp. apply In_nth_error in Hp as [i Hi].
  assert (He : nth_error rows i = Some (source p)).
  { rewrite <- (proj1 (script_rows svc rows out st Hscript)).
    now rewrite nth_error_map, Hi. }
  rewrite (merged_row svc rows out st i (source p) Hscript He) in Hi.
  injection Hi as <-.
  destruct (answer_for _ _) as [d|] eqn:Ea.
  - apply Hbool. now apply (answer_for_In _ _ _ Ea).
  - exists false. now apply auto_reject_excluded.
Qed.

(** X12: the report and the output file account for the papers. A paper
    is never both written and listed as rejected. When the [Included]
    value of every decision that came back is a boolean, every paper of
    the input is either written to the output file or listed in the
    report, the listed ones in table order with their reasons, and the
    number of papers listed is the figure the summary gives as
    rejected. *)
Theorem report_accounts_for_papers :
  (forall df,
      List.length (filtered_df df) + List.length (rejected_df df)
      <= List.length df)
  /\ (forall (svc : service) (rows : list entry) (out : outcome) (st : state)
             (in_csv out_csv : string),
        script svc rows = (inr out, st) ->
        (forall d,
            In (JDict d) (gathered svc (batches (valid_papers_for_ai (load rows)))
                            {| calls := 0; log := [] |}) ->
            exists b, dict_get "Included" d (PyBool false) = PyBool b) ->
        Permutation (final_df out) (saved out ++ rejected_df (final_df out))
        /\ skipn 6 (report_of in_csv out_csv out)
           = map detail (rejected_df (final_df out))
        /\ nth_error (report_of in_csv out_csv out) 3
           = Some {| Input_File := PyStr "Total Irrelevant (Rejected)";
                     Output_File :=
                       PyInt (Z.of_nat (List.length (rejected_df (final_df out))));
                     Status_Reason := PyStr "" |}).
Proof.
  split; [exact kept_and_rejected_bound|].
  intros svc rows out st in_csv out_csv Hscript Hbool.
  pose proof (final_included_boolean svc rows out st Hscript Hbool) as Hb.
  pose proof (kept_and_rejected_split (final_df out) Hb) as Hsplit.
  assert (Hsaved : saved out = filtered_df (final_df out)).
  { apply (script_rows svc rows out st Hscript). }
  conjuncts.
  - now rewrite Hsaved.
  - reflexivity.
  - unfold report_of, report_data. cbn [nth_error app]. do 3 f_equal.
    unfold count. rewrite Hsaved. apply Permutation_length in Hsplit.
    rewrite length_app in Hsplit. lia.
Qed.

Lemma partial_answer_booleans :
  forall d,
    In (JDict d)
      (gathered (Fixtures.answering Fixtures.answer_partial)
         (batches (valid_papers_for_ai (load Fixtures.three_entries)))
         {| calls := 0; log := [] |}) ->
    exists b, dict_get "Included" d (PyBool false) = PyBool b.
Proof.
  intros d [[= <-]|[[= <-]|[]]]; eexists; reflexivity.
Defined.

Lemma report_witness :
  nth_error
    (report_data "in.csv" "out.csv"
       (phase3 [(PyInt 0, [("ID", PyInt 0); ("Included", PyBool false);
                           ("Reason", PyStr "off topic")]);
                (PyInt 2, [("ID", PyInt 2); ("Included", PyBool true);
                           ("Reason", PyStr "on topic")])]
          (phase1 (load Fixtures.three_entries)))
       (filtered_df
          (phase3 [(PyInt 0, [("ID", PyInt 0); ("Included", PyBool false);
                              ("Reason", PyStr "off topic")]);
                   (PyInt 2, [("ID", PyInt 2); ("Included", PyBool true);
                              ("Reason", PyStr "on topic")])]
             (phase1 (load Fixtures.three_entries))))) 3
  = Some {| Input_File := PyStr "Total Irrelevant (Rejected)";
            Output_File := PyInt 2; Status_Reason := PyStr "" |}.
Proof.
  exact (proj2 (proj2 (proj2 report_accounts_for_papers
                         (Fixtures.answering Fixtures.answer_partial)
                         Fixtures.three_entries _ _ "in.csv" "out.csv"
                         eq_refl partial_answer_booleans))).
Defined.

End ReportFacts.

(* ================================================================== *)
(** * The orchestrator *)
(* ================================================================== *)

Module MasterFacts.
Import Py Step5Notions Master MasterNotions.

Lemma split_unique {A} (x : A) front : forall front' back back',
  NoDup (front ++ x :: back) ->
  (front ++ x :: back = front' ++ x :: back')%list -> front = front'.
Proof.
  induction front as [|a front IH]; intros [|a' front'] back back' Hnd Heq;
    simpl in *.
  - reflexivity.
  - injection Heq as <- ->. inversion Hnd as [|? ? Hnotin _]; subst.
    exfalso. apply Hnotin. apply in_or_app. right. now left.
  - injection Heq as -> _. inversion Hnd as [|? ? Hnotin _]; subst.
    exfalso. apply Hnotin. apply in_or_app. right. now left.
  - injection Heq as <- Heq. inversion Hnd as [|? ? _ Hnd']; subst.
    f_equal. eapply IH; eauto.
Qed.

Lemma run_step_log world s log m :
  In m (fst (run_step world s log)) ->
  In m log \/ m = Starting s \/ (exists l, m = Output l)
  \/ m = Completed s \/ m = Fatal s (returncode (world s)) \/ m = Halting.
Proof.
  unfold run_step.
  assert (Hmid : In m (log ++ Starting s
                         :: map (fun l => Output (strip l)) (stdout (world s))) ->
                 In m log \/ m = Starting s \/ exists l, m = Output l).
  { intros H. apply in_app_or in H as [H|[<-|H]]; auto.
    apply in_map_iff in H as (l & <- & _). eauto. }
  destruct (returncode (world s) =? 0)%Z; simpl; intros H;
    apply in_app_or in H as [H|H].
  - destruct (Hmid H) as [?|[?|?]]; auto.
  - destruct H as [<-|[]]; auto.
  - destruct (Hmid H) as [?|[?|?]]; auto.
  - destruct H as [<-|[<-|[]]]; auto 7.
Qed.

Lemma run_step_keeps world s log m :
  In m log -> In m (fst (run_step world s log)).
Proof.
  unfold run_step. intros H.
  destruct (returncode (world s) =? 0)%Z; simpl;
    apply in_or_app; left; apply in_or_app; now left.
Qed.

Lemma run_step_starts world s log : In (Starting s) (fst (run_step world s log)).
Proof.
  unfold run_step.
  destruct (returncode (world s) =? 0)%Z; simpl;
    apply in_or_app; left; apply in_or_app; right; now left.
Qed.

Lemma run_step_exit world s log :
  snd (run_step world s log) = false <-> succeeded world s.
Proof.
  unfold run_step, succeeded.
  destruct (returncode (world s) =? 0)%Z eqn:E; simpl.
  - apply Z.eqb_eq in E. tauto.
  - apply Z.eqb_neq in E. split; [discriminate|contradiction].
Qed.

Lemma run_steps_spec world steps : forall log,
  (snd (run_steps world steps log) = None <-> Forall (succeeded world) steps)
  /\ (snd (run_steps world steps log) = None
      \/ snd (run_steps world steps log) = Some 1%Z)
  /\ (In Finished (fst (run_steps world steps log)) -> In Finished log)
  /\ forall s,
       In (Starting s) (fst (run_steps world steps log)) <->
       In (Starting s) log
       \/ exists front back,
            steps = (front ++ s :: back)%list /\ Forall (succeeded world) front.
Proof.
  induction steps as [|t steps IH]; intros log; simpl.
  - conjuncts; auto.
    + split; [constructor|reflexivity].
    + intros s. split; [auto|]. intros [H|(front & back & H & _)]; [exact H|].
      now destruct front.
  - pose proof (run_step_exit world t log) as Hexit.
    pose proof (run_step_log world t log) as Hlog.
    pose proof (run_step_keeps world t log) as Hkeep.
    pose proof (run_step_starts world t log) as Hstart.
    destruct (run_step world t log) as [log1 exited]. simpl in *.
    destruct exited.
    + assert (Hfail : ~ succeeded world t).
      { intros H. apply Hexit in H. discriminate. }
      simpl. conjuncts.
      * split; [discriminate|]. intros H. inversion H; subst. contradiction.
      * now right.
      * intros H. destruct (Hlog _ H) as [?|[?|[[l ?]|[?|[?|?]]]]];
          auto; discriminate.
      * intros s. split.
        -- intros H. destruct (Hlog _ H) as [?|[E|[[l E]|[E|[E|E]]]]];
             auto; try discriminate.
           injection E as ->. right. exists [], steps. split; [reflexivity|constructor].
        -- intros [H|(front & back & Hsplit & Hok)]; [auto|].
           destruct front as [|a front]; simpl in Hsplit.
           ++ injection Hsplit as -> _. exact Hstart.
           ++ injection Hsplit as -> _. inversion Hok; subst. contradiction.
    + assert (Hok : succeeded world t) by now apply Hexit.
      destruct (IH log1) as (Hnone & Hcode & Hfin & Hstarted). conjuncts.
      * rewrite Hnone. split; [now constructor|]. intros H. now inversion H.
      * exact Hcode.
      * intros H. apply Hfin in H.
        destruct (Hlog _ H) as [?|[?|[[l ?]|[?|[?|?]]]]]; auto; discriminate.
      * intros s. rewrite Hstarted. split.
        -- intros [H|(front & back & -> & Hfront)].
           ++ destruct (Hlog _ H) as [?|[E|[[l E]|[E|[E|E]]]]];
                auto; try discriminate.
              injection E as ->. right. exists [], steps.
              split; [reflexivity|constructor].
           ++ right. exists (t :: front), back. split; [reflexivity|now constructor].
        -- intros [H|(front & back & Hsplit & Hfront)]; [auto|].
           destruct front as [|a front]; simpl in Hsplit.
           ++ injection Hsplit as -> _. left. exact Hstart.
           ++ injection Hsplit as -> ->. inversion Hfront; subst.
              right. exists front, back. auto.
Qed.

Lemma pipeline_NoDup : NoDup pipeline.
Proof.
  unfold pipeline.
  repeat (constructor; [simpl; intuition discriminate|]). constructor.
Qed.

Lemma pipeline_all world :
  Forall (succeeded world) pipeline <-> forall s, succeeded world s.
Proof.
  unfold pipeline. split.
  - intros H [| | | |]; rewrite Forall_forall in H; apply H; simpl; auto 6.
  - intros H. repeat constructor; apply H.
Qed.

(** X13: the orchestrator runs the five scripts in order and starts a
    script exactly when all the scripts before it exited with code 0; it
    ends with status 0, after the message that the pipeline finished,
    exactly when all five did, and with status 1 otherwise. *)
Theorem pipeline_halts_at_first_failure :
  forall (world : step -> process),
    (forall front s back,
        pipeline = (front ++ s :: back)%list ->
        (In (Starting s) (fst (main world)) <->
         forall t, In t front -> returncode (world t) = 0%Z))
    /\ (snd (main world) = 0%Z <-> forall s, returncode (world s) = 0%Z)
    /\ (snd (main world) = 0%Z \/ snd (main world) = 1%Z)
    /\ (In Finished (fst (main world)) <-> snd (main world) = 0%Z).
Proof.
  intros world. unfold main.
  destruct (run_steps_spec world pipeline [Initializing; Workspace])
    as (Hnone & Hcode & Hfin & Hstarted).
  destruct (run_steps world pipeline [Initializing; Workspace]) as [log ex].
  simpl in *. conjuncts.
  - intros front s back Hsplit.
    assert (Hlog : In (Starting s) (fst (match ex with
                                         | Some code => (log, code)
                                         | None => ((log ++ [Finished])%list, 0%Z)
                                         end)) <-> In (Starting s) log).
    { destruct ex; simpl; [tauto|]. split.
      - intros H. apply in_app_or in H as [H|[H|[]]]; [exact H|discriminate].
      - intros H. apply in_or_app. now left. }
    rewrite Hlog, Hstarted, <- Forall_forall. split.
    + intros [[H|[H|[]]]|(front' & back' & Hsplit' & Hok)]; try discriminate.
      rewrite Hsplit in Hsplit'.
      rewrite (split_unique s front front' back back'); auto.
      rewrite <- Hsplit. apply pipeline_NoDup.
    + intros Hok. right. eauto.
  - rewrite <- (pipeline_all world), <- Hnone.
    destruct ex as [code|]; simpl; [|tauto].
    destruct Hcode as [H|H]; [discriminate|]. injection H as ->.
    split; discriminate.
  - destruct ex as [code|]; simpl; [|now left].
    destruct Hcode as [H|H]; [discriminate|]. injection H as ->. now right.
  - destruct ex as [code|]; simpl.
    + destruct Hcode as [H|H]; [discriminate|]. injection H as ->.
      split; [|discriminate]. intros H. apply Hfin in H.
      destruct H as [H|[H|[]]]; discriminate.
    + split; [reflexivity|]. intros _. apply in_or_app. right. now left.
Qed.

Lemma pipeline_witness :
  In (Starting Relevancy_Filter) (fst (main Fixtures.crash_at_filter))
  /\ ~ In (Starting Download_PDFs) (fst (main Fixtures.crash_at_filter))
  /\ snd (main Fixtures.crash_at_filter) = 1%Z.
Proof.
  destruct (pipeline_halts_at_first_failure Fixtures.crash_at_filter)
    as (Hstart & _ & _ & _).
  conjuncts.
  - apply (Hstart [Search] Relevancy_Filter [Download_PDFs; Formatting; Analysis]
             eq_refl).
    intros t [<-|[]]. reflexivity.
  - intros H.
    pose proof (proj1 (Hstart [Search; Relevancy_Filter] Download_PDFs
                         [Formatting; Analysis] eq_refl) H
                  Relevancy_Filter (or_intror (or_introl eq_refl))) as H'.
    discriminate H'.
  - reflexivity.
Defined.

Lemma isalnum_name c : isalnum c = true -> name_char c = true.
Proof. intros H. unfold name_char. now rewrite H. Qed.

Lemma safe_keyword_alnum KEYWORD : all_chars isalnum (safe_keyword KEYWORD) = true.
Proof.
  induction KEYWORD as [|c rest IH]; simpl; [reflexivity|].
  destruct (isalnum c) eqn:E; simpl; [now rewrite E|exact IH].
Qed.

Lemma safe_keyword_filter KEYWORD :
  list_ascii_of_string (safe_keyword KEYWORD)
  = filter isalnum (list_ascii_of_string KEYWORD).
Proof.
  induction KEYWORD as [|c rest IH]; [reflexivity|].
  cbn [safe_keyword list_ascii_of_string filter].
  destruct (isalnum c); cbn [append list_ascii_of_string]; now rewrite IH.
Qed.

Lemma safe_keyword_fixed s : all_chars isalnum s = true -> safe_keyword s = s.
Proof.
  induction s as [|c s IH]; simpl; [reflexivity|].
  intros H. apply andb_true_iff in H as [Hc Hs]. rewrite Hc. simpl.
  now rewrite (IH Hs).
Qed.

Lemma all_chars_append P a b :
  all_chars P a = true -> all_chars P b = true -> all_chars P (a ++ b) = true.
Proof.
  induction a as [|c a IH]; simpl; [auto|].
  intros Ha Hb. apply andb_true_iff in Ha as [Hc Ha].
  now rewrite Hc, (IH Ha Hb).
Qed.

Lemma all_chars_implies (P Q : ascii -> bool) s :
  (forall c, P c = true -> Q c = true) ->
  all_chars P s = true -> all_chars Q s = true.
Proof.
  intros HPQ. induction s as [|c s IH]; simpl; [reflexivity|].
  intros H. apply andb_true_iff in H as [Hc Hs].
  now rewrite (HPQ c Hc), (IH Hs).
Qed.

Lemma no_foreign_char P sep s :
  all_chars P s = true -> P sep = false -> contains (String sep "") s = false.
Proof.
  induction s as [|c s IH]; [reflexivity|].
  cbn [all_chars contains prefix]. intros H Hsep.
  apply andb_true_iff in H as [Hc Hs]. rewrite (IH Hs Hsep).
  destruct (ascii_dec sep c) as [<-|_]; [congruence|reflexivity].
Qed.

(** X14: the keyword of the run folder is the configured keyword with
    every character that is not a letter or a digit left out: it keeps
    the letters and digits, each once and in order, and nothing else; a
    keyword of letters and digits is kept whole. With a time stamp of
    digits and underscores, the name of the run folder holds letters,
    digits and underscores only, so no path separator, blank or dot. *)
Theorem run_folder_name_is_plain :
  forall KEYWORD : string,
    list_ascii_of_string (safe_keyword KEYWORD)
    = filter isalnum (list_ascii_of_string KEYWORD)
    /\ all_chars isalnum (safe_keyword KEYWORD) = true
    /\ safe_keyword (safe_keyword KEYWORD) = safe_keyword KEYWORD
    /\ (all_chars isalnum KEYWORD = true -> safe_keyword KEYWORD = KEYWORD)
    /\ (forall timestamp,
          all_chars name_char timestamp = true ->
          all_chars name_char (RUN_DIR KEYWORD timestamp) = true
          /\ forall sep, name_char sep = false ->
               contains (String sep "") (RUN_DIR KEYWORD timestamp) = false).
Proof.
  intros KEYWORD. pose proof (safe_keyword_alnum KEYWORD) as Hsafe. conjuncts.
  - apply safe_keyword_filter.
  - exact Hsafe.
  - now apply safe_keyword_fixed.
  - apply safe_keyword_fixed.
  - intros timestamp Hstamp.
    assert (Hname : all_chars name_char (RUN_DIR KEYWORD timestamp) = true).
    { unfold RUN_DIR. apply all_chars_append; [reflexivity|].
      apply all_chars_append;
        [now apply (all_chars_implies isalnum name_char _ isalnum_name)|].
      now apply all_chars_append. }
    split; [exact Hname|]. intros sep Hsep. now apply (no_foreign_char name_char).
Qed.

Lemma run_folder_witness :
  RUN_DIR "Deep Learning / 2020" "20261103_0915" = "Run_DeepLearning2020_20261103_0915"
  /\ contains "/" (RUN_DIR "Deep Learning / 2020" "20261103_0915") = false.
Proof.
  split; [reflexivity|].
  apply (proj2 (proj2 (proj2 (proj2 (proj2
                  (run_folder_name_is_plain "Deep Learning / 2020"))))
                  "20261103_0915" eq_refl)).
  reflexivity.
Defined.

End MasterFacts.
